(** * ge_world: point-mass and 2D peg-insertion environments

    A shallow embedding of [ge_world/amy_point_mass.py] and
    [ge_world/peg_2d.py].  float64 values are idealised as real numbers
    ([R]); Python integers are [Z]; numpy arrays are lists of reals; the
    MuJoCo harness ([ge_world.mujoco_env]) is an interface; a raised
    exception is a value of [Py.result]. *)

From Stdlib Require Import String.
From Stdlib Require Import Reals Lra Lia ZArith List Bool.
Import ListNotations.
Local Open Scope R_scope.

(** ** Python values: exceptions and list indexing *)
Module Py.

Inductive exn : Type :=
| AssertionError
| IndexError
| TypeError
| AttributeError.

Inductive result (A : Type) : Type :=
| Ok (a : A)
| Raise (e : exn).
Arguments Ok {A} a.
Arguments Raise {A} e.

Definition bind {A B : Type} (c : result A) (f : A -> result B) : result B :=
  match c with
  | Ok a => f a
  | Raise e => Raise e
  end.

Definition is_ok {A : Type} (c : result A) : bool :=
  match c with Ok _ => true | Raise _ => false end.

(** [l[i]] for a Python list and a Python int: a negative index counts
    from the end, and only an index outside [-len, len) raises. *)
Definition getitem {A : Type} (l : list A) (i : Z) : result A :=
  let n := Z.of_nat (List.length l) in
  let j := if (i <? 0)%Z then (i + n)%Z else i in
  if ((j <? 0) || (n <=? j))%Z then Raise IndexError
  else match nth_error l (Z.to_nat j) with
       | Some x => Ok x
       | None => Raise IndexError
       end.

End Py.

Notation "x <- c ;; k" := (Py.bind c (fun x => k))
  (at level 61, c at next level, right associativity).

(** ** numpy on idealised floats *)
Module Np.

Definition ltb (x y : R) : bool := if Rlt_dec x y then true else false.
Definition eqb (x y : R) : bool := if Req_dec_T x y then true else false.

(** [np.sign] *)
Definition sign (x : R) : R :=
  if Rlt_dec x 0 then -1 else if Rlt_dec 0 x then 1 else 0.

(** [float(b)] *)
Definition float_of_bool (b : bool) : R := if b then 1 else 0.

(** A one- or two-dimensional array of floats. *)
Inductive ndarray : Type :=
| Vec (v : list R)
| Mat (rows : list (list R)).

Definition ravel (a : ndarray) : list R :=
  match a with
  | Vec v => v
  | Mat rows => concat rows
  end.

(** Elementwise [u - v] of two vectors of one shape. *)
Fixpoint sub (u v : list R) : list R :=
  match u, v with
  | x :: u', y :: v' => (x - y) :: sub u' v'
  | _, _ => []
  end.

(** [x - g] for a vector [x]: against a matrix, [x] is broadcast over the
    rows. *)
Definition sub_broadcast (x : list R) (g : ndarray) : ndarray :=
  match g with
  | Vec v => Vec (sub x v)
  | Mat rows => Mat (map (sub x) rows)
  end.

(** [np.square(v).sum()] *)
Definition square_sum (v : list R) : R :=
  fold_right (fun x acc => x * x + acc) 0 v.

(** [np.linalg.norm] of a vector (for a matrix, of its entries: the
    Frobenius norm). *)
Definition norm (v : list R) : R := sqrt (square_sum v).

(** [v[:n] = c] *)
Fixpoint fill_prefix (n : nat) (c : R) (v : list R) : list R :=
  match n, v with
  | S n', _ :: v' => c :: fill_prefix n' c v'
  | _, _ => v
  end.

(** [v[-1:] = c] *)
Definition fill_last (c : R) (v : list R) : list R :=
  match v with
  | [] => []
  | _ :: _ => removelast v ++ [c]
  end.

End Np.

(** ** The instance random generator ([np.random.RandomState])

    A generator is the sequence of its unit-interval draws and a cursor;
    [uniform] is numpy's [low + (high - low) * random_sample()], and an
    array of draws is filled in row-major order. *)
Module Rng.

Record RandomState : Type := {
  draws : nat -> R;
  cursor : nat
}.

Definition advance (n : nat) (st : RandomState) : RandomState :=
  {| draws := draws st; cursor := (cursor st + n)%nat |}.

Definition random_sample (st : RandomState) : R * RandomState :=
  (draws st (cursor st), advance 1 st).

Fixpoint uniform (low high : R) (size : nat) (st : RandomState)
  : list R * RandomState :=
  match size with
  | O => ([], st)
  | S n =>
      let (u, st1) := random_sample st in
      let (xs, st2) := uniform low high n st1 in
      ((low + (high - low) * u) :: xs, st2)
  end.

(** Every draw of [random_sample] lies in the half-open unit interval. *)
Definition well_formed (st : RandomState) : Prop :=
  forall i : nat, 0 <= draws st i < 1.

End Rng.

(** ** The simulation harness

    [ge_world.mujoco_env.MujocoEnv], the base class of both environments,
    wraps the physics engine.  It is an interface here: the simulator state
    with its joint positions and velocities, [set_state], [do_simulation],
    the body centre-of-mass query, the grey-scale render (with the
    transposition and scaling the callers apply to it), and the direct
    write to [sim.data.qpos] and [sim.data.qvel]. *)
Class MujocoEnv : Type := {
  Sim : Type;
  Image : Type;
  sim_qpos : Sim -> list R;
  sim_qvel : Sim -> list R;
  set_state : list R -> list R -> Sim -> Sim;
  do_simulation : list R -> nat -> Sim -> Sim;
  get_body_com : string -> Sim -> list R;
  render_grey : nat -> nat -> Sim -> Image;
  write_data : list R -> list R -> Sim -> Sim
}.

(** An action handed to [step]: an index of the discrete table, or a
    control vector. *)
Inductive action : Type :=
| Index (i : Z)
| Ctrl (v : list R).

(** ** amy_point_mass.py *)
Module AmyPointMass.
Import Py Np.

Record Controls : Type := {
  k : Z;
  goals : ndarray;
  index : Z
}.

(** [Controls.__init__]: [goals0] is the array [sample_goal()] draws from
    the instance generator; the index starts at 0. *)
Definition Controls_init (k_goals : Z) (goals0 : ndarray) : Controls :=
  {| k := k_goals; goals := goals0; index := 0 |}.

Definition sample_goal (c : Controls) (g : ndarray) : Controls :=
  {| k := k c; goals := g; index := index c |}.

(** [Controls.sample_task]: [randint] is what [np.random.randint(0, k)]
    returns on the [None] path.  On the other path the index is stored
    before the assertion is evaluated. *)
Definition sample_task (randint : Z) (c : Controls) (idx : option Z)
  : Controls * result Z :=
  match idx with
  | None =>
      let c' := {| k := k c; goals := goals c; index := randint |} in
      (c', Ok (index c'))
  | Some i =>
      let c' := {| k := k c; goals := goals c; index := i |} in
      if (i <? k c')%Z then (c', Ok (index c'))
      else (c', Raise AssertionError)
  end.

(** [actions = [-.5, 0, .5]] *)
Definition actions : list R := [-0.5; 0; 0.5].

(** [[(a, b) for a in actions for b in actions if not (a==0 and b==0)]] *)
Definition build_a_dict (acts : list R) : list (R * R) :=
  flat_map (fun a =>
    flat_map (fun b =>
      if negb (eqb a 0 && eqb b 0) then [(a, b)] else []) acts) acts.

Record StepInfo : Type := {
  dist : R;
  success : R
}.

Definition get_reward (state : list R) (goal : ndarray) : R :=
  if ltb (norm (ravel (sub_broadcast state goal))) 0.02 then 0 else -1.

Section WithSimulator.
Context {M : MujocoEnv}.

Record PointMassEnv : Type := {
  controls : Controls;
  discrete : bool;
  a_dict : list (R * R);
  frame_skip : nat;
  fix_goal : bool;
  sim : Sim
}.

(** [PointMassEnv.__init__]; the table exists only in the discrete
    configuration ([[]] stands for the absent attribute). *)
Definition PointMassEnv_init (frame_skip0 : nat) (discrete0 : bool)
    (goals0 : ndarray) (sim0 : Sim) : PointMassEnv :=
  {| controls := Controls_init 1 goals0;
     discrete := discrete0;
     a_dict := if discrete0 then build_a_dict actions else [];
     frame_skip := frame_skip0;
     fix_goal := false;
     sim := sim0 |}.

Definition with_sim (env : PointMassEnv) (s : Sim) : PointMassEnv :=
  {| controls := controls env; discrete := discrete env;
     a_dict := a_dict env; frame_skip := frame_skip env;
     fix_goal := fix_goal env; sim := s |}.

Definition with_controls (env : PointMassEnv) (c : Controls) : PointMassEnv :=
  {| controls := c; discrete := discrete env;
     a_dict := a_dict env; frame_skip := frame_skip env;
     fix_goal := fix_goal env; sim := sim env |}.

(** [*delta, _ = get_body_com("goal") - get_body_com("object")] *)
Definition _get_delta (s : Sim) : list R :=
  removelast (sub (get_body_com "goal"%string s) (get_body_com "object"%string s)).

(** [self.sim.data.qpos.flat[:2]] *)
Definition _get_obs (s : Sim) : list R := firstn 2 (sim_qpos s).

(** The control vector [step] applies: the table entry in the discrete
    configuration ([int(a)] of an index is the index; an array in its
    place stands for the TypeError [int()] raises on an array of other
    than one entry, and a one-entry array is to be given as its index),
    the action itself otherwise (an integer is broadcast by the harness
    as a scalar). *)
Definition applied_action (env : PointMassEnv) (a : action) : result (list R) :=
  if discrete env then
    match a with
    | Index i => ab <- getitem (a_dict env) i ;; Ok [fst ab; snd ab]
    | Ctrl _ => Raise TypeError
    end
  else
    match a with
    | Index i => Ok [IZR i]
    | Ctrl v => Ok v
    end.

(** The simulator state after [qvel[:2] = 0; set_state(qpos, qvel)]. *)
Definition step_prepare (s : Sim) : Sim :=
  set_state (sim_qpos s) (fill_prefix 2 0 (sim_qvel s)) s.

Definition step (env : PointMassEnv) (a : action)
  : PointMassEnv * result (list R * R * bool * StepInfo) :=
  let done := false in
  let s1 := step_prepare (sim env) in
  match applied_action env a with
  | Raise e => (with_sim env s1, Raise e)
  | Ok a' =>
      let vec := _get_delta s1 in
      let dist := norm vec in
      let ctrl := square_sum a' in
      let s2 := do_simulation a' (frame_skip env) s1 in
      let ob := _get_obs s2 in
      let reward := get_reward ob (goals (controls env)) in
      let done := if eqb reward 0 then true else done in
      (with_sim env s2,
       Ok (ob, reward, done,
           {| dist := dist; success := float_of_bool (ltb dist 0.02) |}))
  end.

(** [PointMassEnv.sample_task] and [PointMassEnv.get_goal_index] *)
Definition env_sample_task (randint : Z) (env : PointMassEnv) (idx : option Z)
  : PointMassEnv * result Z :=
  let (c', r) := sample_task randint (controls env) idx in
  (with_controls env c', r).

Definition get_goal_index (env : PointMassEnv) : Z := index (controls env).

End WithSimulator.

End AmyPointMass.

(** ** peg_2d.py *)
Module Peg2D.
Import Py Np Rng.

(** [goal[0] < 0.26 and -0.26 < goal[0]].  The callers pass rows of a
    [(4, 1)] array, so [goal[0]] is always there. *)
Definition good_goal (goal : list R) : bool :=
  ltb (nth 0 goal 0) 0.26 && ltb (-0.26) (nth 0 goal 0).

(** [state[0] < (np.pi / 2) and (- np.pi / 2) < state[0]] *)
Definition good_state (state : list R) : bool :=
  ltb (nth 0 state 0) (PI / 2) && ltb (- PI / 2) (nth 0 state 0).

(** The discrete action table of [Peg2DEnv.__init__]. *)
Definition build_a_dict (act_scale : R) (id_less : bool) : list (R * R * R) :=
  let actions := [- act_scale; 0; act_scale] in
  if id_less then
    flat_map (fun a =>
      flat_map (fun b =>
        flat_map (fun c =>
          if negb (eqb a 0 && eqb b 0 && eqb c 0) then [(a, b, c)] else [])
          actions) actions) actions
  else
    flat_map (fun a =>
      flat_map (fun b =>
        flat_map (fun c => [(a, b, c)]) actions) actions) actions.

Definition zip_with {A B C : Type} (f : A -> B -> C) : list A -> list B -> list C :=
  fix go (l : list A) (m : list B) : list C :=
    match l, m with
    | x :: l', y :: m' => f x y :: go l' m'
    | _, _ => []
    end.

(** A flat run of draws as the rows of a [(n, 3)] array. *)
Fixpoint rows3 (l : list R) : list (list R) :=
  match l with
  | a :: b :: c :: rest => [a; b; c] :: rows3 rest
  | _ => []
  end.

(** [states[:, j]] and [states[:, j] = col] *)
Definition column (j : nat) (rows : list (list R)) : list R :=
  map (fun row => nth j row 0) rows.

Definition set_column (j : nat) (col : list R) (rows : list (list R))
  : list (list R) :=
  zip_with (fun row x => firstn j row ++ x :: skipn (S j) row) rows col.

(** [_get_goal]: [fuel] bounds the iterations of [while True]; [None] is a
    loop that has not returned within them. *)
Fixpoint _get_goal (fuel : nat) (goal_low goal_high : R) (st : RandomState)
  : option (list R) * RandomState :=
  match fuel with
  | O => (None, st)
  | S fuel' =>
      let (flat, st1) := uniform goal_low goal_high 4 st in
      let goals := map (fun x => [x]) flat in
      match find good_goal goals with
      | Some goal => (Some goal, st1)
      | None => _get_goal fuel' goal_low goal_high st1
      end
  end.

(** One batch of [_get_state]: the four candidate rows and the generator
    after the three draws. *)
Definition state_batch (st : RandomState) : list (list R) * RandomState :=
  let (flat, st1) := uniform (-1.5) 1.5 12 st in
  let states := rows3 flat in
  let (spread, st2) := uniform 0 (PI / 2) 4 st1 in
  let states1 :=
    set_column 1
      (zip_with (fun x s => - x - sign x * s) (column 0 states) spread)
      states in
  let (extra, st3) := uniform 0 (PI / 4) 4 st2 in
  let states2 :=
    set_column 2
      (zip_with Rplus
         (zip_with (fun x s => sign x * s) (column 0 states1) spread) extra)
      states1 in
  (states2, st3).

Fixpoint _get_state (fuel : nat) (st : RandomState)
  : option (list R) * RandomState :=
  match fuel with
  | O => (None, st)
  | S fuel' =>
      let (states, st1) := state_batch st in
      match find good_state states with
      | Some state => (Some state, st1)
      | None => _get_state fuel' st1
      end
  end.

(** [if self.reach_counts: ... elif reward == 0: ...] *)
Definition count_reach (reach_counts : nat) (reward : R) : nat :=
  if negb (reach_counts =? 0)%nat then
    if eqb reward 0 then (reach_counts + 1)%nat else 0%nat
  else if eqb reward 0 then 1%nat
  else reach_counts.

(** [if self.done_on_goal and self.reach_counts > 1: ...]: the flag and the
    counter left behind. *)
Definition done_on_reach (done_on_goal : bool) (reach_counts : nat) : bool * nat :=
  if done_on_goal && (1 <? reach_counts)%nat then (true, 0%nat)
  else (false, reach_counts).

(** [key in obs_keys] *)
Definition has_key (key : string) (obs_keys : list string) : bool :=
  existsb (String.eqb key) obs_keys.

Section WithSimulator.
Context {M : MujocoEnv}.

(** The observation dictionary: an absent key is [None]. *)
Record Obs : Type := {
  ob_x : option (list R);
  ob_img : option Image;
  ob_goal : option (list R);
  ob_goal_img : option Image;
  ob_a : option (list R)
}.

Record Peg2DEnv : Type := {
  discrete : bool;
  done_on_goal : bool;
  a_dict : list (R * R * R);
  goal_low : R;
  goal_high : R;
  obs_keys : list string;
  free : bool;
  frame_skip : nat;
  width : nat;
  height : nat;
  reach_counts : nat;
  goal : option (list R);
  goal_img : option Image;
  np_random : RandomState;
  sim : Sim
}.

(** [Peg2DEnv.__init__]; [goal] and [goal_img] are set by the first
    [reset_model] only. *)
Definition Peg2DEnv_init (frame_skip0 : nat) (obs_keys0 : list string)
    (goal_low0 goal_high0 act_scale : R) (discrete0 id_less free0 done_on_goal0 : bool)
    (rng0 : RandomState) (sim0 : Sim) : Peg2DEnv :=
  {| discrete := discrete0;
     done_on_goal := done_on_goal0;
     a_dict := if discrete0 then build_a_dict act_scale id_less else [];
     goal_low := goal_low0;
     goal_high := goal_high0;
     obs_keys := obs_keys0;
     free := free0;
     frame_skip := frame_skip0;
     width := 64;
     height := 64;
     reach_counts := 0;
     goal := None;
     goal_img := None;
     np_random := rng0;
     sim := sim0 |}.

Definition update (env : Peg2DEnv) (rc : nat) (g : option (list R))
    (gi : option Image) (rng : RandomState) (s : Sim) : Peg2DEnv :=
  {| discrete := discrete env; done_on_goal := done_on_goal env;
     a_dict := a_dict env; goal_low := goal_low env;
     goal_high := goal_high env; obs_keys := obs_keys env;
     free := free env; frame_skip := frame_skip env;
     width := width env; height := height env;
     reach_counts := rc; goal := g; goal_img := gi;
     np_random := rng; sim := s |}.

Definition with_sim (env : Peg2DEnv) (s : Sim) : Peg2DEnv :=
  update env (reach_counts env) (goal env) (goal_img env) (np_random env) s.

(** [_get_obs]: rendering the image moves the slot out of the frame and
    back, through [set_state]. *)
Definition _get_obs (env : Peg2DEnv) : Peg2DEnv * result Obs :=
  let s := sim env in
  let qpos := sim_qpos s in
  let x := if has_key "x" (obs_keys env) then Some (firstn 3 qpos) else None in
  let '(s', img) :=
    if has_key "img" (obs_keys env) then
      let moved := firstn 3 qpos ++ map (fun _ => 1) (skipn 3 qpos) in
      let s1 := set_state moved (sim_qvel s) s in
      let img := render_grey (width env) (height env) s1 in
      let s2 := set_state qpos (sim_qvel s1) s1 in
      (s2, Some img)
    else (s, None) in
  let g := if has_key "goal" (obs_keys env) then Some (skipn 3 qpos) else None in
  if has_key "goal_img" (obs_keys env) then
    match goal_img env with
    | Some gi =>
        (with_sim env s',
         Ok {| ob_x := x; ob_img := img; ob_goal := g;
               ob_goal_img := Some gi; ob_a := None |})
    | None => (with_sim env s', Raise AttributeError)
    end
  else
    (with_sim env s',
     Ok {| ob_x := x; ob_img := img; ob_goal := g;
           ob_goal_img := None; ob_a := None |}).

(** The control vector [step] applies.  In the discrete configuration it is
    [np.array([*self.a_dict[int(a)], self.goal])]: the table entry followed
    by the goal (a one-element array, read as its element).  A discrete
    action is an integer index; an array in its place stands for the
    TypeError [int()] raises on an array of other than one entry (a
    one-entry array, which [int()] converts, is to be given as its
    index). *)
Definition applied_action (env : Peg2DEnv) (a : action) : result (list R) :=
  if discrete env then
    match a with
    | Index i =>
        abc <- getitem (a_dict env) i ;;
        match goal env with
        | Some g => Ok ([fst (fst abc); snd (fst abc); snd abc] ++ g)
        | None => Raise AttributeError
        end
    | Ctrl _ => Raise TypeError
    end
  else
    match a with
    | Index i => Ok [IZR i]
    | Ctrl v => Ok v
    end.

(** The simulator state after
    [qvel[-1:] = 0; if self.free: qpos[-1:] = 1; set_state(qpos, qvel)]. *)
Definition step_prepare (env : Peg2DEnv) : Sim :=
  let s := sim env in
  let qvel := fill_last 0 (sim_qvel s) in
  let qpos := if free env then fill_last 1 (sim_qpos s) else sim_qpos s in
  set_state qpos qvel s.

Definition set_ob_a (ob : Obs) (a : list R) : Obs :=
  {| ob_x := ob_x ob; ob_img := ob_img ob; ob_goal := ob_goal ob;
     ob_goal_img := ob_goal_img ob; ob_a := Some a |}.

(** [step]; the info dictionary is [dict(success=0)], its one value is the
    last component. *)
Definition step (env : Peg2DEnv) (a : action)
  : Peg2DEnv * result (Obs * R * bool * Z) :=
  let s1 := step_prepare env in
  match applied_action env a with
  | Raise e => (with_sim env s1, Raise e)
  | Ok a' =>
      let s2 := do_simulation a' (frame_skip env) s1 in
      match _get_obs (with_sim env s2) with
      | (env1, Raise e) => (env1, Raise e)
      | (env1, Ok ob) =>
          let reward := - norm a' in
          let rc := count_reach (reach_counts env1) reward in
          let (done, rc') := done_on_reach (done_on_goal env1) rc in
          let ob' := if has_key "a" (obs_keys env1) then set_ob_a ob a' else ob in
          (update env1 rc' (goal env1) (goal_img env1) (np_random env1) (sim env1),
           Ok (ob', reward, done, 0%Z))
      end
  end.

(** [reset_model(x, goal)]; [None] is a sampling loop that has not returned
    within [fuel] iterations.  A given [x] is a state of three joints and a
    given [goal] an array of one entry, as the samplers return them: the
    shape errors numpy raises for other arguments are outside the model. *)
Definition reset_model (fuel : nat) (env : Peg2DEnv)
    (x goal0 : option (list R)) : option (Peg2DEnv * result Obs) :=
  let rng0 := np_random env in
  let (ox, rng1) :=
    match x with
    | Some x' => (Some x', rng0)
    | None => _get_state fuel rng0
    end in
  match ox with
  | None => None
  | Some x' =>
      let (og, rng2) :=
        match goal0 with
        | Some g => (Some g, rng1)
        | None => _get_goal fuel (goal_low env) (goal_high env) rng1
        end in
      match og with
      | None => None
      | Some g =>
          let peg_y := nth 0 g 0 / 10 in
          let base := 0.03 + -0.005 in
          let hypo := norm [base; peg_y] in
          let a0 := atan (peg_y / base) in
          let (u, rng3) := random_sample rng2 in
          let a1 := sign (u - 0.5) * acos (hypo / 0.04) in
          let q0 := a0 + a1 in
          let q1 := - 2 * a1 in
          let qpos := [q0; q1; 0 - q0 - q1; 1] in
          let s1 := set_state qpos (sim_qvel (sim env)) (sim env) in
          let gi := render_grey (width env) (height env) s1 in
          let s2 :=
            write_data (x' ++ (if free env then [1] else g))
                       (map (fun _ => 0) (sim_qvel s1)) s1 in
          Some (_get_obs (update env 0 (Some g) (Some gi) rng3 s2))
      end
  end.

(** Stepping through a list of actions; [None] as soon as a step raises.
    The outcomes are listed latest first. *)
Fixpoint run (env : Peg2DEnv) (acts : list action)
  : option (Peg2DEnv * list (Obs * R * bool * Z)) :=
  match acts with
  | [] => Some (env, [])
  | a :: rest =>
      match step env a with
      | (env1, Ok out) =>
          match run env1 rest with
          | Some (env2, outs) => Some (env2, outs ++ [out])
          | None => None
          end
      | (_, Raise _) => None
      end
  end.

End WithSimulator.

End Peg2D.

(** ** A kinematic simulator

    Modelled from the spec: the physics engine behind
    [ge_world.mujoco_env] is not part of the sources, so steps are
    evaluated on this instance of the simulator interface the
    specification lists (advance by a control for a number of frames,
    readable and settable joint vectors, a named-body centre-of-mass
    query, a render call).  It has four position slots (the object, then
    the goal body), a control vector that displaces the leading slots by
    [0.006] per simulation frame, and no image. *)
Module Toy.

Record State : Type := {
  qpos : list R;
  qvel : list R
}.

Fixpoint displace (d : R) (ctrl q : list R) : list R :=
  match ctrl, q with
  | c :: ctrl', x :: q' => (x + d * c) :: displace d ctrl' q'
  | _, _ => q
  end.

Definition advance (ctrl : list R) (n : nat) (s : State) : State :=
  {| qpos := displace (INR n * 0.006) ctrl (qpos s); qvel := qvel s |}.

Definition body_com (name : string) (s : State) : list R :=
  if String.eqb name "goal" then firstn 2 (skipn 2 (qpos s)) ++ [0]
  else firstn 2 (qpos s) ++ [0].

#[export] Instance simulator : MujocoEnv := {|
  Sim := State;
  Image := unit;
  sim_qpos := qpos;
  sim_qvel := qvel;
  set_state := fun q v _ => {| qpos := q; qvel := v |};
  do_simulation := advance;
  get_body_com := body_com;
  render_grey := fun _ _ _ => tt;
  write_data := fun q v _ => {| qpos := q; qvel := v |}
|}.

End Toy.

(** ** amy_point_mass.py: the goals of the controls and the reset *)
Module Controls.
Import Py Np Rng.

(** A flat run of draws as the rows of a [(k, 2)] array. *)
Fixpoint rows2 (l : list R) : list (list R) :=
  match l with
  | a :: b :: rest => [a; b] :: rows2 rest
  | _ => []
  end.

(** [Controls._goals] for [k] goals: [fuel] bounds the iterations of
    [while True].  A row passes when its norm is below 10. *)
Fixpoint _goals (fuel : nat) (k : nat) (rng : RandomState)
  : option (list (list R)) * RandomState :=
  match fuel with
  | O => (None, rng)
  | S fuel' =>
      let (flat, rng1) := uniform 5 1 (k * 2) rng in
      let goals := rows2 flat in
      if forallb (fun row => ltb (norm row) 10) goals then (Some goals, rng1)
      else _goals fuel' k rng1
  end.

(** [Controls.__init__(k_goals, seed)], from the generator the seed gives. *)
Definition Controls_new (fuel : nat) (k_goals : nat) (rng : RandomState)
  : option (AmyPointMass.Controls * RandomState) :=
  match _goals fuel k_goals rng with
  | (Some goals, rng1) =>
      Some (AmyPointMass.Controls_init (Z.of_nat k_goals) (Mat goals), rng1)
  | (None, _) => None
  end.

(** What [goals[index]] is: a row of a two-dimensional array, an entry of a
    one-dimensional one. *)
Inductive item : Type :=
| Scalar (x : R)
| Row (v : list R).

(** [Controls.true_goal]: [self.goals[self.index]] *)
Definition true_goal (c : AmyPointMass.Controls) : result item :=
  match AmyPointMass.goals c with
  | Vec v => x <- getitem v (AmyPointMass.index c) ;; Ok (Scalar x)
  | Mat rows => r <- getitem rows (AmyPointMass.index c) ;; Ok (Row r)
  end.

End Controls.

Module PointMassReset.
Import Py Np Rng.

(** Elementwise sum of two vectors of one shape. *)
Fixpoint add (u v : list R) : list R :=
  match u, v with
  | x :: u', y :: v' => (x + y) :: add u' v'
  | _, _ => []
  end.

(** [v[-2:] = w] for a vector [w] of two entries; [None] is numpy's
    ValueError when [v] has fewer than two. *)
Definition assign_last2 (w v : list R) : option (list R) :=
  if (2 <=? length v)%nat then Some (firstn (length v - 2) v ++ w) else None.

(** [v[-2:] = 0] *)
Definition zero_last2 (v : list R) : list R :=
  firstn (length v - 2) v ++ map (fun _ => 0) (skipn (length v - 2) v).

Section WithSimulator.
Context {M : MujocoEnv}.

(** [PointMassEnv.get_true_goal] *)
Definition get_true_goal (env : AmyPointMass.PointMassEnv) : result Controls.item :=
  Controls.true_goal (AmyPointMass.controls env).

(** [PointMassEnv.reset_model].  [init_qpos] and [init_qvel] are the
    vectors the harness recorded at construction (their lengths are
    [model.nq] and [model.nv]); [np_random] is the generator of the
    instance and [global] the process-wide one behind [np.random.uniform].
    The result carries both generators as the call leaves them. *)
Definition reset_model (init_qpos init_qvel : list R)
    (np_random global : RandomState) (env : AmyPointMass.PointMassEnv)
  : option (AmyPointMass.PointMassEnv * RandomState * RandomState * list R) :=
  let (dq, rng1) := uniform (-0.1) 0.1 (length init_qpos) np_random in
  let qpos := add dq init_qpos in
  let (drawn, global1) := uniform (-0.3) 0.3 2 global in
  let goals := if AmyPointMass.fix_goal env then [0; 0] else drawn in
  let controls' :=
    AmyPointMass.sample_goal (AmyPointMass.controls env) (Vec goals) in
  match assign_last2 (ravel (AmyPointMass.goals controls')) qpos with
  | None => None
  | Some qpos' =>
      let (dv, rng2) := uniform (-0.005) 0.005 (length init_qvel) rng1 in
      let qvel := zero_last2 (add init_qvel dv) in
      let s' := set_state qpos' qvel (AmyPointMass.sim env) in
      Some (AmyPointMass.with_sim (AmyPointMass.with_controls env controls') s',
            rng2, global1, AmyPointMass._get_obs s')
  end.

End WithSimulator.

End PointMassReset.

(** ** peg_2d.py: the goal pose of the reset *)
Module PegPose.
Import Np.

(** The joint positions [reset_model] sets before rendering the goal image,
    from the goal [g] and the draw [u] of [np_random.rand()]. *)
Definition goal_pose (g : list R) (u : R) : list R :=
  let peg_y := nth 0 g 0 / 10 in
  let base := 0.03 + -0.005 in
  let hypo := norm [base; peg_y] in
  let a0 := atan (peg_y / base) in
  let a1 := sign (u - 0.5) * acos (hypo / 0.04) in
  let q0 := a0 + a1 in
  let q1 := - 2 * a1 in
  [q0; q1; 0 - q0 - q1; 1].

End PegPose.

(** What the statements ask of a simulator: [set_state] and the direct
    write store the vectors they are given. *)
Class SimLaws (M : MujocoEnv) : Prop := {
  qpos_set_state : forall q v s, sim_qpos (set_state q v s) = q;
  qvel_set_state : forall q v s, sim_qvel (set_state q v s) = v;
  qpos_write_data : forall q v s, sim_qpos (write_data q v s) = q;
  qvel_write_data : forall q v s, sim_qvel (write_data q v s) = v
}.

(** ** Reference values for the statements *)

(** The three levels of one control dimension, in the order of iteration. *)
Definition levels (scale : R) : list R := [- scale; 0; scale].

(** The point-mass table written out: the pairs of levels in nested order,
    the first component varying slowest, without [(0, 0)]. *)
Definition point_mass_table : list (R * R) :=
  [(-0.5, -0.5); (-0.5, 0); (-0.5, 0.5);
   (0, -0.5); (0, 0.5);
   (0.5, -0.5); (0.5, 0); (0.5, 0.5)].

(** The triple at position [9 * i + 3 * j + l] of the full product. *)
Definition peg_entry (scale : R) (i j l : nat) : R * R * R :=
  (nth i (levels scale) 0, nth j (levels scale) 0, nth l (levels scale) 0).

(** The full product of three dimensions in nested order, the first
    component varying slowest. *)
Definition peg_product (scale : R) : list (R * R * R) :=
  map (fun n => peg_entry scale (n / 9) ((n / 3) mod 3) (n mod 3)) (seq 0 27).

(** The number of steps, counted back from the latest one, that had reward
    exactly 0 and came after the last step that returned [done = True]
    (outcomes are listed latest first). *)
Fixpoint zero_run {O I : Type} (outs : list (O * R * bool * I)) : nat :=
  match outs with
  | [] => 0%nat
  | (_, reward, done, _) :: older =>
      if done then 0%nat
      else if Np.eqb reward 0 then S (zero_run older)
      else 0%nat
  end.

(** The same count without regard to [done]: the length of the latest run
    of zero-reward steps. *)
Fixpoint zero_suffix {O I : Type} (outs : list (O * R * bool * I)) : nat :=
  match outs with
  | [] => 0%nat
  | (_, reward, _, _) :: older =>
      if Np.eqb reward 0 then S (zero_suffix older) else 0%nat
  end.

(** [zero_suffix] on top of a count [start] reached before the first listed
    step. *)
Fixpoint zero_suffix_from {O I : Type} (start : nat)
    (outs : list (O * R * bool * I)) : nat :=
  match outs with
  | [] => start
  | (_, reward, _, _) :: older =>
      if Np.eqb reward 0 then S (zero_suffix_from start older) else 0%nat
  end.

(** [zero_run] on top of a counter [start] held before the first listed
    step. *)
Fixpoint zero_run_from {O I : Type} (start : nat) (outs : list (O * R * bool * I))
  : nat :=
  match outs with
  | [] => start
  | (_, reward, done, _) :: older =>
      if done then 0%nat
      else if Np.eqb reward 0 then S (zero_run_from start older)
      else 0%nat
  end.

(** The [i]-th value a generator in state [st] will hand out when asked for
    a uniform draw between [low] and [high]. *)
Definition candidate (st : Rng.RandomState) (low high : R) (i : nat) : R :=
  low + (high - low) * Rng.draws st (Rng.cursor st + i).

(** Candidate [i] of batch [n] of [_get_state], counted from the state [st]
    in which the loop starts: a batch consumes twenty draws, twelve for the
    [(4, 3)] array (of which the first column is kept), four for the spread
    and four for the third joint. *)
Definition state_candidate (st : Rng.RandomState) (n i : nat) : list R :=
  let x := candidate st (-1.5) 1.5 (20 * n + 3 * i) in
  let spread := candidate st 0 (PI / 2) (20 * n + 12 + i) in
  let extra := candidate st 0 (PI / 4) (20 * n + 16 + i) in
  [x; - x - Np.sign x * spread; Np.sign x * spread + extra].

(** The goal vector the point-mass [reset_model] installs: zero under
    [fix_goal], the two draws of the process-wide generator otherwise. *)
Definition reset_goal (fix_goal : bool) (global : Rng.RandomState) : list R :=
  if fix_goal then [0; 0]
  else [candidate global (-0.3) 0.3 0; candidate global (-0.3) 0.3 1].

(** Concrete inputs: a generator whose every draw is one half, and a
    state of the kinematic simulator at rest in the origin. *)
Definition half_stream : Rng.RandomState :=
  {| Rng.draws := fun _ => 0.5; Rng.cursor := 0 |}.

Definition toy_rest : Toy.State :=
  {| Toy.qpos := [0; 0; 0; 0]; Toy.qvel := [0; 0; 0; 0] |}.

(** A generator whose first five draws are 0 and whose later draws are one
    half. *)
Definition late_stream : Rng.RandomState :=
  {| Rng.draws := fun i => if (i <? 5)%nat then 0 else 0.5; Rng.cursor := 0 |}.

(** The discrete point-mass environment over the kinematic simulator. *)
Definition toy_point_mass (goals0 : Np.ndarray) (s : Toy.State)
  : AmyPointMass.PointMassEnv :=
  AmyPointMass.PointMassEnv_init (M := Toy.simulator) 10 true goals0 s.

(** The peg environment over the kinematic simulator as constructed, and as
    [reset_model(x=[0, 0, 0], goal=g)] leaves it. *)
Definition toy_peg_init (discrete id_less done_on_goal : bool) : Peg2D.Peg2DEnv :=
  Peg2D.Peg2DEnv_init (M := Toy.simulator) 10 ["x"; "goal"]%string
    (-0.02) 0.02 1 discrete id_less false done_on_goal half_stream toy_rest.

Definition toy_peg (discrete id_less done_on_goal : bool) (g : list R)
  : Peg2D.Peg2DEnv :=
  Peg2D.update (toy_peg_init discrete id_less done_on_goal) 0 (Some g) (Some tt)
    (Rng.advance 1 half_stream)
    {| Toy.qpos := [0; 0; 0] ++ g; Toy.qvel := [0; 0; 0; 0] |}.

(** ** Facts about the numeric helpers *)

Lemma ltb_true_iff (x y : R) : Np.ltb x y = true <-> x < y.
Proof.
  unfold Np.ltb. destruct (Rlt_dec x y); split; intro H; auto; discriminate.
Qed.

Lemma ltb_false_iff (x y : R) : Np.ltb x y = false <-> ~ x < y.
Proof.
  unfold Np.ltb. destruct (Rlt_dec x y); split; intro H; auto;
    [discriminate | contradiction].
Qed.

Lemma eqb_true_iff (x y : R) : Np.eqb x y = true <-> x = y.
Proof.
  unfold Np.eqb. destruct (Req_dec_T x y); split; intro H; auto; discriminate.
Qed.

Lemma eqb_false_iff (x y : R) : Np.eqb x y = false <-> x <> y.
Proof.
  unfold Np.eqb. destruct (Req_dec_T x y); split; intro H; auto;
    [discriminate | contradiction].
Qed.

Lemma eqb_refl (x : R) : Np.eqb x x = true.
Proof. apply eqb_true_iff. reflexivity. Qed.

Lemma square_sum_nonneg (v : list R) : 0 <= Np.square_sum v.
Proof.
  induction v as [|x v IH]; simpl.
  - lra.
  - pose proof (Rle_0_sqr x) as Hx. unfold Rsqr in Hx. lra.
Qed.

Lemma square_sum_zero (v : list R) :
  Np.square_sum v = 0 <-> Forall (fun x => x = 0) v.
Proof.
  induction v as [|x v IH]; simpl.
  - split; intros; [constructor | reflexivity].
  - pose proof (square_sum_nonneg v) as Hv.
    pose proof (Rle_0_sqr x) as Hx. unfold Rsqr in Hx.
    split.
    + intro H. assert (Hxx : x * x = 0) by lra.
      assert (Hvv : Np.square_sum v = 0) by lra.
      constructor.
      * destruct (Rmult_integral _ _ Hxx); assumption.
      * apply IH. exact Hvv.
    + intro H. inversion H as [|y w Hy Hw]; subst.
      apply IH in Hw. rewrite Hw. lra.
Qed.

Lemma norm_nonneg (v : list R) : 0 <= Np.norm v.
Proof. apply sqrt_pos. Qed.

Lemma norm_zero (v : list R) : Np.norm v = 0 <-> Forall (fun x => x = 0) v.
Proof.
  unfold Np.norm. rewrite <- square_sum_zero. split.
  - apply sqrt_eq_0, square_sum_nonneg.
  - intro H. rewrite H. apply sqrt_0.
Qed.


(** ** The discrete action tables *)

Lemma point_mass_build :
  AmyPointMass.build_a_dict AmyPointMass.actions = point_mass_table.
Proof.
  unfold AmyPointMass.build_a_dict, AmyPointMass.actions, point_mass_table.
  assert (E0 : Np.eqb 0 0 = true) by apply eqb_refl.
  assert (En : Np.eqb (-0.5) 0 = false) by (apply eqb_false_iff; lra).
  assert (Ep : Np.eqb 0.5 0 = false) by (apply eqb_false_iff; lra).
  cbn [flat_map app]. rewrite E0, En, Ep. reflexivity.
Qed.

Lemma peg_build_full (scale : R) :
  Peg2D.build_a_dict scale false = peg_product scale.
Proof. reflexivity. Qed.

Lemma peg_build_id_less (scale : R) :
  scale <> 0 ->
  Peg2D.build_a_dict scale true
  = firstn 13 (peg_product scale) ++ skipn 14 (peg_product scale).
Proof.
  intro Hs. unfold Peg2D.build_a_dict.
  assert (E0 : Np.eqb 0 0 = true) by apply eqb_refl.
  assert (En : Np.eqb (- scale) 0 = false) by (apply eqb_false_iff; lra).
  assert (Ep : Np.eqb scale 0 = false) by (apply eqb_false_iff; lra).
  cbn [flat_map app]. rewrite E0, En, Ep. reflexivity.
Qed.

Lemma peg_product_unfold (s : R) :
  peg_product s =
  [(- s, - s, - s); (- s, - s, 0); (- s, - s, s);
   (- s, 0, - s); (- s, 0, 0); (- s, 0, s);
   (- s, s, - s); (- s, s, 0); (- s, s, s);
   (0, - s, - s); (0, - s, 0); (0, - s, s);
   (0, 0, - s); (0, 0, 0); (0, 0, s);
   (0, s, - s); (0, s, 0); (0, s, s);
   (s, - s, - s); (s, - s, 0); (s, - s, s);
   (s, 0, - s); (s, 0, 0); (s, 0, s);
   (s, s, - s); (s, s, 0); (s, s, s)].
Proof. reflexivity. Qed.

Lemma peg_product_nested (s : R) (i j l : nat) :
  (i < 3)%nat -> (j < 3)%nat -> (l < 3)%nat ->
  nth_error (peg_product s) (9 * i + 3 * j + l) = Some (peg_entry s i j l).
Proof.
  intros Hi Hj Hl.
  destruct i as [|[|[|i]]]; try lia;
    destruct j as [|[|[|j]]]; try lia;
      destruct l as [|[|[|l]]]; try lia; reflexivity.
Qed.

Lemma peg_product_zero_once (s : R) (n : nat) :
  s <> 0 ->
  nth_error (peg_product s) n = Some (0, 0, 0) <-> n = 13%nat.
Proof.
  intro Hs. rewrite peg_product_unfold. split.
  - intro H.
    do 27 (destruct n as [|n];
           [ cbn [nth_error] in H;
             first [ reflexivity | exfalso; inversion H; lra ] | ]).
    destruct n; discriminate H.
  - intro H. subst n. reflexivity.
Qed.

Lemma peg_id_less_no_zero (s : R) :
  s <> 0 ->
  ~ In (0, 0, 0) (firstn 13 (peg_product s) ++ skipn 14 (peg_product s)).
Proof.
  intros Hs H. rewrite peg_product_unfold in H.
  cbn [firstn skipn app In] in H.
  repeat (destruct H as [H | H]; [inversion H; lra | ]).
  exact H.
Qed.

Lemma point_mass_table_no_zero : ~ In (0, 0) point_mass_table.
Proof.
  unfold point_mass_table. intro H. cbn [In] in H.
  repeat (destruct H as [H | H]; [inversion H; lra | ]).
  exact H.
Qed.

Section TablesAreFixed.
Context {M : MujocoEnv}.

Lemma point_mass_step_keeps_table (env : AmyPointMass.PointMassEnv) (a : action) :
  AmyPointMass.a_dict (fst (AmyPointMass.step env a)) = AmyPointMass.a_dict env.
Proof.
  unfold AmyPointMass.step.
  destruct (AmyPointMass.applied_action env a); reflexivity.
Qed.

Lemma peg_get_obs_keeps (env : Peg2D.Peg2DEnv) :
  let env' := fst (Peg2D._get_obs env) in
  Peg2D.a_dict env' = Peg2D.a_dict env
  /\ Peg2D.reach_counts env' = Peg2D.reach_counts env
  /\ Peg2D.done_on_goal env' = Peg2D.done_on_goal env
  /\ Peg2D.discrete env' = Peg2D.discrete env
  /\ Peg2D.goal env' = Peg2D.goal env.
Proof.
  unfold Peg2D._get_obs.
  destruct (Peg2D.has_key "img" (Peg2D.obs_keys env));
    destruct (Peg2D.has_key "goal_img" (Peg2D.obs_keys env));
    try destruct (Peg2D.goal_img env); cbn; auto.
Qed.

Lemma peg_step_keeps_table (env : Peg2D.Peg2DEnv) (a : action) :
  Peg2D.a_dict (fst (Peg2D.step env a)) = Peg2D.a_dict env.
Proof.
  unfold Peg2D.step.
  destruct (Peg2D.applied_action env a) as [a'|e]; [|reflexivity].
  set (env0 := Peg2D.with_sim env _).
  pose proof (peg_get_obs_keeps env0) as (Ht & _).
  destruct (Peg2D._get_obs env0) as [env1 [ob|e]]; cbn [fst] in Ht.
  - destruct (Peg2D.done_on_reach _ _). cbn. rewrite Ht. reflexivity.
  - cbn. rewrite Ht. reflexivity.
Qed.

End TablesAreFixed.

(** C4 (amended).  The tables are built at construction and no step changes
    them.  The point-mass table is the eight pairs over [-0.5, 0, 0.5] in
    nested order without the all-zero pair.  For a nonzero [act_scale], the
    peg table with [id_less=False] is the full product of the three levels
    in nested order (first component slowest), 27 entries with the all-zero
    triple exactly once (at position 13), and the table with [id_less=True]
    is that product without its all-zero entry: 26 entries, none all-zero. *)
Theorem discrete_action_tables (act_scale : R) :
  act_scale <> 0 ->
  forall (M : MujocoEnv) (frame_skip : nat) (obs_keys : list string)
         (goal_low goal_high : R) (free done_on_goal : bool)
         (rng : Rng.RandomState) (goals0 : Np.ndarray) (sim0 : Sim),
    let pm := AmyPointMass.PointMassEnv_init frame_skip true goals0 sim0 in
    let peg id_less :=
      Peg2D.Peg2DEnv_init frame_skip obs_keys goal_low goal_high act_scale
        true id_less free done_on_goal rng sim0 in
    (AmyPointMass.a_dict pm = point_mass_table
     /\ length (AmyPointMass.a_dict pm) = 8%nat
     /\ ~ In (0, 0) (AmyPointMass.a_dict pm)
     /\ forall a, AmyPointMass.a_dict (fst (AmyPointMass.step pm a))
                  = AmyPointMass.a_dict pm)
    /\ (Peg2D.a_dict (peg false) = peg_product act_scale
        /\ length (Peg2D.a_dict (peg false)) = 27%nat
        /\ (forall i j l, (i < 3)%nat -> (j < 3)%nat -> (l < 3)%nat ->
              nth_error (Peg2D.a_dict (peg false)) (9 * i + 3 * j + l)
              = Some (peg_entry act_scale i j l))
        /\ (forall n, nth_error (Peg2D.a_dict (peg false)) n = Some (0, 0, 0)
                      <-> n = 13%nat))
    /\ (Peg2D.a_dict (peg true)
        = firstn 13 (peg_product act_scale) ++ skipn 14 (peg_product act_scale)
        /\ length (Peg2D.a_dict (peg true)) = 26%nat
        /\ ~ In (0, 0, 0) (Peg2D.a_dict (peg true)))
    /\ (forall id_less a,
          Peg2D.a_dict (fst (Peg2D.step (peg id_less) a))
          = Peg2D.a_dict (peg id_less)).
Proof.
  intros Hs M fs keys gl gh fr dg rng g0 s0 pm peg.
  assert (Hpm : AmyPointMass.a_dict pm = point_mass_table)
    by apply point_mass_build.
  assert (H27 : Peg2D.a_dict (peg false) = peg_product act_scale)
    by apply peg_build_full.
  assert (H26 : Peg2D.a_dict (peg true)
                = firstn 13 (peg_product act_scale)
                  ++ skipn 14 (peg_product act_scale))
    by (apply peg_build_id_less; exact Hs).
  split; [|split; [|split]].
  - split; [exact Hpm|].
    split; [rewrite Hpm; reflexivity|].
    split; [rewrite Hpm; apply point_mass_table_no_zero|].
    intro a. apply point_mass_step_keeps_table.
  - split; [exact H27|]. rewrite H27.
    split; [reflexivity|]. split.
    + intros i j l Hi Hj Hl. apply peg_product_nested; assumption.
    + intro n. apply peg_product_zero_once. exact Hs.
  - split; [exact H26|]. rewrite H26.
    split; [reflexivity|]. apply peg_id_less_no_zero. exact Hs.
  - intros id_less a. apply peg_step_keeps_table.
Qed.

Lemma discrete_action_tables_unit_scale :
  length (Peg2D.a_dict
            (Peg2D.Peg2DEnv_init (M := Toy.simulator) 10 [] (-0.02) 0.02 1 true true false false
               half_stream toy_rest)) = 26%nat
  /\ length (Peg2D.a_dict
               (Peg2D.Peg2DEnv_init (M := Toy.simulator) 10 [] (-0.02) 0.02 1 true false false false
                  half_stream toy_rest)) = 27%nat.
Proof.
  assert (H1 : 1 <> 0) by lra.
  pose proof (discrete_action_tables 1 H1 Toy.simulator 10%nat [] (-0.02) 0.02
                false false half_stream (Np.Vec [0; 0]) toy_rest) as H.
  cbv zeta in H.
  destruct H as (_ & (_ & H27 & _) & (_ & H26 & _) & _).
  split; [exact H26 | exact H27].
Defined.

(** C4, as stated, fails for [act_scale = 0]: the three levels coincide,
    every triple is all-zero, and the table with [id_less=True] is empty. *)
Lemma zero_scale_table_is_empty :
  length (Peg2D.a_dict
            (Peg2D.Peg2DEnv_init (M := Toy.simulator) 10 [] (-0.02) 0.02 0 true true false false
               half_stream toy_rest)) <> 26%nat.
Proof.
  cbn [Peg2D.Peg2DEnv_init Peg2D.a_dict].
  unfold Peg2D.build_a_dict.
  assert (E0 : Np.eqb 0 0 = true) by apply eqb_refl.
  assert (En : Np.eqb (- 0) 0 = true) by (apply eqb_true_iff; lra).
  cbn [flat_map app]. rewrite E0, En. cbn. discriminate.
Qed.

(** ** Indexing the discrete action table *)

Lemma getitem_raises {A : Type} (l : list A) (i : Z) :
  let n := Z.of_nat (length l) in
  Py.getitem l i = Py.Raise Py.IndexError <-> (i < - n \/ n <= i)%Z.
Proof.
  intro n. unfold Py.getitem. fold n.
  destruct (Z.ltb_spec i 0) as [Hneg|Hpos].
  - destruct (Z.ltb_spec (i + n) 0) as [Hlow|Hin]; cbn [orb].
    + split; [intros _; lia | reflexivity].
    + destruct (Z.leb_spec n (i + n)) as [Hhi|Hlt]; [lia|].
      destruct (nth_error l (Z.to_nat (i + n))) eqn:E.
      * split; [discriminate | lia].
      * apply nth_error_None in E. lia.
  - destruct (Z.ltb_spec i 0) as [Hlow|_]; [lia|]. cbn [orb].
    destruct (Z.leb_spec n i) as [Hhi|Hlt].
    + split; [intros _; lia | reflexivity].
    + destruct (nth_error l (Z.to_nat i)) eqn:E.
      * split; [discriminate | lia].
      * apply nth_error_None in E. lia.
Qed.

Lemma getitem_in_range {A : Type} (l : list A) (i : Z) :
  (0 <= i < Z.of_nat (length l))%Z ->
  exists x, nth_error l (Z.to_nat i) = Some x /\ Py.getitem l i = Py.Ok x.
Proof.
  intro Hi. unfold Py.getitem.
  destruct (Z.ltb_spec i 0) as [Hneg|_]; [lia|].
  destruct (Z.ltb_spec i 0) as [Hneg|_]; [lia|]. cbn [orb].
  destruct (Z.leb_spec (Z.of_nat (length l)) i) as [Hhi|_]; [lia|].
  destruct (nth_error l (Z.to_nat i)) as [x|] eqn:E.
  - exists x. split; reflexivity.
  - apply nth_error_None in E. lia.
Qed.

Lemma getitem_negative {A : Type} (l : list A) (i : Z) :
  (- Z.of_nat (length l) <= i < 0)%Z ->
  exists x, nth_error l (Z.to_nat (Z.of_nat (length l) + i)) = Some x
            /\ Py.getitem l i = Py.Ok x.
Proof.
  intro Hi. unfold Py.getitem.
  destruct (Z.ltb_spec i 0) as [_|Hpos]; [|lia].
  destruct (Z.ltb_spec (i + Z.of_nat (length l)) 0) as [Hlow|_]; [lia|].
  cbn [orb].
  destruct (Z.leb_spec (Z.of_nat (length l)) (i + Z.of_nat (length l)))
    as [Hhi|_]; [lia|].
  replace (Z.of_nat (length l) + i)%Z with (i + Z.of_nat (length l))%Z by lia.
  destruct (nth_error l (Z.to_nat (i + Z.of_nat (length l)))) as [x|] eqn:E.
  - exists x. split; reflexivity.
  - apply nth_error_None in E. lia.
Qed.

Section StepLookup.
Context {M : MujocoEnv}.




End StepLookup.

Lemma toy_peg_is_reset (discrete id_less done_on_goal : bool) (g : list R) :
  exists ob,
    Peg2D.reset_model 0 (toy_peg_init discrete id_less done_on_goal)
      (Some [0; 0; 0]) (Some g)
    = Some (toy_peg discrete id_less done_on_goal g, Py.Ok ob).
Proof. eexists. reflexivity. Qed.




(** ** Selecting the task index *)

(** C2 (amended).  [sample_task(index=i)] checks the upper bound only: it
    raises (an AssertionError) exactly when [i >= k], whatever the sign of
    [i]; and for every [i < k], so for every [i] in [[0, k)], it returns [i]
    and a subsequent [get_goal_index()] returns exactly [i]. *)
Theorem sample_task_with_index (M : MujocoEnv)
    (env : AmyPointMass.PointMassEnv) (randint i : Z) :
  let k := AmyPointMass.k (AmyPointMass.controls env) in
  let env' := fst (AmyPointMass.env_sample_task randint env (Some i)) in
  let r := snd (AmyPointMass.env_sample_task randint env (Some i)) in
  (r = Py.Raise Py.AssertionError <-> (k <= i)%Z)
  /\ (Py.is_ok r = false <-> (k <= i)%Z)
  /\ (r = Py.Ok i <-> (i < k)%Z)
  /\ ((i < k)%Z -> AmyPointMass.get_goal_index env' = i)
  /\ AmyPointMass.k (AmyPointMass.controls env') = k.
Proof.
  unfold AmyPointMass.env_sample_task, AmyPointMass.sample_task,
    AmyPointMass.get_goal_index.
  cbn [AmyPointMass.k AmyPointMass.index].
  destruct (Z.ltb_spec i (AmyPointMass.k (AmyPointMass.controls env)))
    as [Hlt|Hge]; cbn.
  - repeat split; try discriminate; try lia; auto.
  - repeat split; try discriminate; try lia; auto.
Qed.

(** C2, as stated, fails below the range: with [k = 1], [sample_task(-1)]
    raises nothing, and [get_goal_index()] then returns [-1]. *)
Lemma negative_task_index_accepted :
  let env := toy_point_mass (Np.Vec [0; 0]) toy_rest in
  AmyPointMass.k (AmyPointMass.controls env) = 1%Z
  /\ snd (AmyPointMass.env_sample_task 0 env (Some (-1)%Z)) = Py.Ok (-1)%Z
  /\ AmyPointMass.get_goal_index
       (fst (AmyPointMass.env_sample_task 0 env (Some (-1)%Z))) = (-1)%Z.
Proof. cbv zeta. repeat split. Qed.

(** ** The point-mass step *)

Lemma norm_lt_iff (v : list R) (c : R) :
  0 <= c -> Np.norm v < c <-> Np.square_sum v < c * c.
Proof.
  intro Hc. unfold Np.norm.
  pose proof (square_sum_nonneg v) as Hv.
  rewrite <- (sqrt_square c Hc) at 1. split.
  - apply sqrt_lt_0_alt.
  - intro H. apply sqrt_lt_1_alt. split; assumption.
Qed.

Lemma get_reward_cases (state : list R) (goal : Np.ndarray) :
  let d := Np.norm (Np.ravel (Np.sub_broadcast state goal)) in
  (d < 0.02 -> AmyPointMass.get_reward state goal = 0)
  /\ (~ d < 0.02 -> AmyPointMass.get_reward state goal = -1).
Proof.
  intro d. unfold AmyPointMass.get_reward. fold d. unfold Np.ltb.
  destruct (Rlt_dec d 0.02); split; intro H; try reflexivity; contradiction.
Qed.

Lemma get_reward_zero_iff (state : list R) (goal : Np.ndarray) :
  AmyPointMass.get_reward state goal = 0
  <-> Np.norm (Np.ravel (Np.sub_broadcast state goal)) < 0.02.
Proof.
  unfold AmyPointMass.get_reward, Np.ltb.
  destruct (Rlt_dec _ 0.02) as [H|H]; split; intro H'; auto; try lra.
Qed.

(** C1.  A point-mass step that returns has computed its reward from the
    observation [p] read after the simulation (the first two position
    components) and the goal [g] held by the controls: the reward is 0.0
    if the Euclidean norm of [p - g] is below 0.02 and -1.0 otherwise, and
    [done] is True exactly when the reward is 0.0. *)
Theorem point_mass_reward_and_done (M : MujocoEnv)
    (env env' : AmyPointMass.PointMassEnv) (a : action)
    (p : list R) (reward : R) (done : bool) (info : AmyPointMass.StepInfo) :
  AmyPointMass.step env a = (env', Py.Ok (p, reward, done, info)) ->
  let g := AmyPointMass.goals (AmyPointMass.controls env) in
  let d := Np.norm (Np.ravel (Np.sub_broadcast p g)) in
  (exists a', AmyPointMass.applied_action env a = Py.Ok a'
              /\ AmyPointMass.sim env'
                 = do_simulation a' (AmyPointMass.frame_skip env)
                     (AmyPointMass.step_prepare (AmyPointMass.sim env)))
  /\ p = firstn 2 (sim_qpos (AmyPointMass.sim env'))
  /\ (d < 0.02 -> reward = 0)
  /\ (~ d < 0.02 -> reward = -1)
  /\ (reward = 0 <-> d < 0.02)
  /\ (done = true <-> reward = 0)
  /\ (forall p0 p1 g0 g1, p = [p0; p1] -> g = Np.Vec [g0; g1] ->
        d = sqrt ((p0 - g0) * (p0 - g0) + (p1 - g1) * (p1 - g1))).
Proof.
  intros Hstep g d. unfold AmyPointMass.step in Hstep.
  destruct (AmyPointMass.applied_action env a) as [a'|e]; [|discriminate].
  injection Hstep as Henv Hp Hr Hd Hinfo.
  fold g in Hr. subst env'. cbn [AmyPointMass.with_sim AmyPointMass.sim].
  unfold AmyPointMass._get_obs in Hp, Hr, Hd.
  split; [exists a'; split; reflexivity|].
  split; [symmetry; exact Hp|].
  rewrite Hp in Hr.
  pose proof (get_reward_cases p g) as (Hnear & Hfar). fold d in Hnear, Hfar.
  pose proof (get_reward_zero_iff p g) as Hzero. fold d in Hzero.
  rewrite Hr in Hnear, Hfar, Hzero.
  split; [exact Hnear|]. split; [exact Hfar|]. split; [exact Hzero|].
  split.
  - rewrite <- Hd. rewrite Hp. fold g. rewrite Hr.
    unfold Np.eqb. destruct (Req_dec_T reward 0); split; intro H; auto.
    discriminate.
  - intros p0 p1 g0 g1 Ep Eg. unfold d. rewrite Ep, Eg.
    unfold Np.norm. cbn. f_equal. ring.
Qed.

(** A discrete step on the kinematic simulator, evaluated. *)
Lemma toy_point_mass_step (goals0 : Np.ndarray) (x y gx gy : R) (qv : list R)
    (i : Z) (a b : R) :
  Py.getitem point_mass_table i = Py.Ok (a, b) ->
  let env := toy_point_mass goals0 {| Toy.qpos := [x; y; gx; gy]; Toy.qvel := qv |} in
  let p := [x + INR 10 * 0.006 * a; y + INR 10 * 0.006 * b] in
  let r := AmyPointMass.get_reward p goals0 in
  let d := Np.norm [gx - x; gy - y] in
  snd (AmyPointMass.step env (Index i))
  = Py.Ok (p, r, (if Np.eqb r 0 then true else false),
           {| AmyPointMass.dist := d;
              AmyPointMass.success := Np.float_of_bool (Np.ltb d 0.02) |}).
Proof.
  intros Hi env p r d.
  assert (Ha : AmyPointMass.applied_action env (Index i) = Py.Ok [a; b]).
  { unfold AmyPointMass.applied_action, env, toy_point_mass.
    cbn [AmyPointMass.PointMassEnv_init AmyPointMass.discrete AmyPointMass.a_dict].
    rewrite point_mass_build, Hi. reflexivity. }
  unfold AmyPointMass.step. rewrite Ha. reflexivity.
Qed.

Lemma INR_10 : INR 10 = 10.
Proof. rewrite INR_IZR_INZ. reflexivity. Qed.

Lemma toy_moved_away :
  AmyPointMass.get_reward [0 + INR 10 * 0.006 * -0.5; 0 + INR 10 * 0.006 * 0]
    (Np.Vec [0; 0]) = -1.
Proof.
  apply get_reward_cases. rewrite norm_lt_iff by lra.
  cbn [Np.ravel Np.sub_broadcast Np.sub Np.square_sum fold_right].
  rewrite INR_10. lra.
Qed.

Lemma toy_moved_onto :
  AmyPointMass.get_reward [0.03 + INR 10 * 0.006 * -0.5; 0 + INR 10 * 0.006 * 0]
    (Np.Vec [0; 0]) = 0.
Proof.
  apply get_reward_cases. rewrite norm_lt_iff by lra.
  cbn [Np.ravel Np.sub_broadcast Np.sub Np.square_sum fold_right].
  rewrite INR_10. lra.
Qed.

Lemma point_mass_reward_and_done_away :
  exists env' p info,
    AmyPointMass.step (toy_point_mass (Np.Vec [0; 0]) toy_rest) (Index 1)
    = (env', Py.Ok (p, -1, false, info))
    /\ (false = true <-> -1 = 0).
Proof.
  pose proof (toy_point_mass_step (Np.Vec [0; 0]) 0 0 0 0 [0; 0; 0; 0] 1
                (-0.5) 0 eq_refl) as Hsnd.
  cbv zeta in Hsnd. rewrite toy_moved_away in Hsnd.
  assert (E : Np.eqb (-1) 0 = false) by (apply eqb_false_iff; lra).
  rewrite E in Hsnd.
  pose proof (surjective_pairing
                (AmyPointMass.step (toy_point_mass (Np.Vec [0; 0]) toy_rest)
                   (Index 1))) as Hpair.
  fold toy_rest in Hsnd. rewrite Hsnd in Hpair.
  eexists. eexists. eexists. split; [exact Hpair|].
  pose proof (point_mass_reward_and_done Toy.simulator _ _ _ _ _ _ _ Hpair) as H.
  cbv zeta in H. destruct H as (_ & _ & _ & _ & _ & Hdone & _). exact Hdone.
Defined.

Lemma sub_self_zero (p : list R) : Forall (fun x => x = 0) (Np.sub p p).
Proof.
  induction p as [|x p IH]; cbn [Np.sub]; constructor; [lra | exact IH].
Qed.

Lemma sub_shifted_far (p : list R) :
  p <> [] ->
  ~ Np.norm (Np.sub p (map (fun x => x - 1) p)) < 0.02.
Proof.
  destruct p as [|x p]; [congruence|]. intros _ Hlt.
  apply norm_lt_iff in Hlt; [|lra].
  cbn [map Np.sub Np.square_sum fold_right] in Hlt.
  pose proof (square_sum_nonneg (Np.sub p (map (fun y => y - 1) p))) as Hrest.
  unfold Np.square_sum in Hrest. nra.
Qed.

(** C9.  In every point-mass step that returns, [dist] and [success] of the
    info dictionary are computed from the difference of the centres of
    mass of the bodies [goal] and [object] (without its last component) in
    the state before the simulation advances, and the reward and [done]
    from the first two positions of the state after it, against the goals
    of the controls.  So [success] is 1.0 exactly when that
    centre-of-mass distance is below 0.02 and [done] is True exactly when
    the observation after the simulation is within 0.02 of the goals, and
    the two disagree whenever one distance is below 0.02 and the other is
    not.  Such steps exist: on any simulator, from a state whose
    centre-of-mass distance is at least 0.02 there is a step with
    [success = 0.0] and [done = True], and from a state where it is below
    0.02 (and the observation is not empty) a step with [success = 1.0] and
    [done = False], for goals installed by [sample_goal]; and on the
    kinematic simulator, with the goal body at the goal, a step that moves
    the object onto the goal has [success = 0.0] and [done = True], and a
    step that moves it off the goal has [success = 1.0] and
    [done = False]. *)
Theorem point_mass_info_precedes_simulation :
  (forall (M : MujocoEnv) (env : AmyPointMass.PointMassEnv) (a : action),
     match AmyPointMass.step env a with
     | (env', Py.Ok (p, reward, done, info)) =>
         exists a',
           AmyPointMass.applied_action env a = Py.Ok a'
           /\ let s := AmyPointMass.sim env in
              let before := set_state (sim_qpos s)
                              (Np.fill_prefix 2 0 (sim_qvel s)) s in
              let after := do_simulation a' (AmyPointMass.frame_skip env) before in
              let delta :=
                removelast (Np.sub (get_body_com "goal"%string before)
                                   (get_body_com "object"%string before)) in
              let d := Np.norm (Np.ravel
                         (Np.sub_broadcast p
                            (AmyPointMass.goals (AmyPointMass.controls env)))) in
              AmyPointMass.sim env' = after
              /\ AmyPointMass.dist info = Np.norm delta
              /\ (AmyPointMass.success info = 1 <-> Np.norm delta < 0.02)
              /\ (AmyPointMass.success info = 0 <-> ~ Np.norm delta < 0.02)
              /\ p = firstn 2 (sim_qpos after)
              /\ (reward = 0 <-> d < 0.02)
              /\ (reward = -1 <-> ~ d < 0.02)
              /\ (done = true <-> d < 0.02)
              /\ (~ Np.norm delta < 0.02 -> d < 0.02 ->
                  AmyPointMass.success info = 0 /\ done = true)
              /\ (Np.norm delta < 0.02 -> ~ d < 0.02 ->
                  AmyPointMass.success info = 1 /\ done = false)
     | (_, Py.Raise _) => True
     end)
  /\ (forall (M : MujocoEnv) (env : AmyPointMass.PointMassEnv) (v : list R),
        AmyPointMass.discrete env = false ->
        let s := AmyPointMass.sim env in
        let before := set_state (sim_qpos s) (Np.fill_prefix 2 0 (sim_qvel s)) s in
        let after := do_simulation v (AmyPointMass.frame_skip env) before in
        let delta :=
          removelast (Np.sub (get_body_com "goal"%string before)
                             (get_body_com "object"%string before)) in
        let p := firstn 2 (sim_qpos after) in
        let with_goals g :=
          AmyPointMass.with_controls env
            (AmyPointMass.sample_goal (AmyPointMass.controls env) (Np.Vec g)) in
        (~ Np.norm delta < 0.02 ->
         exists info,
           snd (AmyPointMass.step (with_goals p) (Ctrl v))
           = Py.Ok (p, 0, true, info)
           /\ AmyPointMass.success info = 0)
        /\ (Np.norm delta < 0.02 -> p <> [] ->
            exists g info,
              snd (AmyPointMass.step (with_goals g) (Ctrl v))
              = Py.Ok (p, -1, false, info)
              /\ AmyPointMass.success info = 1))
  /\ (exists env a p reward info,
        snd (AmyPointMass.step (M := Toy.simulator) env a)
        = Py.Ok (p, reward, true, info)
        /\ AmyPointMass.success info = 0)
  /\ (exists env a p reward info,
        snd (AmyPointMass.step (M := Toy.simulator) env a)
        = Py.Ok (p, reward, false, info)
        /\ AmyPointMass.success info = 1).
Proof.
  split; [|split; [|split]].
  - intros M env a. unfold AmyPointMass.step.
    destruct (AmyPointMass.applied_action env a) as [a'|e]; [|exact I].
    exists a'. split; [reflexivity|]. cbv zeta.
    cbn [AmyPointMass.with_sim AmyPointMass.sim AmyPointMass.dist
         AmyPointMass.success].
    unfold AmyPointMass.step_prepare, AmyPointMass._get_delta,
      AmyPointMass._get_obs.
    set (s := AmyPointMass.sim env).
    set (before := set_state (sim_qpos s) (Np.fill_prefix 2 0 (sim_qvel s)) s).
    set (after := do_simulation a' (AmyPointMass.frame_skip env) before).
    set (delta := removelast _).
    set (p := firstn 2 (sim_qpos after)).
    set (g := AmyPointMass.goals (AmyPointMass.controls env)).
    pose proof (get_reward_cases p g) as (Hnear & Hfar). cbv zeta in Hnear, Hfar.
    pose proof (get_reward_zero_iff p g) as Hzero.
    set (d := Np.norm (Np.ravel (Np.sub_broadcast p g))) in *.
    assert (Hs1 : Np.float_of_bool (Np.ltb (Np.norm delta) 0.02) = 1
                  <-> Np.norm delta < 0.02).
    { unfold Np.ltb. destruct (Rlt_dec (Np.norm delta) 0.02); cbn; split;
        intro H; auto; lra. }
    assert (Hs0 : Np.float_of_bool (Np.ltb (Np.norm delta) 0.02) = 0
                  <-> ~ Np.norm delta < 0.02).
    { unfold Np.ltb. destruct (Rlt_dec (Np.norm delta) 0.02); cbn; split;
        intro H; auto; lra. }
    assert (Hm1 : AmyPointMass.get_reward p g = -1 <-> ~ d < 0.02).
    { split.
      - intros Hr Hd. apply Hnear in Hd. lra.
      - exact Hfar. }
    assert (Hdone : (if Np.eqb (AmyPointMass.get_reward p g) 0
                     then true else false) = true <-> d < 0.02).
    { rewrite <- Hzero. unfold Np.eqb.
      destruct (Req_dec_T (AmyPointMass.get_reward p g) 0); split; intro H;
        auto; discriminate. }
    split; [reflexivity|]. split; [reflexivity|].
    split; [exact Hs1|]. split; [exact Hs0|]. split; [reflexivity|].
    split; [exact Hzero|]. split; [exact Hm1|]. split; [exact Hdone|].
    split.
    + intros Hfar0 Hd. split; [apply Hs0; exact Hfar0 | apply Hdone; exact Hd].
    + intros Hnear0 Hd. split; [apply Hs1; exact Hnear0|].
      destruct (if Np.eqb (AmyPointMass.get_reward p g) 0 then true else false)
        eqn:E; [|reflexivity].
      exfalso. apply Hd. apply Hdone. reflexivity.
  - intros M env v Hc s before after delta p with_goals.
    assert (Hstep : forall g,
              snd (AmyPointMass.step (with_goals g) (Ctrl v))
              = Py.Ok (p, AmyPointMass.get_reward p (Np.Vec g),
                       (if Np.eqb (AmyPointMass.get_reward p (Np.Vec g)) 0
                        then true else false),
                       {| AmyPointMass.dist := Np.norm delta;
                          AmyPointMass.success :=
                            Np.float_of_bool (Np.ltb (Np.norm delta) 0.02) |})).
    { intro g. unfold AmyPointMass.step, AmyPointMass.applied_action, with_goals.
      cbn [AmyPointMass.with_controls AmyPointMass.discrete].
      rewrite Hc. reflexivity. }
    split.
    + intro Hfar. eexists.
      rewrite Hstep.
      assert (Hr : AmyPointMass.get_reward p (Np.Vec p) = 0).
      { apply get_reward_zero_iff. cbn [Np.sub_broadcast Np.ravel].
        assert (E : Np.norm (Np.sub p p) = 0)
          by (apply norm_zero; apply sub_self_zero).
        rewrite E. lra. }
      rewrite Hr, eqb_refl. split; [reflexivity|].
      cbn [AmyPointMass.success].
      assert (E : Np.ltb (Np.norm delta) 0.02 = false)
        by (apply ltb_false_iff; exact Hfar).
      rewrite E. reflexivity.
    + intros Hnear Hp. exists (map (fun x => x - 1) p). eexists.
      rewrite Hstep.
      assert (Hr : AmyPointMass.get_reward p (Np.Vec (map (fun x => x - 1) p))
                   = -1).
      { apply get_reward_cases. cbn [Np.sub_broadcast Np.ravel].
        apply sub_shifted_far. exact Hp. }
      rewrite Hr.
      assert (E : Np.eqb (-1) 0 = false) by (apply eqb_false_iff; lra).
      rewrite E. split; [reflexivity|].
      cbn [AmyPointMass.success].
      assert (E' : Np.ltb (Np.norm delta) 0.02 = true)
        by (apply ltb_true_iff; exact Hnear).
      rewrite E'. reflexivity.
  - exists (toy_point_mass (Np.Vec [0; 0])
              {| Toy.qpos := [0.03; 0; 0; 0]; Toy.qvel := [0; 0; 0; 0] |}).
    exists (Index 1).
    pose proof (toy_point_mass_step (Np.Vec [0; 0]) 0.03 0 0 0 [0; 0; 0; 0] 1
                  (-0.5) 0 eq_refl) as Hsnd.
    cbv zeta in Hsnd. rewrite toy_moved_onto, eqb_refl in Hsnd.
    do 3 eexists. split; [exact Hsnd|].
    cbn [AmyPointMass.success].
    assert (E : Np.ltb (Np.norm [0 - 0.03; 0 - 0]) 0.02 = false).
    { apply ltb_false_iff. rewrite norm_lt_iff by lra.
      cbn [Np.square_sum fold_right]. lra. }
    rewrite E. reflexivity.
  - exists (toy_point_mass (Np.Vec [0; 0]) toy_rest).
    exists (Index 1).
    pose proof (toy_point_mass_step (Np.Vec [0; 0]) 0 0 0 0 [0; 0; 0; 0] 1
                  (-0.5) 0 eq_refl) as Hsnd.
    cbv zeta in Hsnd. rewrite toy_moved_away in Hsnd.
    assert (E : Np.eqb (-1) 0 = false) by (apply eqb_false_iff; lra).
    rewrite E in Hsnd.
    do 3 eexists. split; [exact Hsnd|].
    cbn [AmyPointMass.success].
    assert (E' : Np.ltb (Np.norm [0 - 0; 0 - 0]) 0.02 = true).
    { apply ltb_true_iff. rewrite norm_lt_iff by lra.
      cbn [Np.square_sum fold_right]. lra. }
    rewrite E'. reflexivity.
Qed.

(** ** The peg step: reward and reach counter *)

Lemma count_reach_eq (rc : nat) (reward : R) :
  Peg2D.count_reach rc reward = if Np.eqb reward 0 then S rc else 0%nat.
Proof.
  unfold Peg2D.count_reach.
  destruct rc as [|rc]; cbn [Nat.eqb negb]; destruct (Np.eqb reward 0);
    try reflexivity; lia.
Qed.

Lemma zero_run_from_0 {O I : Type} (outs : list (O * R * bool * I)) :
  zero_run_from 0 outs = zero_run outs.
Proof.
  induction outs as [|[[[o r] d] i] older IH]; cbn; [reflexivity|].
  rewrite IH. reflexivity.
Qed.

Lemma zero_run_from_snoc {O I : Type} (start : nat)
    (outs : list (O * R * bool * I)) (first : O * R * bool * I) :
  zero_run_from start (outs ++ [first])
  = zero_run_from (zero_run_from start [first]) outs.
Proof.
  induction outs as [|[[[o r] d] i] older IH]; [reflexivity|].
  cbn [app zero_run_from]. rewrite IH. reflexivity.
Qed.

Lemma zero_run_no_done {O I : Type} (outs : list (O * R * bool * I)) :
  Forall (fun out => snd (fst out) = false) outs ->
  zero_run outs = zero_suffix outs.
Proof.
  induction 1 as [|[[[o r] d] i] older Hd _ IH]; [reflexivity|].
  cbn in Hd. subst d. cbn. rewrite IH. reflexivity.
Qed.

Lemma zero_suffix_from_0 {O I : Type} (outs : list (O * R * bool * I)) :
  zero_suffix_from 0 outs = zero_suffix outs.
Proof.
  induction outs as [|[[[o r] d] i] older IH]; cbn; [reflexivity|].
  rewrite IH. reflexivity.
Qed.

Lemma zero_suffix_from_snoc {O I : Type} (start : nat)
    (outs : list (O * R * bool * I)) (first : O * R * bool * I) :
  zero_suffix_from start (outs ++ [first])
  = zero_suffix_from (zero_suffix_from start [first]) outs.
Proof.
  induction outs as [|[[[o r] d] i] older IH]; [reflexivity|].
  cbn [app zero_suffix_from]. rewrite IH. reflexivity.
Qed.

Lemma succ_mod_2 (a b : nat) :
  (a mod 2 = b mod 2)%nat -> (S a mod 2 = S b mod 2)%nat.
Proof.
  intro H.
  replace (S a) with (1 + a)%nat by reflexivity.
  replace (S b) with (1 + b)%nat by reflexivity.
  rewrite (Nat.Div0.add_mod 1 a), (Nat.Div0.add_mod 1 b), H. reflexivity.
Qed.

Lemma zero_suffix_from_mod_2 {O I : Type} (a b : nat)
    (outs : list (O * R * bool * I)) :
  (a mod 2 = b mod 2)%nat ->
  (zero_suffix_from a outs mod 2 = zero_suffix_from b outs mod 2)%nat.
Proof.
  intro H. induction outs as [|[[[o r] d] i] older IH]; [exact H|].
  cbn [zero_suffix_from]. destruct (Np.eqb r 0); [|reflexivity].
  apply succ_mod_2. exact IH.
Qed.

Section PegStep.
Context {M : MujocoEnv}.

(** What one returning step does, in terms of the applied control vector
    and the counter it found. *)
Lemma peg_step_returns (env env' : Peg2D.Peg2DEnv) (a : action)
    (ob : Peg2D.Obs) (reward : R) (done : bool) (info : Z) :
  Peg2D.step env a = (env', Py.Ok (ob, reward, done, info)) ->
  exists u,
    Peg2D.applied_action env a = Py.Ok u
    /\ reward = - Np.norm u
    /\ (done, Peg2D.reach_counts env')
       = Peg2D.done_on_reach (Peg2D.done_on_goal env)
           (Peg2D.count_reach (Peg2D.reach_counts env) reward)
    /\ Peg2D.done_on_goal env' = Peg2D.done_on_goal env
    /\ info = 0%Z.
Proof.
  unfold Peg2D.step. intro H.
  destruct (Peg2D.applied_action env a) as [u|e]; [|discriminate].
  exists u. split; [reflexivity|].
  set (env0 := Peg2D.with_sim env _) in H.
  pose proof (peg_get_obs_keeps env0) as (_ & Hrc & Hdg & _).
  destruct (Peg2D._get_obs env0) as [env1 [ob1|e]]; [|discriminate].
  cbn [fst] in Hrc, Hdg.
  change (Peg2D.reach_counts env0) with (Peg2D.reach_counts env) in Hrc.
  change (Peg2D.done_on_goal env0) with (Peg2D.done_on_goal env) in Hdg.
  rewrite Hrc, Hdg in H.
  destruct (Peg2D.done_on_reach _ _) as [d rc'] eqn:Hdone.
  injection H as <- _ <- <- <-.
  cbn [Peg2D.update Peg2D.reach_counts Peg2D.done_on_goal].
  repeat split; auto.
Qed.

End PegStep.

Section PegStepTotal.
Context {M : MujocoEnv}.

(** A discrete step returns once the environment has been reset (its goal
    is set, and the goal image if the observation asks for it) and the
    index is one the table accepts. *)
Lemma peg_step_discrete (env : Peg2D.Peg2DEnv) (i : Z)
    (abc : R * R * R) (g : list R) :
  Peg2D.discrete env = true ->
  (Peg2D.has_key "goal_img" (Peg2D.obs_keys env) = true ->
   Peg2D.goal_img env <> None) ->
  Py.getitem (Peg2D.a_dict env) i = Py.Ok abc ->
  Peg2D.goal env = Some g ->
  let u := [fst (fst abc); snd (fst abc); snd abc] ++ g in
  Peg2D.applied_action env (Index i) = Py.Ok u
  /\ exists env' ob done,
       Peg2D.step env (Index i) = (env', Py.Ok (ob, - Np.norm u, done, 0%Z))
       /\ Peg2D.discrete env' = true
       /\ Peg2D.a_dict env' = Peg2D.a_dict env
       /\ Peg2D.goal env' = Some g
       /\ Peg2D.obs_keys env' = Peg2D.obs_keys env
       /\ Peg2D.goal_img env' = Peg2D.goal_img env.
Proof.
  intros Hd Himg Hi Hg u.
  assert (Ha : Peg2D.applied_action env (Index i) = Py.Ok u).
  { unfold Peg2D.applied_action. rewrite Hd, Hi. cbn [Py.bind].
    rewrite Hg. reflexivity. }
  split; [exact Ha|].
  unfold Peg2D.step. rewrite Ha.
  unfold Peg2D._get_obs.
  cbn [Peg2D.with_sim Peg2D.update Peg2D.obs_keys Peg2D.goal_img Peg2D.sim
       Peg2D.width Peg2D.height].
  destruct (Peg2D.has_key "img" (Peg2D.obs_keys env));
    destruct (Peg2D.has_key "goal_img" (Peg2D.obs_keys env)) eqn:Hk;
    try (destruct (Peg2D.goal_img env) as [gi|] eqn:Hgi;
         [|exfalso; apply Himg; reflexivity]);
    cbn [Peg2D.update Peg2D.reach_counts Peg2D.done_on_goal Peg2D.obs_keys
         Peg2D.goal Peg2D.goal_img Peg2D.np_random Peg2D.sim];
    destruct (Peg2D.done_on_reach _ _) as [d rc'];
    do 3 eexists; (split; [reflexivity|]); cbn; auto.
Qed.

End PegStepTotal.

(** C5 (amended).  A peg step that returns has reward [-‖u‖₂], where [u] is
    the control vector the step applies: the action itself in the
    continuous configuration, and in the discrete configuration the table
    entry followed by the goal.  The reward is 0 exactly when every
    component of [u] is 0: in the discrete configuration, when the table
    entry is the all-zero triple and the goal is 0 as well. *)
Theorem peg_reward_is_control_norm (M : MujocoEnv)
    (env env' : Peg2D.Peg2DEnv) (a : action)
    (ob : Peg2D.Obs) (reward : R) (done : bool) (info : Z) :
  Peg2D.step env a = (env', Py.Ok (ob, reward, done, info)) ->
  exists u,
    Peg2D.applied_action env a = Py.Ok u
    /\ reward = - Np.norm u
    /\ (reward = 0 <-> Forall (fun x => x = 0) u)
    /\ (Peg2D.discrete env = false -> forall v, a = Ctrl v -> u = v)
    /\ (Peg2D.discrete env = true ->
        exists i abc g,
          a = Index i
          /\ Py.getitem (Peg2D.a_dict env) i = Py.Ok abc
          /\ Peg2D.goal env = Some g
          /\ u = [fst (fst abc); snd (fst abc); snd abc] ++ g
          /\ (reward = 0 <-> abc = (0, 0, 0) /\ Forall (fun x => x = 0) g)).
Proof.
  intro Hstep.
  destruct (peg_step_returns _ _ _ _ _ _ _ Hstep) as (u & Ha & Hr & _).
  assert (Hzero : reward = 0 <-> Forall (fun x => x = 0) u).
  { rewrite <- norm_zero. rewrite Hr. split; intro H; lra. }
  exists u. split; [exact Ha|]. split; [exact Hr|]. split; [exact Hzero|].
  unfold Peg2D.applied_action in Ha. split.
  - intros Hd v Hv. rewrite Hd, Hv in Ha. injection Ha as <-. reflexivity.
  - intro Hd. rewrite Hd in Ha.
    destruct a as [i|v]; [|discriminate].
    destruct (Py.getitem (Peg2D.a_dict env) i) as [abc|e] eqn:Hi;
      [|discriminate].
    cbn [Py.bind] in Ha.
    destruct (Peg2D.goal env) as [g|] eqn:Hg; [|discriminate].
    injection Ha as Hu.
    exists i, abc, g.
    split; [reflexivity|]. split; [exact Hi|]. split; [reflexivity|].
    split; [symmetry; exact Hu|].
    rewrite Hzero, <- Hu. destruct abc as [[x y] z]. cbn [fst snd app].
    split.
    + intro H. inversion H as [|? ? Hx H1]; subst.
      inversion H1 as [|? ? Hy H2]; subst.
      inversion H2 as [|? ? Hz H3]; subst. split; [reflexivity|assumption].
    + intros [E Hgz]. injection E as -> -> ->.
      repeat constructor. exact Hgz.
Qed.

Lemma norm_0_0_0 (x : R) : 0 <= x -> Np.norm [0; 0; 0; x] = x.
Proof.
  intro Hx. unfold Np.norm. cbn [Np.square_sum fold_right].
  replace (0 * 0 + (0 * 0 + (0 * 0 + (x * x + 0)))) with (x * x) by ring.
  apply sqrt_square. exact Hx.
Qed.

Lemma toy_peg_entry_13 (done_on_goal : bool) (g : list R) :
  Py.getitem (Peg2D.a_dict (toy_peg true false done_on_goal g)) 13
  = Py.Ok (0, 0, 0).
Proof. reflexivity. Qed.

Lemma peg_reward_is_control_norm_at_13 :
  exists env' ob done,
    Peg2D.step (toy_peg true false false [0.01]) (Index 13)
    = (env', Py.Ok (ob, - Np.norm [0; 0; 0; 0.01], done, 0%Z))
    /\ (- Np.norm [0; 0; 0; 0.01] = 0
        <-> (0, 0, 0) = (0, 0, 0) /\ Forall (fun x => x = 0) [0.01]).
Proof.
  destruct (peg_step_discrete (toy_peg true false false [0.01]) 13
              (0, 0, 0) [0.01] eq_refl
              (fun H : false = true => False_ind _ (diff_false_true H))
              (toy_peg_entry_13 false [0.01]) eq_refl)
    as (_ & env' & ob & done & Hstep & _).
  cbn [fst snd app] in Hstep.
  exists env', ob, done. split; [exact Hstep|].
  destruct (peg_reward_is_control_norm Toy.simulator _ _ _ _ _ _ _ Hstep)
    as (u & _ & _ & _ & _ & Hdisc).
  destruct (Hdisc eq_refl) as (i & abc & g & Ei & Hi & Hg & _ & Hiff).
  injection Ei as <-. rewrite toy_peg_entry_13 in Hi. injection Hi as <-.
  injection Hg as <-. exact Hiff.
Defined.

(** C5, as stated, fails in the discrete configuration: with the goal at
    0.01, index 13 of the full table is the all-zero triple, and the step
    returns the reward -0.01, which is neither 0 nor the negated norm of
    that triple. *)
Lemma zero_entry_has_nonzero_reward :
  Py.getitem (Peg2D.a_dict (toy_peg true false false [0.01])) 13
  = Py.Ok (0, 0, 0)
  /\ (exists env' ob done,
        Peg2D.step (toy_peg true false false [0.01]) (Index 13)
        = (env', Py.Ok (ob, -0.01, done, 0%Z)))
  /\ -0.01 <> 0
  /\ -0.01 <> - Np.norm [0; 0; 0].
Proof.
  split; [apply toy_peg_entry_13|]. split; [|split].
  - destruct (peg_step_discrete (toy_peg true false false [0.01]) 13
                (0, 0, 0) [0.01] eq_refl
                (fun H : false = true => False_ind _ (diff_false_true H))
                (toy_peg_entry_13 false [0.01]) eq_refl)
      as (_ & env' & ob & done & Hstep & _).
    cbn [fst snd app] in Hstep. rewrite norm_0_0_0 in Hstep by lra.
    replace (- (0.01)) with (-0.01) in Hstep by lra.
    exists env', ob, done. exact Hstep.
  - lra.
  - assert (E : Np.norm [0; 0; 0] = 0).
    { apply norm_zero. repeat constructor. }
    rewrite E. lra.
Qed.

Section ReachCounter.
Context {M : MujocoEnv}.

(** One returning step, read against the counter it found: the counter
    after the update is [c]; [done] is set exactly when [done_on_goal]
    holds and [c] exceeds 1, and then the counter is left at 0. *)
Lemma peg_step_counter (env env' : Peg2D.Peg2DEnv) (a : action)
    (ob : Peg2D.Obs) (reward : R) (done : bool) (info : Z) :
  Peg2D.step env a = (env', Py.Ok (ob, reward, done, info)) ->
  let c := if Np.eqb reward 0 then S (Peg2D.reach_counts env) else 0%nat in
  done = Peg2D.done_on_goal env && (1 <? c)%nat
  /\ Peg2D.reach_counts env' = (if done then 0%nat else c)
  /\ Peg2D.done_on_goal env' = Peg2D.done_on_goal env.
Proof.
  intros Hstep c.
  destruct (peg_step_returns _ _ _ _ _ _ _ Hstep) as (u & _ & _ & Hd & Hdg & _).
  rewrite count_reach_eq in Hd. fold c in Hd.
  unfold Peg2D.done_on_reach in Hd.
  destruct (Peg2D.done_on_goal env && (1 <? c)%nat);
    injection Hd as -> ->; auto.
Qed.

Lemma peg_run_counter (acts : list action) :
  forall (env env' : Peg2D.Peg2DEnv) (outs : list (Peg2D.Obs * R * bool * Z)),
    Peg2D.run env acts = Some (env', outs) ->
    Peg2D.reach_counts env' = zero_run_from (Peg2D.reach_counts env) outs
    /\ Peg2D.done_on_goal env' = Peg2D.done_on_goal env
    /\ (Peg2D.done_on_goal env = false ->
        Forall (fun out => snd (fst out) = false) outs).
Proof.
  induction acts as [|a rest IH]; intros env env' outs Hrun; cbn [Peg2D.run] in Hrun.
  - injection Hrun as <- <-. repeat split; auto.
  - destruct (Peg2D.step env a) as [env1 [out|e]] eqn:Hstep; [|discriminate].
    destruct (Peg2D.run env1 rest) as [[env2 outs']|] eqn:Hrest; [|discriminate].
    injection Hrun as <- <-.
    destruct (IH _ _ _ Hrest) as (Hrc & Hdg & Hnd).
    destruct out as [[[ob r] d] i].
    destruct (peg_step_counter _ _ _ _ _ _ _ Hstep) as (Hd & Hrc1 & Hdg1).
    cbv zeta in Hd, Hrc1.
    split; [|split].
    + rewrite zero_run_from_snoc, Hrc. f_equal.
      cbn [zero_run_from]. rewrite Hrc1.
      destruct d; [reflexivity|]. destruct (Np.eqb r 0); reflexivity.
    + congruence.
    + intro Hoff. apply Forall_app. split.
      * apply Hnd. congruence.
      * constructor; [|constructor]. cbn. rewrite Hd, Hoff. reflexivity.
Qed.

(** With [done_on_goal] set, the counter alternates along a run of
    zero-reward steps: it is the length of the run modulo 2. *)
Lemma peg_run_counter_parity (acts : list action) :
  forall (env env' : Peg2D.Peg2DEnv) (outs : list (Peg2D.Obs * R * bool * Z)),
    Peg2D.done_on_goal env = true ->
    (Peg2D.reach_counts env <= 1)%nat ->
    Peg2D.run env acts = Some (env', outs) ->
    Peg2D.reach_counts env'
    = (zero_suffix_from (Peg2D.reach_counts env) outs mod 2)%nat.
Proof.
  induction acts as [|a rest IH]; intros env env' outs Hon Hle Hrun;
    cbn [Peg2D.run] in Hrun.
  - injection Hrun as <- <-. cbn [zero_suffix_from].
    destruct (Peg2D.reach_counts env) as [|[|n]]; [reflexivity | reflexivity | lia].
  - destruct (Peg2D.step env a) as [env1 [out|e]] eqn:Hstep; [|discriminate].
    destruct (Peg2D.run env1 rest) as [[env2 outs']|] eqn:Hrest; [|discriminate].
    injection Hrun as <- <-.
    destruct out as [[[ob r] d] i].
    destruct (peg_step_counter _ _ _ _ _ _ _ Hstep) as (Hd & Hrc1 & Hdg1).
    cbv zeta in Hd, Hrc1. rewrite Hon in Hd, Hdg1. cbn [andb] in Hd.
    assert (Hone : Peg2D.reach_counts env1
                   = (zero_suffix_from (Peg2D.reach_counts env) [(ob, r, d, i)]
                      mod 2)%nat).
    { rewrite Hrc1, Hd. cbn [zero_suffix_from].
      destruct (Np.eqb r 0); [|reflexivity].
      destruct (Peg2D.reach_counts env) as [|[|n]]; [reflexivity | reflexivity | lia]. }
    assert (Hle1 : (Peg2D.reach_counts env1 <= 1)%nat).
    { rewrite Hone.
      pose proof (Nat.mod_upper_bound
                    (zero_suffix_from (Peg2D.reach_counts env) [(ob, r, d, i)]) 2).
      lia. }
    rewrite (IH _ _ _ Hdg1 Hle1 Hrest).
    rewrite zero_suffix_from_snoc.
    apply zero_suffix_from_mod_2. rewrite Hone.
    apply Nat.Div0.mod_mod.
Qed.

Lemma peg_reset_clears_counter (fuel : nat) (env : Peg2D.Peg2DEnv)
    (x g : option (list R)) :
  match Peg2D.reset_model fuel env x g with
  | Some (env0, _) => Peg2D.reach_counts env0 = 0%nat
  | None => True
  end.
Proof.
  unfold Peg2D.reset_model.
  destruct (match x with Some x' => _ | None => _ end) as [[x'|] rng1];
    [|exact I].
  destruct (match g with Some g' => _ | None => _ end) as [[g'|] rng2];
    [|exact I].
  cbn [Rng.random_sample].
  set (env0 := Peg2D.update env 0 _ _ _ _).
  pose proof (peg_get_obs_keeps env0) as (_ & Hrc & _).
  destruct (Peg2D._get_obs env0) as [env1 r]. exact Hrc.
Qed.

End ReachCounter.



(** ** Draws of the generator *)

Lemma advance_advance (a b : nat) (st : Rng.RandomState) :
  Rng.advance a (Rng.advance b st) = Rng.advance (b + a) st.
Proof.
  unfold Rng.advance. cbn [Rng.draws Rng.cursor]. f_equal. lia.
Qed.

Lemma advance_0 (st : Rng.RandomState) : Rng.advance 0 st = st.
Proof.
  destruct st as [d c]. unfold Rng.advance. cbn [Rng.draws Rng.cursor].
  f_equal. lia.
Qed.

Lemma candidate_advance (k : nat) (st : Rng.RandomState) (low high : R) (i : nat) :
  candidate (Rng.advance k st) low high i = candidate st low high (k + i).
Proof.
  unfold candidate, Rng.advance. cbn [Rng.draws Rng.cursor].
  rewrite Nat.add_assoc. reflexivity.
Qed.

Lemma well_formed_advance (k : nat) (st : Rng.RandomState) :
  Rng.well_formed st -> Rng.well_formed (Rng.advance k st).
Proof. intros H i. apply H. Qed.

Lemma uniform_spec (low high : R) (size : nat) :
  forall st : Rng.RandomState,
    Rng.uniform low high size st
    = (map (candidate st low high) (seq 0 size), Rng.advance size st).
Proof.
  induction size as [|n IH]; intro st.
  - cbn [Rng.uniform seq map]. rewrite advance_0. reflexivity.
  - cbn [Rng.uniform Rng.random_sample]. rewrite IH, advance_advance.
    cbn [seq map]. f_equal. f_equal.
    + unfold candidate. rewrite Nat.add_0_r. reflexivity.
    + rewrite <- seq_shift, map_map. apply map_ext. intro i.
      rewrite candidate_advance. reflexivity.
Qed.

(** A uniform draw of a well-formed generator lies in [[low, high)]. *)
Lemma candidate_range (st : Rng.RandomState) (low high : R) (i : nat) :
  Rng.well_formed st -> low < high ->
  low <= candidate st low high i < high.
Proof.
  intros Hwf Hlh. unfold candidate.
  specialize (Hwf (Rng.cursor st + i)%nat).
  split; nra.
Qed.

(** ** Rejection sampling of the peg goal *)

Lemma good_goal_iff (g : list R) :
  Peg2D.good_goal g = true <-> -0.26 < nth 0 g 0 < 0.26.
Proof.
  unfold Peg2D.good_goal. rewrite andb_true_iff, !ltb_true_iff. tauto.
Qed.

Lemma get_goal_first_good (gl gh : R) (fuel : nat) :
  forall (st st' : Rng.RandomState) (g : list R),
    Peg2D._get_goal fuel gl gh st = (Some g, st') ->
    exists n i,
      (n < fuel)%nat /\ (i < 4)%nat
      /\ g = [candidate st gl gh (4 * n + i)]
      /\ Peg2D.good_goal g = true
      /\ (forall m, (m < 4 * n + i)%nat ->
            Peg2D.good_goal [candidate st gl gh m] = false)
      /\ st' = Rng.advance (4 * (n + 1)) st.
Proof.
  induction fuel as [|fuel IH]; intros st st' g H; [discriminate|].
  cbn [Peg2D._get_goal] in H. rewrite uniform_spec in H.
  cbn [seq map find] in H.
  destruct (Peg2D.good_goal [candidate st gl gh 0]) eqn:E0.
  { injection H as <- <-. exists 0%nat, 0%nat.
    split; [lia|]. split; [lia|]. split; [reflexivity|].
    split; [exact E0|].
    split; [intros m Hm; lia | reflexivity]. }
  destruct (Peg2D.good_goal [candidate st gl gh 1]) eqn:E1.
  { injection H as <- <-. exists 0%nat, 1%nat.
    split; [lia|]. split; [lia|]. split; [reflexivity|].
    split; [exact E1|].
    split; [|reflexivity]. intros m Hm.
    destruct m as [|m]; [exact E0 | lia]. }
  destruct (Peg2D.good_goal [candidate st gl gh 2]) eqn:E2.
  { injection H as <- <-. exists 0%nat, 2%nat.
    split; [lia|]. split; [lia|]. split; [reflexivity|].
    split; [exact E2|].
    split; [|reflexivity]. intros m Hm.
    destruct m as [|[|m]]; [exact E0 | exact E1 | lia]. }
  destruct (Peg2D.good_goal [candidate st gl gh 3]) eqn:E3.
  { injection H as <- <-. exists 0%nat, 3%nat.
    split; [lia|]. split; [lia|]. split; [reflexivity|].
    split; [exact E3|].
    split; [|reflexivity]. intros m Hm.
    destruct m as [|[|[|m]]]; [exact E0 | exact E1 | exact E2 | lia]. }
  destruct (IH _ _ _ H) as (n & i & Hn & Hi & Hg & Hgood & Hrej & Hst).
  exists (S n), i.
  split; [lia|]. split; [exact Hi|].
  split.
  { rewrite Hg, candidate_advance. do 2 f_equal. lia. }
  split; [exact Hgood|]. split.
  - intros m Hm.
    destruct m as [|[|[|[|m]]]];
      [exact E0 | exact E1 | exact E2 | exact E3 |].
    specialize (Hrej m). rewrite candidate_advance in Hrej.
    apply Hrej. lia.
  - rewrite Hst, advance_advance. f_equal. lia.
Qed.

(** With the whole range inside the accepted interval, the first candidate
    of the first batch is returned. *)
Lemma get_goal_in_range (gl gh : R) (fuel : nat) (st : Rng.RandomState) :
  Rng.well_formed st -> -0.26 < gl -> gl < gh -> gh <= 0.26 ->
  Peg2D._get_goal (S fuel) gl gh st
  = (Some [candidate st gl gh 0], Rng.advance 4 st).
Proof.
  intros Hwf Hl Hlh Hh.
  cbn [Peg2D._get_goal]. rewrite uniform_spec. cbn [seq map find].
  assert (E : Peg2D.good_goal [candidate st gl gh 0] = true).
  { apply good_goal_iff. cbn [nth].
    pose proof (candidate_range st gl gh 0 Hwf Hlh). lra. }
  rewrite E. reflexivity.
Qed.

(** The loop goes on to the next batch when a batch is rejected whole, and
    looks at every candidate of a batch: it returns the first candidate
    that satisfies [good_goal], wherever it stands within the fuel. *)
Lemma get_goal_finds_first (gl gh : R) (fuel : nat) :
  forall (st : Rng.RandomState) (n i : nat),
    (n < fuel)%nat -> (i < 4)%nat ->
    Peg2D.good_goal [candidate st gl gh (4 * n + i)] = true ->
    (forall m, (m < 4 * n + i)%nat ->
       Peg2D.good_goal [candidate st gl gh m] = false) ->
    Peg2D._get_goal fuel gl gh st
    = (Some [candidate st gl gh (4 * n + i)], Rng.advance (4 * (n + 1)) st).
Proof.
  induction fuel as [|fuel IH]; intros st n i Hn Hi Hgood Hrej; [lia|].
  cbn [Peg2D._get_goal]. rewrite uniform_spec. cbn [seq map find].
  destruct n as [|n].
  - replace (4 * 0 + i)%nat with i in * by lia.
    destruct i as [|[|[|[|i]]]]; [| | | |lia].
    + rewrite Hgood. reflexivity.
    + rewrite (Hrej 0%nat) by lia. rewrite Hgood. reflexivity.
    + rewrite (Hrej 0%nat), (Hrej 1%nat) by lia. rewrite Hgood. reflexivity.
    + rewrite (Hrej 0%nat), (Hrej 1%nat), (Hrej 2%nat) by lia.
      rewrite Hgood. reflexivity.
  - rewrite (Hrej 0%nat), (Hrej 1%nat), (Hrej 2%nat), (Hrej 3%nat) by lia.
    rewrite (IH (Rng.advance 4 st) n i); [| lia | exact Hi | |].
    + rewrite candidate_advance, advance_advance.
      replace (4 + (4 * n + i))%nat with (4 * S n + i)%nat by lia.
      replace (4 + 4 * (n + 1))%nat with (4 * (S n + 1))%nat by lia.
      reflexivity.
    + rewrite candidate_advance.
      replace (4 + (4 * n + i))%nat with (4 * S n + i)%nat by lia.
      exact Hgood.
    + intros m Hm. rewrite candidate_advance. apply Hrej. lia.
Qed.

(** When every candidate within the fuel is rejected, every batch has been
    drawn and nothing is returned. *)
Lemma get_goal_rejects (gl gh : R) (fuel : nat) :
  forall st : Rng.RandomState,
    (forall m, (m < 4 * fuel)%nat ->
       Peg2D.good_goal [candidate st gl gh m] = false) ->
    Peg2D._get_goal fuel gl gh st = (None, Rng.advance (4 * fuel) st).
Proof.
  induction fuel as [|fuel IH]; intros st Hrej.
  - cbn [Peg2D._get_goal Nat.mul]. rewrite advance_0. reflexivity.
  - cbn [Peg2D._get_goal]. rewrite uniform_spec. cbn [seq map find].
    rewrite (Hrej 0%nat), (Hrej 1%nat), (Hrej 2%nat), (Hrej 3%nat) by lia.
    rewrite IH.
    + rewrite advance_advance. f_equal. f_equal. lia.
    + intros m Hm. rewrite candidate_advance. apply Hrej. lia.
Qed.

(** C7.  [_get_goal] draws whole batches of four one-dimensional
    candidates between [goal_low] and [goal_high] and returns the first
    candidate that satisfies [good_goal].  When it returns, every candidate
    of the earlier batches and every earlier candidate of the last batch
    was rejected, the batches were drawn whole, and the value lies strictly
    between -0.26 and 0.26.  Conversely it does return the first good
    candidate, in whichever batch within the fuel it stands: a batch that
    is rejected whole is followed by a fresh batch.  It returns nothing
    within the fuel only when every candidate of every batch was rejected;
    and on a well-formed generator with the range inside the accepted
    interval it returns the first candidate of the first batch. *)
Theorem get_goal_returns_first_good (goal_low goal_high : R) (fuel : nat)
    (st : Rng.RandomState) :
  (forall (g : list R) (st' : Rng.RandomState),
     Peg2D._get_goal fuel goal_low goal_high st = (Some g, st') ->
     exists n i v,
       (n < fuel)%nat /\ (i < 4)%nat
       /\ g = [v]
       /\ v = goal_low + (goal_high - goal_low)
                         * Rng.draws st (Rng.cursor st + (4 * n + i))
       /\ (Rng.well_formed st -> goal_low < goal_high ->
           goal_low <= v < goal_high)
       /\ Peg2D.good_goal g = true
       /\ (forall m, (m < 4 * n + i)%nat ->
             Peg2D.good_goal [candidate st goal_low goal_high m] = false)
       /\ st' = Rng.advance (4 * (n + 1)) st
       /\ -0.26 < v < 0.26)
  /\ (forall n i,
        (n < fuel)%nat -> (i < 4)%nat ->
        Peg2D.good_goal [candidate st goal_low goal_high (4 * n + i)] = true ->
        (forall m, (m < 4 * n + i)%nat ->
           Peg2D.good_goal [candidate st goal_low goal_high m] = false) ->
        Peg2D._get_goal fuel goal_low goal_high st
        = (Some [candidate st goal_low goal_high (4 * n + i)],
           Rng.advance (4 * (n + 1)) st))
  /\ (Peg2D._get_goal fuel goal_low goal_high st
      = (None, Rng.advance (4 * fuel) st)
      <-> forall m, (m < 4 * fuel)%nat ->
            Peg2D.good_goal [candidate st goal_low goal_high m] = false)
  /\ (Rng.well_formed st -> -0.26 < goal_low -> goal_low < goal_high ->
      goal_high <= 0.26 -> (0 < fuel)%nat ->
      Peg2D._get_goal fuel goal_low goal_high st
      = (Some [candidate st goal_low goal_high 0], Rng.advance 4 st)).
Proof.
  split; [|split; [|split]].
  - intros g st' H.
    destruct (get_goal_first_good _ _ _ _ _ _ H)
      as (n & i & Hn & Hi & Hg & Hgood & Hrej & Hst).
    exists n, i, (candidate st goal_low goal_high (4 * n + i)).
    split; [exact Hn|]. split; [exact Hi|]. split; [exact Hg|].
    split; [reflexivity|].
    split; [intros Hwf Hlh; apply candidate_range; assumption|].
    split; [exact Hgood|]. split; [exact Hrej|]. split; [exact Hst|].
    apply good_goal_iff in Hgood. rewrite Hg in Hgood. exact Hgood.
  - intros n i. apply get_goal_finds_first.
  - split; [|apply get_goal_rejects].
    intros Hnone m Hm.
    destruct (Peg2D.good_goal [candidate st goal_low goal_high m]) eqn:E;
      [|reflexivity].
    exfalso.
    (* the first good candidate below [m] would have been returned *)
    assert (Hfirst : exists k, (k <= m)%nat
              /\ Peg2D.good_goal [candidate st goal_low goal_high k] = true
              /\ forall j, (j < k)%nat ->
                    Peg2D.good_goal [candidate st goal_low goal_high j] = false).
    { clear Hnone Hm. induction m as [m IHm] using lt_wf_ind.
      destruct (forallb
                  (fun j => negb (Peg2D.good_goal
                                    [candidate st goal_low goal_high j]))
                  (seq 0 m)) eqn:Hall.
      - exists m. split; [lia|]. split; [exact E|].
        intros j Hj. rewrite forallb_forall in Hall.
        specialize (Hall j). rewrite in_seq in Hall.
        apply negb_true_iff. apply Hall. lia.
      - assert (Hex : existsb
                  (fun j => Peg2D.good_goal [candidate st goal_low goal_high j])
                  (seq 0 m) = true).
        { destruct (existsb _ (seq 0 m)) eqn:Hex; [reflexivity|].
          exfalso. rewrite <- not_true_iff_false in Hall. apply Hall.
          apply forallb_forall. intros j Hj.
          apply negb_true_iff.
          destruct (Peg2D.good_goal [candidate st goal_low goal_high j]) eqn:Ej;
            [|reflexivity].
          rewrite <- not_true_iff_false in Hex. exfalso. apply Hex.
          apply existsb_exists. exists j. split; assumption. }
        apply existsb_exists in Hex. destruct Hex as (j & Hj & Ej).
        rewrite in_seq in Hj.
        destruct (IHm j ltac:(lia) Ej) as (k & Hk & Hgk & Hrk).
        exists k. split; [lia|]. split; assumption. }
    destruct Hfirst as (k & Hk & Hgk & Hrk).
    assert (Hkn : (k / 4 < fuel)%nat)
      by (apply Nat.Div0.div_lt_upper_bound; lia).
    assert (Hki : (k mod 4 < 4)%nat) by (apply Nat.mod_upper_bound; lia).
    assert (Hkd : (4 * (k / 4) + k mod 4 = k)%nat)
      by (symmetry; apply Nat.div_mod_eq).
    pose proof (get_goal_finds_first goal_low goal_high fuel st
                  (k / 4) (k mod 4) Hkn Hki) as Hfound.
    rewrite Hkd in Hfound. rewrite (Hfound Hgk Hrk) in Hnone. discriminate.
  - intros Hwf Hl Hlh Hh Hfuel.
    destruct fuel as [|fuel]; [lia|].
    apply get_goal_in_range; assumption.
Qed.

Lemma half_stream_well_formed : Rng.well_formed half_stream.
Proof. intro i. cbn. lra. Qed.

Lemma late_stream_candidate (m : nat) :
  candidate late_stream (-1) 1 m = (if (m <? 5)%nat then -1 else 0).
Proof.
  unfold candidate, late_stream. cbn [Rng.draws Rng.cursor Nat.add].
  destruct (m <? 5)%nat; lra.
Qed.

Lemma late_stream_good (m : nat) :
  Peg2D.good_goal [candidate late_stream (-1) 1 m] = negb (m <? 5)%nat.
Proof.
  rewrite late_stream_candidate.
  destruct (m <? 5)%nat; cbn [negb].
  - destruct (Peg2D.good_goal [-1]) eqn:E; [|reflexivity].
    apply good_goal_iff in E. cbn [nth] in E. lra.
  - apply good_goal_iff. cbn [nth]. lra.
Qed.

Lemma get_goal_returns_first_good_second_batch :
  Peg2D._get_goal 1 (-1) 1 late_stream = (None, Rng.advance 4 late_stream)
  /\ Peg2D._get_goal 2 (-1) 1 late_stream
     = (Some [candidate late_stream (-1) 1 5], Rng.advance 8 late_stream)
  /\ candidate late_stream (-1) 1 5 = 0.
Proof.
  destruct (get_goal_returns_first_good (-1) 1 1 late_stream)
    as (_ & _ & Hnone & _).
  destruct (get_goal_returns_first_good (-1) 1 2 late_stream)
    as (_ & Hfind & _ & _).
  split; [|split].
  - apply Hnone. intros m Hm. rewrite late_stream_good.
    destruct (Nat.ltb_spec m 5); [reflexivity | lia].
  - apply (Hfind 1%nat 1%nat); [lia | lia | |].
    + rewrite late_stream_good. reflexivity.
    + intros m Hm. rewrite late_stream_good.
      destruct (Nat.ltb_spec m 5); [reflexivity | lia].
  - rewrite late_stream_candidate. reflexivity.
Defined.

(** ** Rejection sampling of the peg initial state *)

Lemma good_state_iff (s : list R) :
  Peg2D.good_state s = true <-> - PI / 2 < nth 0 s 0 < PI / 2.
Proof.
  unfold Peg2D.good_state. rewrite andb_true_iff, !ltb_true_iff. tauto.
Qed.

Lemma state_batch_spec (st : Rng.RandomState) :
  Peg2D.state_batch st
  = ([state_candidate st 0 0; state_candidate st 0 1;
      state_candidate st 0 2; state_candidate st 0 3],
     Rng.advance 20 st).
Proof.
  unfold Peg2D.state_batch.
  rewrite (uniform_spec (-1.5) 1.5 12 st).
  rewrite (uniform_spec 0 (PI / 2) 4 (Rng.advance 12 st)).
  rewrite advance_advance.
  rewrite (uniform_spec 0 (PI / 4) 4 (Rng.advance (12 + 4) st)).
  rewrite advance_advance.
  cbn [seq map Peg2D.rows3 Peg2D.column Peg2D.set_column Peg2D.zip_with
       nth firstn skipn app].
  rewrite !candidate_advance.
  reflexivity.
Qed.

Lemma state_candidate_advance (st : Rng.RandomState) (n i : nat) :
  state_candidate (Rng.advance 20 st) n i = state_candidate st (S n) i.
Proof.
  unfold state_candidate. rewrite !candidate_advance.
  replace (20 + (20 * n + 3 * i))%nat with (20 * S n + 3 * i)%nat by lia.
  replace (20 + (20 * n + 12 + i))%nat with (20 * S n + 12 + i)%nat by lia.
  replace (20 + (20 * n + 16 + i))%nat with (20 * S n + 16 + i)%nat by lia.
  reflexivity.
Qed.

Lemma get_state_first_good (fuel : nat) :
  forall (st st' : Rng.RandomState) (s : list R),
    Peg2D._get_state fuel st = (Some s, st') ->
    exists n i,
      (n < fuel)%nat /\ (i < 4)%nat
      /\ s = state_candidate st n i
      /\ Peg2D.good_state s = true
      /\ (forall i', (i' < i)%nat ->
            Peg2D.good_state (state_candidate st n i') = false)
      /\ (forall n' i', (n' < n)%nat -> (i' < 4)%nat ->
            Peg2D.good_state (state_candidate st n' i') = false)
      /\ st' = Rng.advance (20 * (n + 1)) st.
Proof.
  induction fuel as [|fuel IH]; intros st st' s H; [discriminate|].
  cbn [Peg2D._get_state] in H. rewrite state_batch_spec in H.
  cbn [find] in H.
  destruct (Peg2D.good_state (state_candidate st 0 0)) eqn:E0.
  { injection H as <- <-. exists 0%nat, 0%nat.
    split; [lia|]. split; [lia|]. split; [reflexivity|]. split; [exact E0|].
    split; [intros; lia|]. split; [intros; lia|]. reflexivity. }
  destruct (Peg2D.good_state (state_candidate st 0 1)) eqn:E1.
  { injection H as <- <-. exists 0%nat, 1%nat.
    split; [lia|]. split; [lia|]. split; [reflexivity|]. split; [exact E1|].
    split; [|split; [intros; lia | reflexivity]].
    intros [|i'] Hi'; [exact E0 | lia]. }
  destruct (Peg2D.good_state (state_candidate st 0 2)) eqn:E2.
  { injection H as <- <-. exists 0%nat, 2%nat.
    split; [lia|]. split; [lia|]. split; [reflexivity|]. split; [exact E2|].
    split; [|split; [intros; lia | reflexivity]].
    intros [|[|i']] Hi'; [exact E0 | exact E1 | lia]. }
  destruct (Peg2D.good_state (state_candidate st 0 3)) eqn:E3.
  { injection H as <- <-. exists 0%nat, 3%nat.
    split; [lia|]. split; [lia|]. split; [reflexivity|]. split; [exact E3|].
    split; [|split; [intros; lia | reflexivity]].
    intros [|[|[|i']]] Hi'; [exact E0 | exact E1 | exact E2 | lia]. }
  destruct (IH _ _ _ H) as (n & i & Hn & Hi & Hs & Hgood & Hrej & Hold & Hst).
  exists (S n), i.
  split; [lia|]. split; [exact Hi|].
  split; [rewrite Hs; apply state_candidate_advance|].
  split; [exact Hgood|]. split; [|split].
  - intros i' Hi'. rewrite <- state_candidate_advance. apply Hrej. exact Hi'.
  - intros [|n'] i' Hn' Hi'.
    + destruct i' as [|[|[|[|i']]]];
        [exact E0 | exact E1 | exact E2 | exact E3 | lia].
    + rewrite <- state_candidate_advance. apply Hold; lia.
  - rewrite Hst, advance_advance. f_equal. lia.
Qed.

(** On a well-formed generator every candidate is accepted: its first joint
    lies in [[-1.5, 1.5)], inside the accepted interval. *)
Lemma state_candidate_good (st : Rng.RandomState) (n i : nat) :
  Rng.well_formed st -> Peg2D.good_state (state_candidate st n i) = true.
Proof.
  intro Hwf. apply good_state_iff. unfold state_candidate. cbn [nth].
  assert (Hlh : -1.5 < 1.5) by lra.
  pose proof (candidate_range st (-1.5) 1.5 (20 * n + 3 * i) Hwf Hlh) as Hx.
  pose proof PI2_3_2 as Hpi. lra.
Qed.

Lemma get_state_accepts_first (st : Rng.RandomState) (fuel : nat) :
  Rng.well_formed st ->
  Peg2D._get_state (S fuel) st
  = (Some (state_candidate st 0 0), Rng.advance 20 st).
Proof.
  intro Hwf. cbn [Peg2D._get_state]. rewrite state_batch_spec.
  cbn [find]. rewrite state_candidate_good by exact Hwf. reflexivity.
Qed.

(** C8.  When [_get_state] returns, it has drawn whole batches of four
    three-joint candidates: the first joint uniform between -1.5 and 1.5,
    the second [-first - sign(first) * spread] with the spread uniform
    between 0 and π/2, the third [sign(first) * spread] plus a draw uniform
    between 0 and π/4.  The state returned is the first candidate that
    satisfies [good_state], so its first joint lies strictly between -π/2
    and π/2. *)
Theorem get_state_returns_first_good (fuel : nat)
    (st st' : Rng.RandomState) (s : list R) :
  Peg2D._get_state fuel st = (Some s, st') ->
  exists n i first spread extra,
    (n < fuel)%nat /\ (i < 4)%nat
    /\ first = -1.5 + (1.5 - -1.5)
                      * Rng.draws st (Rng.cursor st + (20 * n + 3 * i))
    /\ spread = 0 + (PI / 2 - 0)
                    * Rng.draws st (Rng.cursor st + (20 * n + 12 + i))
    /\ extra = 0 + (PI / 4 - 0)
                   * Rng.draws st (Rng.cursor st + (20 * n + 16 + i))
    /\ s = [first;
            - first - Np.sign first * spread;
            Np.sign first * spread + extra]
    /\ (Rng.well_formed st ->
        -1.5 <= first < 1.5 /\ 0 <= spread < PI / 2 /\ 0 <= extra < PI / 4)
    /\ Peg2D.good_state s = true
    /\ (forall i', (i' < i)%nat ->
          Peg2D.good_state (state_candidate st n i') = false)
    /\ (forall n' i', (n' < n)%nat -> (i' < 4)%nat ->
          Peg2D.good_state (state_candidate st n' i') = false)
    /\ st' = Rng.advance (20 * (n + 1)) st
    /\ - PI / 2 < first < PI / 2.
Proof.
  intro H.
  destruct (get_state_first_good _ _ _ _ H)
    as (n & i & Hn & Hi & Hs & Hgood & Hrej & Hold & Hst).
  exists n, i, (candidate st (-1.5) 1.5 (20 * n + 3 * i)),
    (candidate st 0 (PI / 2) (20 * n + 12 + i)),
    (candidate st 0 (PI / 4) (20 * n + 16 + i)).
  split; [exact Hn|]. split; [exact Hi|].
  split; [reflexivity|]. split; [reflexivity|]. split; [reflexivity|].
  split; [exact Hs|].
  split.
  { intro Hwf. pose proof PI_RGT_0 as Hpi.
    split; [apply candidate_range; [exact Hwf | lra]|].
    split; apply candidate_range; try exact Hwf; lra. }
  split; [exact Hgood|]. split; [exact Hrej|]. split; [exact Hold|].
  split; [exact Hst|].
  apply good_state_iff in Hgood. rewrite Hs in Hgood. exact Hgood.
Qed.

Lemma get_state_returns_first_good_half :
  exists s,
    Peg2D._get_state 1 half_stream = (Some s, Rng.advance 20 half_stream)
    /\ - PI / 2 < nth 0 s 0 < PI / 2.
Proof.
  pose proof (get_state_accepts_first half_stream 0 half_stream_well_formed) as H.
  destruct (get_state_returns_first_good _ _ _ _ H)
    as (n & i & x & sp & ex & _ & _ & _ & _ & _ & Hs & _ & _ & _ & _ & _ & Hx).
  exists (state_candidate half_stream 0 0). split; [exact H|].
  rewrite Hs. exact Hx.
Defined.

(** C10.  On every well-formed random stream, [_get_state] returns within
    its first iteration, with the first candidate of the first batch and
    the generator advanced by the twenty draws of that one batch: the first
    joint is drawn from [[-1.5, 1.5)] and 1.5 < π/2, so [good_state] accepts
    every candidate. *)
Theorem get_state_single_batch (st : Rng.RandomState) (fuel : nat) :
  Rng.well_formed st ->
  Peg2D._get_state (S fuel) st
  = (Some (state_candidate st 0 0), Rng.advance 20 st)
  /\ hd_error (fst (Peg2D.state_batch st)) = Some (state_candidate st 0 0)
  /\ Forall (fun s => Peg2D.good_state s = true) (fst (Peg2D.state_batch st))
  /\ (forall n i, Peg2D.good_state (state_candidate st n i) = true)
  /\ 1.5 < PI / 2.
Proof.
  intro Hwf.
  split; [apply get_state_accepts_first; exact Hwf|].
  rewrite state_batch_spec. cbn [fst hd_error].
  split; [reflexivity|]. split.
  - repeat constructor; apply state_candidate_good; exact Hwf.
  - split; [intros n i; apply state_candidate_good; exact Hwf|].
    pose proof PI2_3_2. lra.
Qed.

Lemma get_state_single_batch_half :
  Peg2D._get_state 1 half_stream
  = (Some (state_candidate half_stream 0 0), Rng.advance 20 half_stream).
Proof.
  exact (proj1 (get_state_single_batch half_stream 0 half_stream_well_formed)).
Defined.

(** ** The reach counter over a run *)

Section PegFrame.
Context {M : MujocoEnv}.

Lemma peg_get_obs_frame (env : Peg2D.Peg2DEnv) :
  exists s, fst (Peg2D._get_obs env) = Peg2D.with_sim env s.
Proof.
  unfold Peg2D._get_obs.
  destruct (Peg2D.has_key "img" (Peg2D.obs_keys env));
    destruct (Peg2D.has_key "goal_img" (Peg2D.obs_keys env));
    try destruct (Peg2D.goal_img env); eexists; reflexivity.
Qed.

(** A step changes the simulator state and the reach counter, nothing
    else. *)
Lemma peg_step_frame (env : Peg2D.Peg2DEnv) (a : action) :
  exists rc s,
    fst (Peg2D.step env a)
    = Peg2D.update env rc (Peg2D.goal env) (Peg2D.goal_img env)
        (Peg2D.np_random env) s.
Proof.
  unfold Peg2D.step.
  destruct (Peg2D.applied_action env a) as [u|e].
  - set (env0 := Peg2D.with_sim env _).
    destruct (peg_get_obs_frame env0) as (s & Hs).
    destruct (Peg2D._get_obs env0) as [env1 [ob|e]]; cbn [fst] in Hs; subst env1.
    + destruct (Peg2D.done_on_reach _ _) as [d rc]. eexists. eexists. reflexivity.
    + eexists. eexists. reflexivity.
  - eexists. eexists. reflexivity.
Qed.

Lemma peg_run_frame (acts : list action) :
  forall (env env' : Peg2D.Peg2DEnv) (outs : list (Peg2D.Obs * R * bool * Z)),
    Peg2D.run env acts = Some (env', outs) ->
    exists rc s,
      env' = Peg2D.update env rc (Peg2D.goal env) (Peg2D.goal_img env)
               (Peg2D.np_random env) s.
Proof.
  induction acts as [|a rest IH]; intros env env' outs H; cbn [Peg2D.run] in H.
  - injection H as <- _. destruct env. eexists. eexists. reflexivity.
  - destruct (peg_step_frame env a) as (rc1 & s1 & Hf).
    destruct (Peg2D.step env a) as [env1 [out|e]]; [|discriminate].
    cbn [fst] in Hf. subst env1.
    destruct (Peg2D.run _ rest) as [[env2 outs']|] eqn:Hrest; [|discriminate].
    injection H as <- _.
    destruct (IH _ _ _ Hrest) as (rc & s & ->).
    eexists. eexists. reflexivity.
Qed.

End PegFrame.

Section PegReset.
Context {M : MujocoEnv}.

Lemma peg_get_obs_ok (env : Peg2D.Peg2DEnv) :
  Peg2D.goal_img env <> None ->
  exists s ob, Peg2D._get_obs env = (Peg2D.with_sim env s, Py.Ok ob).
Proof.
  intro Hgi. unfold Peg2D._get_obs.
  destruct (Peg2D.goal_img env) as [gi|]; [|contradiction].
  destruct (Peg2D.has_key "img" (Peg2D.obs_keys env));
    destruct (Peg2D.has_key "goal_img" (Peg2D.obs_keys env));
    eexists; eexists; reflexivity.
Qed.

(** The environment [reset_model] hands to [_get_obs], once the state [x]
    and the goal [g] are known and the generator is at [rng]. *)
Definition reset_env (env : Peg2D.Peg2DEnv) (x g : list R)
    (rng : Rng.RandomState) : Peg2D.Peg2DEnv :=
  let s1 := set_state (PegPose.goal_pose g (Rng.draws rng (Rng.cursor rng)))
              (sim_qvel (Peg2D.sim env)) (Peg2D.sim env) in
  Peg2D.update env 0 (Some g)
    (Some (render_grey (Peg2D.width env) (Peg2D.height env) s1))
    (Rng.advance 1 rng)
    (write_data (x ++ (if Peg2D.free env then [1] else g))
       (map (fun _ => 0) (sim_qvel s1)) s1).

Lemma peg_reset_given (fuel : nat) (env : Peg2D.Peg2DEnv) (x g : list R) :
  Peg2D.reset_model fuel env (Some x) (Some g)
  = Some (Peg2D._get_obs (reset_env env x g (Peg2D.np_random env))).
Proof. reflexivity. Qed.

Lemma peg_reset_sampled (fuel : nat) (env : Peg2D.Peg2DEnv) :
  Rng.well_formed (Peg2D.np_random env) ->
  -0.26 < Peg2D.goal_low env ->
  Peg2D.goal_low env < Peg2D.goal_high env ->
  Peg2D.goal_high env <= 0.26 ->
  let rng := Peg2D.np_random env in
  Peg2D.reset_model (S fuel) env None None
  = Some (Peg2D._get_obs
            (reset_env env (state_candidate rng 0 0)
               [candidate rng (Peg2D.goal_low env) (Peg2D.goal_high env) 20]
               (Rng.advance 24 rng))).
Proof.
  intros Hwf Hl Hlh Hh rng. unfold Peg2D.reset_model. fold rng.
  rewrite (get_state_accepts_first rng fuel Hwf).
  rewrite (get_goal_in_range _ _ fuel (Rng.advance 20 rng)
             (well_formed_advance 20 rng Hwf) Hl Hlh Hh).
  rewrite candidate_advance, advance_advance.
  reflexivity.
Qed.

Lemma peg_reset_never_raises (fuel : nat) (env env' : Peg2D.Peg2DEnv)
    (x g : option (list R)) (r : Py.result Peg2D.Obs) :
  Peg2D.reset_model fuel env x g = Some (env', r) ->
  exists ob, r = Py.Ok ob.
Proof.
  unfold Peg2D.reset_model.
  destruct (match x with Some x' => _ | None => _ end) as [[x'|] rng1];
    [|discriminate].
  destruct (match g with Some g' => _ | None => _ end) as [[g'|] rng2];
    [|discriminate].
  cbn [Rng.random_sample].
  set (env0 := Peg2D.update env 0 _ _ _ _).
  destruct (peg_get_obs_ok env0) as (s & ob & Hob); [discriminate|].
  rewrite Hob. intro H. injection H as _ <-. exists ob. reflexivity.
Qed.

End PegReset.

(** C6 (amended).  Starting from a counter at 0 (as [reset_model] leaves
    it), after any sequence of returning steps the reach counter equals the
    number of latest consecutive steps with reward exactly 0, counted back
    only as far as the last step that returned [done = True]: without
    [done_on_goal] no step returns [done = True] and the counter is the
    length of the latest run of zero-reward steps; with [done_on_goal] it
    is that length modulo 2.  The next step increments the counter on
    reward 0 and clears it otherwise, and returns [done = True] exactly
    when [done_on_goal] is set and the counter then exceeds 1, leaving the
    counter at 0 in that case.  A reset returns with the counter at 0: for
    a given three-joint state and one-entry goal always, and for a sampled
    state and goal on a well-formed generator with the goal range inside
    the accepted interval. *)
Theorem reach_counter_tracks_zero_rewards (M : MujocoEnv)
    (env env' : Peg2D.Peg2DEnv) (acts : list action)
    (outs : list (Peg2D.Obs * R * bool * Z)) :
  Peg2D.reach_counts env = 0%nat ->
  Peg2D.run env acts = Some (env', outs) ->
  Peg2D.reach_counts env' = zero_run outs
  /\ (Peg2D.done_on_goal env = false ->
      Peg2D.reach_counts env' = zero_suffix outs
      /\ Forall (fun out => snd (fst out) = false) outs)
  /\ (Peg2D.done_on_goal env = true ->
      Peg2D.reach_counts env' = (zero_suffix outs mod 2)%nat)
  /\ (forall a,
        match Peg2D.step env' a with
        | (env'', Py.Ok (_, reward, done, _)) =>
            let c := if Np.eqb reward 0 then S (zero_run outs) else 0%nat in
            done = Peg2D.done_on_goal env && (1 <? c)%nat
            /\ Peg2D.reach_counts env'' = (if done then 0%nat else c)
        | (_, Py.Raise _) => True
        end)
  /\ (forall fuel x g,
        match Peg2D.reset_model fuel env' x g with
        | Some (env0, _) => Peg2D.reach_counts env0 = 0%nat
        | None => True
        end)
  /\ (forall fuel x g,
        length x = 3%nat -> length g = 1%nat ->
        exists env0 ob,
          Peg2D.reset_model fuel env' (Some x) (Some g) = Some (env0, Py.Ok ob)
          /\ Peg2D.reach_counts env0 = 0%nat)
  /\ (Rng.well_formed (Peg2D.np_random env) ->
      -0.26 < Peg2D.goal_low env ->
      Peg2D.goal_low env < Peg2D.goal_high env ->
      Peg2D.goal_high env <= 0.26 ->
      forall fuel,
      exists env0 ob,
        Peg2D.reset_model (S fuel) env' None None = Some (env0, Py.Ok ob)
        /\ Peg2D.reach_counts env0 = 0%nat).
Proof.
  intros Hstart Hrun.
  destruct (peg_run_counter _ _ _ _ Hrun) as (Hrc & Hdg & Hnd).
  rewrite Hstart, zero_run_from_0 in Hrc.
  split; [exact Hrc|]. split; [|split; [|split; [|split; [|split]]]].
  - intro Hoff. specialize (Hnd Hoff). split; [|exact Hnd].
    rewrite Hrc. apply zero_run_no_done. exact Hnd.
  - intro Hon.
    rewrite (peg_run_counter_parity _ _ _ _ Hon ltac:(lia) Hrun).
    rewrite Hstart, zero_suffix_from_0. reflexivity.
  - intro a.
    destruct (Peg2D.step env' a) as [env'' [[[[ob r] d] i]|e]] eqn:Hstep;
      [|exact I].
    destruct (peg_step_counter _ _ _ _ _ _ _ Hstep) as (Hd & Hrc' & _).
    cbv zeta in Hd, Hrc'. rewrite Hrc, Hdg in Hd. rewrite Hrc in Hrc'.
    split; assumption.
  - intros fuel x g. apply peg_reset_clears_counter.
  - intros fuel x g _ _. rewrite peg_reset_given.
    set (env0 := reset_env env' x g (Peg2D.np_random env')).
    destruct (peg_get_obs_ok env0) as (s & ob & Hob); [discriminate|].
    rewrite Hob. eexists. exists ob. split; reflexivity.
  - intros Hwf Hl Hlh Hh fuel.
    destruct (peg_run_frame _ _ _ _ Hrun) as (rc & s & Henv').
    assert (Hsame : Peg2D.np_random env' = Peg2D.np_random env
                    /\ Peg2D.goal_low env' = Peg2D.goal_low env
                    /\ Peg2D.goal_high env' = Peg2D.goal_high env)
      by (rewrite Henv'; repeat split).
    destruct Hsame as (Hr & Hgl & Hgh).
    assert (Hwf' : Rng.well_formed (Peg2D.np_random env'))
      by (rewrite Hr; exact Hwf).
    assert (Hl' : -0.26 < Peg2D.goal_low env') by (rewrite Hgl; exact Hl).
    assert (Hlh' : Peg2D.goal_low env' < Peg2D.goal_high env')
      by (rewrite Hgl, Hgh; exact Hlh).
    assert (Hh' : Peg2D.goal_high env' <= 0.26) by (rewrite Hgh; exact Hh).
    pose proof (peg_reset_sampled fuel env' Hwf' Hl' Hlh' Hh') as H.
    cbv zeta in H.
    set (env0 := reset_env env' _ _ _) in H.
    destruct (peg_get_obs_ok env0) as (s0 & ob & Hob); [discriminate|].
    rewrite Hob in H. eexists. exists ob. split; [exact H | reflexivity].
Qed.

Lemma zero_control_reward : Np.eqb (- Np.norm [0; 0; 0; 0]) 0 = true.
Proof. apply eqb_true_iff. rewrite norm_0_0_0 by lra. lra. Qed.

(** The all-zero entry applied with the goal at 0: the step returns with
    reward 0 and advances the counter. *)
Lemma peg_zero_step (M : MujocoEnv) (env : Peg2D.Peg2DEnv) (i : Z) :
  Peg2D.discrete env = true ->
  Peg2D.has_key "goal_img" (Peg2D.obs_keys env) = false ->
  Py.getitem (Peg2D.a_dict env) i = Py.Ok (0, 0, 0) ->
  Peg2D.goal env = Some [0] ->
  exists env' ob,
    let done := Peg2D.done_on_goal env && (1 <? S (Peg2D.reach_counts env))%nat in
    Peg2D.step env (Index i)
    = (env', Py.Ok (ob, - Np.norm [0; 0; 0; 0], done, 0%Z))
    /\ Peg2D.reach_counts env'
       = (if done then 0%nat else S (Peg2D.reach_counts env))
    /\ Peg2D.done_on_goal env' = Peg2D.done_on_goal env
    /\ Peg2D.discrete env' = true
    /\ Peg2D.has_key "goal_img" (Peg2D.obs_keys env') = false
    /\ Py.getitem (Peg2D.a_dict env') i = Py.Ok (0, 0, 0)
    /\ Peg2D.goal env' = Some [0].
Proof.
  intros Hd Hk Hi Hg.
  assert (Himg : Peg2D.has_key "goal_img" (Peg2D.obs_keys env) = true ->
                 Peg2D.goal_img env <> None) by (rewrite Hk; discriminate).
  destruct (peg_step_discrete env i (0, 0, 0) [0] Hd Himg Hi Hg)
    as (_ & env' & ob & done & Hstep & Hd' & Ht & Hg' & Hk' & _).
  cbn [fst snd app] in Hstep.
  destruct (peg_step_counter _ _ _ _ _ _ _ Hstep) as (Hdone & Hrc & Hdg).
  cbv zeta in Hdone, Hrc. rewrite zero_control_reward in Hdone, Hrc.
  exists env', ob. cbv zeta. rewrite <- Hdone.
  split; [exact Hstep|]. split; [exact Hrc|]. split; [exact Hdg|].
  split; [exact Hd'|]. rewrite Hk', Ht, Hg'. auto.
Qed.

(** Three steps with the all-zero entry and the goal at 0, under
    [done_on_goal]: every reward is 0, the second step returns
    [done = True], and the counter ends at 1. *)
Lemma toy_three_zero_steps :
  exists env' ob1 ob2 ob3,
    Peg2D.run (toy_peg true false true [0]) [Index 13; Index 13; Index 13]
    = Some (env', [(ob3, - Np.norm [0; 0; 0; 0], false, 0%Z);
                   (ob2, - Np.norm [0; 0; 0; 0], true, 0%Z);
                   (ob1, - Np.norm [0; 0; 0; 0], false, 0%Z)])
    /\ Peg2D.reach_counts env' = 1%nat.
Proof.
  destruct (peg_zero_step Toy.simulator (toy_peg true false true [0]) 13
              eq_refl eq_refl (toy_peg_entry_13 true [0]) eq_refl)
    as (env1 & ob1 & H1 & Hrc1 & Hdg1 & Hd1 & Hk1 & Hi1 & Hg1).
  cbv zeta in H1, Hrc1.
  change (Peg2D.reach_counts (toy_peg true false true [0])) with 0%nat in H1, Hrc1.
  change (Peg2D.done_on_goal (toy_peg true false true [0])) with true in H1, Hrc1, Hdg1.
  cbn [andb Nat.ltb Nat.leb] in H1, Hrc1.
  destruct (peg_zero_step Toy.simulator env1 13 Hd1 Hk1 Hi1 Hg1)
    as (env2 & ob2 & H2 & Hrc2 & Hdg2 & Hd2 & Hk2 & Hi2 & Hg2).
  cbv zeta in H2, Hrc2. rewrite Hdg1, Hrc1 in H2, Hrc2. rewrite Hdg1 in Hdg2.
  cbn [andb Nat.ltb Nat.leb] in H2, Hrc2.
  destruct (peg_zero_step Toy.simulator env2 13 Hd2 Hk2 Hi2 Hg2)
    as (env3 & ob3 & H3 & Hrc3 & _).
  cbv zeta in H3, Hrc3. rewrite Hdg2, Hrc2 in H3, Hrc3.
  cbn [andb Nat.ltb Nat.leb] in H3, Hrc3.
  exists env3, ob1, ob2, ob3. split; [|exact Hrc3].
  cbn [Peg2D.run]. rewrite H1, H2, H3. reflexivity.
Qed.

Lemma reach_counter_three_zero_steps :
  exists env' outs,
    Peg2D.run (toy_peg true false true [0]) [Index 13; Index 13; Index 13]
    = Some (env', outs)
    /\ Peg2D.reach_counts env' = zero_run outs
    /\ Peg2D.reach_counts env' = (zero_suffix outs mod 2)%nat.
Proof.
  destruct toy_three_zero_steps as (env' & ob1 & ob2 & ob3 & Hrun & _).
  destruct (reach_counter_tracks_zero_rewards Toy.simulator
              (toy_peg true false true [0]) _ _ _ eq_refl Hrun)
    as (Hcount & _ & Hpar & _).
  eexists. eexists. split; [exact Hrun|].
  split; [exact Hcount | exact (Hpar eq_refl)].
Defined.

(** C6, as stated, fails under [done_on_goal]: after three consecutive
    steps with reward exactly 0 (the all-zero entry, the goal at 0) the
    reach counter is 1, not 3, because the second step returned
    [done = True] and cleared it. *)
Lemma three_zero_steps_counter_is_one :
  exists env' outs,
    Peg2D.run (toy_peg true false true [0]) [Index 13; Index 13; Index 13]
    = Some (env', outs)
    /\ Forall (fun out => snd (fst (fst out)) = 0) outs
    /\ zero_suffix outs = 3%nat
    /\ Peg2D.reach_counts env' = 1%nat
    /\ Peg2D.reach_counts env' <> zero_suffix outs.
Proof.
  destruct toy_three_zero_steps as (env' & ob1 & ob2 & ob3 & Hrun & Hrc).
  assert (Hz : - Np.norm [0; 0; 0; 0] = 0)
    by (apply eqb_true_iff; exact zero_control_reward).
  eexists. eexists. split; [exact Hrun|].
  assert (Hs : zero_suffix
                 [(ob3, - Np.norm [0; 0; 0; 0], false, 0%Z);
                  (ob2, - Np.norm [0; 0; 0; 0], true, 0%Z);
                  (ob1, - Np.norm [0; 0; 0; 0], false, 0%Z)] = 3%nat).
  { cbn [zero_suffix]. rewrite zero_control_reward. reflexivity. }
  split; [repeat constructor; exact Hz|].
  split; [exact Hs|]. split; [exact Hrc|].
  rewrite Hs, Hrc. discriminate.
Qed.


(** * Further properties of the code *)

(** ** The goals of the controls *)

Lemma rows2_pairs (f : nat -> R) (k : nat) :
  forall a : nat,
    Controls.rows2 (map f (seq a (k * 2)))
    = map (fun j => [f (a + 2 * j)%nat; f (a + 2 * j + 1)%nat]) (seq 0 k).
Proof.
  induction k as [|k IH]; intro a; [reflexivity|].
  change (S k * 2)%nat with (S (S (k * 2))).
  cbn [seq map Controls.rows2].
  rewrite (IH (S (S a))). f_equal.
  - replace (a + 2 * 0)%nat with a by lia.
    replace (a + 1)%nat with (S a) by lia. reflexivity.
  - rewrite <- seq_shift, map_map. apply map_ext. intro j.
    replace (S (S a) + 2 * j)%nat with (a + 2 * S j)%nat by lia.
    reflexivity.
Qed.

Lemma goals_draw_range (st : Rng.RandomState) (i : nat) :
  Rng.well_formed st -> 1 < candidate st 5 1 i <= 5.
Proof.
  intro Hwf. unfold candidate. specialize (Hwf (Rng.cursor st + i)%nat). lra.
Qed.

Lemma goals_length (fuel k : nat) :
  forall (st st' : Rng.RandomState) (goals : list (list R)),
    Controls._goals fuel k st = (Some goals, st') -> length goals = k.
Proof.
  induction fuel as [|fuel IH]; intros st st' goals H; [discriminate|].
  cbn [Controls._goals] in H. rewrite uniform_spec in H.
  rewrite rows2_pairs in H.
  destruct (forallb _ _).
  - injection H as <- _. rewrite length_map, length_seq. reflexivity.
  - apply (IH _ _ _ H).
Qed.

(** X1.  On a well-formed generator [Controls._goals] returns within its
    first iteration: it draws [2 k] values, every coordinate lies in
    [(1, 5]] (the bounds are passed as [low=5, high=1]), so every row has
    norm below 10 and nothing is ever rejected. *)
Theorem goals_first_batch (k fuel : nat) (st : Rng.RandomState) :
  Rng.well_formed st ->
  exists goals,
    Controls._goals (S fuel) k st = (Some goals, Rng.advance (k * 2) st)
    /\ length goals = k
    /\ (forall j, (j < k)%nat ->
          nth_error goals j
          = Some [5 + (1 - 5) * Rng.draws st (Rng.cursor st + 2 * j);
                  5 + (1 - 5) * Rng.draws st (Rng.cursor st + (2 * j + 1))])
    /\ Forall (fun row => exists a b,
                 row = [a; b] /\ 1 < a <= 5 /\ 1 < b <= 5
                 /\ Np.norm row < 10) goals.
Proof.
  intro Hwf.
  set (goals := map (fun j => [candidate st 5 1 (0 + 2 * j);
                               candidate st 5 1 (0 + 2 * j + 1)]) (seq 0 k)).
  assert (Hall : Forall (fun row => exists a b,
                   row = [a; b] /\ 1 < a <= 5 /\ 1 < b <= 5
                   /\ Np.norm row < 10) goals).
  { apply Forall_forall. intros row Hin. unfold goals in Hin.
    apply in_map_iff in Hin. destruct Hin as (j & <- & _).
    pose proof (goals_draw_range st (0 + 2 * j) Hwf) as Ha.
    pose proof (goals_draw_range st (0 + 2 * j + 1) Hwf) as Hb.
    eexists. eexists. split; [reflexivity|]. split; [exact Ha|].
    split; [exact Hb|].
    apply norm_lt_iff; [lra|]. cbn [Np.square_sum fold_right]. nra. }
  exists goals. split; [|split; [|split]].
  - cbn [Controls._goals]. rewrite uniform_spec, rows2_pairs. fold goals.
    assert (E : forallb (fun row => Np.ltb (Np.norm row) 10) goals = true).
    { apply forallb_forall. intros row Hin.
      rewrite Forall_forall in Hall.
      destruct (Hall row Hin) as (a & b & _ & _ & _ & Hn).
      apply ltb_true_iff. exact Hn. }
    rewrite E. reflexivity.
  - unfold goals. rewrite length_map, length_seq. reflexivity.
  - intros j Hj. unfold goals.
    rewrite nth_error_map, nth_error_seq.
    destruct (Nat.ltb_spec j k) as [_|]; [|lia].
    cbn [option_map Nat.add]. reflexivity.
  - exact Hall.
Qed.

Lemma goals_first_batch_half :
  exists goals,
    Controls._goals 1 1 half_stream = (Some goals, Rng.advance 2 half_stream)
    /\ length goals = 1%nat.
Proof.
  destruct (goals_first_batch 1 0 half_stream half_stream_well_formed)
    as (goals & H & Hlen & _).
  exists goals. split; [exact H | exact Hlen].
Defined.

(** ** The task index and the true goal *)

Lemma controls_new_shape (fuel k : nat) (st st' : Rng.RandomState)
    (c : AmyPointMass.Controls) :
  Controls.Controls_new fuel k st = Some (c, st') ->
  exists rows,
    AmyPointMass.goals c = Np.Mat rows
    /\ length rows = k
    /\ AmyPointMass.k c = Z.of_nat k
    /\ AmyPointMass.index c = 0%Z.
Proof.
  unfold Controls.Controls_new. intro H.
  destruct (Controls._goals fuel k st) as [[goals|] st1] eqn:Hg; [|discriminate].
  injection H as <- _. exists goals.
  split; [reflexivity|]. split; [|split; reflexivity].
  apply (goals_length _ _ _ _ _ Hg).
Qed.

Lemma true_goal_of_rows (c : AmyPointMass.Controls) (rows : list (list R)) :
  AmyPointMass.goals c = Np.Mat rows ->
  Controls.true_goal c
  = (r <- Py.getitem rows (AmyPointMass.index c) ;; Py.Ok (Controls.Row r)).
Proof. unfold Controls.true_goal. intros ->. reflexivity. Qed.

(** X2.  On freshly constructed controls with [k] goals, a task index
    [i < k] is accepted by [sample_task], and [true_goal] then is row [i]
    for [0 <= i], row [k + i] for [-k <= i < 0], and an IndexError for
    [i < -k]: an index below [-k] passes [sample_task] and fails only when
    the goal is read. *)
Theorem true_goal_after_sample_task (fuel k : nat) (st st' : Rng.RandomState)
    (c : AmyPointMass.Controls) (randint i : Z) :
  Controls.Controls_new fuel k st = Some (c, st') ->
  (i < Z.of_nat k)%Z ->
  let c' := fst (AmyPointMass.sample_task randint c (Some i)) in
  exists rows,
    AmyPointMass.goals c = Np.Mat rows
    /\ length rows = k
    /\ snd (AmyPointMass.sample_task randint c (Some i)) = Py.Ok i
    /\ ((0 <= i)%Z ->
        exists row, nth_error rows (Z.to_nat i) = Some row
                    /\ Controls.true_goal c' = Py.Ok (Controls.Row row))
    /\ ((- Z.of_nat k <= i < 0)%Z ->
        exists row, nth_error rows (Z.to_nat (Z.of_nat k + i)) = Some row
                    /\ Controls.true_goal c' = Py.Ok (Controls.Row row))
    /\ ((i < - Z.of_nat k)%Z ->
        Controls.true_goal c' = Py.Raise Py.IndexError).
Proof.
  intros Hnew Hi c'.
  destruct (controls_new_shape _ _ _ _ _ Hnew) as (rows & Hg & Hlen & Hk & _).
  exists rows. split; [exact Hg|]. split; [exact Hlen|].
  assert (Hc' : AmyPointMass.goals c' = Np.Mat rows
                /\ AmyPointMass.index c' = i).
  { unfold c', AmyPointMass.sample_task. cbn [AmyPointMass.k].
    destruct (i <? AmyPointMass.k c)%Z; cbn; auto. }
  destruct Hc' as (Hg' & Hidx).
  rewrite (true_goal_of_rows c' rows Hg'), Hidx.
  split.
  { unfold AmyPointMass.sample_task. cbn [AmyPointMass.k AmyPointMass.index].
    rewrite Hk. destruct (Z.ltb_spec i (Z.of_nat k)); [reflexivity | lia]. }
  split; [|split].
  - intro H0.
    destruct (getitem_in_range rows i) as (row & Hn & Hget); [lia|].
    exists row. rewrite Hget. split; [exact Hn | reflexivity].
  - intro Hneg.
    destruct (getitem_negative rows i) as (row & Hn & Hget); [lia|].
    rewrite Hlen in Hn.
    exists row. rewrite Hget. split; [exact Hn | reflexivity].
  - intro Hlow.
    assert (Hraise : Py.getitem rows i = Py.Raise Py.IndexError).
    { apply getitem_raises. lia. }
    rewrite Hraise. reflexivity.
Qed.

Lemma controls_new_half :
  exists c,
    Controls.Controls_new 1 1 half_stream = Some (c, Rng.advance 2 half_stream).
Proof.
  unfold Controls.Controls_new. cbn [Controls._goals].
  rewrite uniform_spec, rows2_pairs. cbn [seq map forallb].
  assert (E : Np.ltb (Np.norm [candidate half_stream 5 1 (0 + 2 * 0);
                               candidate half_stream 5 1 (0 + 2 * 0 + 1)]) 10
              = true).
  { apply ltb_true_iff. apply norm_lt_iff; [lra|].
    pose proof (goals_draw_range half_stream (0 + 2 * 0)
                  half_stream_well_formed).
    pose proof (goals_draw_range half_stream (0 + 2 * 0 + 1)
                  half_stream_well_formed).
    cbn [Np.square_sum fold_right]. nra. }
  rewrite E. eexists. reflexivity.
Qed.

Lemma true_goal_after_sample_task_below :
  exists c,
    Controls.Controls_new 1 1 half_stream = Some (c, Rng.advance 2 half_stream)
    /\ snd (AmyPointMass.sample_task 0 c (Some (-5)%Z)) = Py.Ok (-5)%Z
    /\ Controls.true_goal (fst (AmyPointMass.sample_task 0 c (Some (-5)%Z)))
       = Py.Raise Py.IndexError.
Proof.
  destruct controls_new_half as (c & Hc).
  assert (Hi : (-5 < Z.of_nat 1)%Z) by lia.
  destruct (true_goal_after_sample_task 1 1 half_stream _ c 0 (-5) Hc Hi)
    as (rows & _ & _ & Hok & _ & _ & Hraise).
  exists c. split; [exact Hc|]. split; [exact Hok|].
  apply Hraise. lia.
Defined.

(** X3.  [sample_task] stores the index before it checks it: a call with
    [i >= k] raises the AssertionError and still leaves [i] as the task
    index (the goals are untouched), so [get_goal_index()] returns [i], and
    [true_goal] on goals with at most [k] rows raises an IndexError. *)
Theorem failed_sample_task_keeps_index (M : MujocoEnv)
    (env : AmyPointMass.PointMassEnv) (randint i : Z) :
  (AmyPointMass.k (AmyPointMass.controls env) <= i)%Z ->
  let env' := fst (AmyPointMass.env_sample_task randint env (Some i)) in
  snd (AmyPointMass.env_sample_task randint env (Some i))
  = Py.Raise Py.AssertionError
  /\ AmyPointMass.get_goal_index env' = i
  /\ AmyPointMass.goals (AmyPointMass.controls env')
     = AmyPointMass.goals (AmyPointMass.controls env)
  /\ (forall rows,
        AmyPointMass.goals (AmyPointMass.controls env) = Np.Mat rows ->
        (0 <= AmyPointMass.k (AmyPointMass.controls env))%Z ->
        (Z.of_nat (length rows)
         <= AmyPointMass.k (AmyPointMass.controls env))%Z ->
        PointMassReset.get_true_goal env' = Py.Raise Py.IndexError).
Proof.
  intros Hi env'.
  assert (Hsnd : snd (AmyPointMass.env_sample_task randint env (Some i))
                 = Py.Raise Py.AssertionError
                 /\ AmyPointMass.index (AmyPointMass.controls env') = i
                 /\ AmyPointMass.goals (AmyPointMass.controls env')
                    = AmyPointMass.goals (AmyPointMass.controls env)).
  { unfold env', AmyPointMass.env_sample_task, AmyPointMass.sample_task.
    cbn [AmyPointMass.k].
    destruct (Z.ltb_spec i (AmyPointMass.k (AmyPointMass.controls env)));
      [lia|]. cbn. auto. }
  destruct Hsnd as (Hr & Hidx & Hg).
  split; [exact Hr|]. split; [exact Hidx|]. split; [exact Hg|].
  intros rows Hrows Hk Hlen.
  unfold PointMassReset.get_true_goal.
  rewrite Hrows in Hg.
  rewrite (true_goal_of_rows _ rows Hg), Hidx.
  assert (Hraise : Py.getitem rows i = Py.Raise Py.IndexError).
  { apply getitem_raises. lia. }
  rewrite Hraise. reflexivity.
Qed.

Lemma failed_sample_task_keeps_index_at_1 :
  let env := toy_point_mass (Np.Mat [[2; 3]]) toy_rest in
  snd (AmyPointMass.env_sample_task 0 env (Some 1%Z))
  = Py.Raise Py.AssertionError
  /\ AmyPointMass.get_goal_index
       (fst (AmyPointMass.env_sample_task 0 env (Some 1%Z))) = 1%Z
  /\ PointMassReset.get_true_goal
       (fst (AmyPointMass.env_sample_task 0 env (Some 1%Z)))
     = Py.Raise Py.IndexError.
Proof.
  cbv zeta.
  assert (Hk : (AmyPointMass.k (AmyPointMass.controls
                  (toy_point_mass (Np.Mat [[2%R; 3%R]]) toy_rest)) <= 1)%Z)
    by (cbn; lia).
  destruct (failed_sample_task_keeps_index Toy.simulator
              (toy_point_mass (Np.Mat [[2; 3]]) toy_rest) 0 1 Hk)
    as (Hr & Hidx & _ & Htrue).
  split; [exact Hr|]. split; [exact Hidx|].
  apply (Htrue [[2; 3]] eq_refl); cbn; lia.
Defined.

(** ** The point-mass reset *)

Lemma add_length (u v : list R) :
  length u = length v -> length (PointMassReset.add u v) = length v.
Proof.
  revert v. induction u as [|x u IH]; intros [|y v] H; try discriminate;
    [reflexivity|].
  cbn. f_equal. apply IH. injection H as H. exact H.
Qed.

Lemma uniform_length (low high : R) (n : nat) (st : Rng.RandomState) :
  length (fst (Rng.uniform low high n st)) = n.
Proof. rewrite uniform_spec. cbn [fst]. rewrite length_map, length_seq. reflexivity. Qed.

Section PointMassResetFacts.
Context {M : MujocoEnv}.
Variables init_qpos init_qvel : list R.

Lemma point_mass_reset_unfold (np_random global : Rng.RandomState)
    (env : AmyPointMass.PointMassEnv) :
  (2 <= length init_qpos)%nat ->
  let goals := reset_goal (AmyPointMass.fix_goal env) global in
  let qpos :=
    PointMassReset.add
      (map (candidate np_random (-0.1) 0.1) (seq 0 (length init_qpos)))
      init_qpos in
  let qvel :=
    PointMassReset.zero_last2
      (PointMassReset.add init_qvel
         (map (candidate (Rng.advance (length init_qpos) np_random)
                 (-0.005) 0.005) (seq 0 (length init_qvel)))) in
  let s' := set_state (firstn (length qpos - 2) qpos ++ goals) qvel
              (AmyPointMass.sim env) in
  PointMassReset.reset_model init_qpos init_qvel np_random global env
  = Some (AmyPointMass.with_sim
            (AmyPointMass.with_controls env
               (AmyPointMass.sample_goal (AmyPointMass.controls env)
                  (Np.Vec goals))) s',
          Rng.advance (length init_qpos + length init_qvel) np_random,
          Rng.advance 2 global,
          AmyPointMass._get_obs s').
Proof.
  intros Hnq goals qpos qvel s'.
  unfold PointMassReset.reset_model.
  rewrite (uniform_spec (-0.1) 0.1), (uniform_spec (-0.3) 0.3 2 global).
  cbn [seq map]. fold qpos.
  assert (Hlen : length qpos = length init_qpos).
  { unfold qpos. apply add_length. rewrite length_map, length_seq. reflexivity. }
  assert (Hg : (if AmyPointMass.fix_goal env then [0; 0]
                else [candidate global (-0.3) 0.3 0;
                      candidate global (-0.3) 0.3 1]) = goals) by reflexivity.
  rewrite Hg.
  cbn [AmyPointMass.sample_goal AmyPointMass.goals Np.ravel].
  unfold PointMassReset.assign_last2.
  destruct (Nat.leb_spec 2 (length qpos)) as [_|]; [|lia].
  rewrite (uniform_spec (-0.005) 0.005), advance_advance.
  reflexivity.
Qed.

End PointMassResetFacts.

Lemma reset_goal_range (fix_goal : bool) (global : Rng.RandomState) :
  Rng.well_formed global ->
  exists g0 g1,
    reset_goal fix_goal global = [g0; g1]
    /\ -0.3 <= g0 < 0.3 /\ -0.3 <= g1 < 0.3.
Proof.
  intro Hwf. unfold reset_goal. destruct fix_goal.
  - exists 0, 0. split; [reflexivity|]. lra.
  - eexists. eexists. split; [reflexivity|].
    split; apply candidate_range; try exact Hwf; lra.
Qed.

(** X4.  With at least two position slots, [reset_model] of the point-mass
    environment returns: it installs a goal of two coordinates, each in
    [[-0.3, 0.3)] when the process-wide generator is well-formed (and both
    0 under [fix_goal]); the goal is drawn from the process-wide generator
    (two draws) whatever the instance generator holds, which in turn gives
    [nq + nv] draws; the task index, the number of tasks and the action
    table are kept. *)
Theorem point_mass_reset_goal (M : MujocoEnv) (init_qpos init_qvel : list R)
    (np_random global : Rng.RandomState) (env : AmyPointMass.PointMassEnv) :
  (2 <= length init_qpos)%nat ->
  Rng.well_formed global ->
  exists env' ob g0 g1,
    PointMassReset.reset_model init_qpos init_qvel np_random global env
    = Some (env',
            Rng.advance (length init_qpos + length init_qvel) np_random,
            Rng.advance 2 global, ob)
    /\ AmyPointMass.goals (AmyPointMass.controls env') = Np.Vec [g0; g1]
    /\ (AmyPointMass.fix_goal env = true -> g0 = 0 /\ g1 = 0)
    /\ (AmyPointMass.fix_goal env = false ->
        g0 = -0.3 + (0.3 - -0.3) * Rng.draws global (Rng.cursor global + 0)
        /\ g1 = -0.3 + (0.3 - -0.3) * Rng.draws global (Rng.cursor global + 1))
    /\ -0.3 <= g0 < 0.3 /\ -0.3 <= g1 < 0.3
    /\ AmyPointMass.index (AmyPointMass.controls env')
       = AmyPointMass.index (AmyPointMass.controls env)
    /\ AmyPointMass.k (AmyPointMass.controls env')
       = AmyPointMass.k (AmyPointMass.controls env)
    /\ AmyPointMass.a_dict env' = AmyPointMass.a_dict env
    /\ AmyPointMass.discrete env' = AmyPointMass.discrete env.
Proof.
  intros Hnq Hwf.
  pose proof (point_mass_reset_unfold init_qpos init_qvel np_random global env Hnq)
    as H. cbv zeta in H.
  destruct (reset_goal_range (AmyPointMass.fix_goal env) global Hwf)
    as (g0 & g1 & Hg & H0 & H1).
  eexists. eexists. exists g0, g1.
  split; [exact H|].
  cbn [AmyPointMass.with_sim AmyPointMass.with_controls AmyPointMass.controls
       AmyPointMass.sample_goal AmyPointMass.goals AmyPointMass.index
       AmyPointMass.k AmyPointMass.a_dict AmyPointMass.discrete].
  split; [rewrite Hg; reflexivity|].
  unfold reset_goal in Hg.
  split.
  { intro Hfix. rewrite Hfix in Hg. injection Hg as <- <-. auto. }
  split.
  { intro Hfix. rewrite Hfix in Hg. injection Hg as <- <-.
    split; reflexivity. }
  split; [exact H0|]. split; [exact H1|]. repeat split.
Qed.

Lemma toy_sim_laws : SimLaws Toy.simulator.
Proof. split; reflexivity. Qed.

Lemma point_mass_reset_goal_toy :
  exists env' ob g0 g1,
    PointMassReset.reset_model [0; 0; 0; 0] [0; 0; 0; 0] half_stream half_stream
      (toy_point_mass (Np.Mat [[2; 3]]) toy_rest)
    = Some (env', Rng.advance 8 half_stream, Rng.advance 2 half_stream, ob)
    /\ AmyPointMass.goals (AmyPointMass.controls env') = Np.Vec [g0; g1]
    /\ -0.3 <= g0 < 0.3 /\ -0.3 <= g1 < 0.3.
Proof.
  assert (Hnq : (2 <= length [0; 0; 0; 0])%nat) by (cbn; lia).
  destruct (point_mass_reset_goal Toy.simulator [0; 0; 0; 0] [0; 0; 0; 0]
              half_stream half_stream
              (toy_point_mass (Np.Mat [[2; 3]]) toy_rest)
              Hnq half_stream_well_formed)
    as (env' & ob & g0 & g1 & H & Hg & _ & _ & H0 & H1 & _).
  exists env', ob, g0, g1. cbn [length Nat.add] in H.
  split; [exact H|]. split; [exact Hg|]. split; [exact H0 | exact H1].
Defined.

Lemma reset_goal_length (fix_goal : bool) (global : Rng.RandomState) :
  length (reset_goal fix_goal global) = 2%nat.
Proof. unfold reset_goal. destruct fix_goal; reflexivity. Qed.

Lemma zero_last2_spec (v : list R) :
  length (PointMassReset.zero_last2 v) = length v
  /\ Forall (fun x => x = 0)
       (skipn (length v - 2) (PointMassReset.zero_last2 v))
  /\ firstn (length v - 2) (PointMassReset.zero_last2 v)
     = firstn (length v - 2) v.
Proof.
  unfold PointMassReset.zero_last2.
  assert (Hf : length (firstn (length v - 2) v) = (length v - 2)%nat)
    by (rewrite length_firstn; lia).
  split; [|split].
  - rewrite length_app, length_map, length_firstn, length_skipn. lia.
  - rewrite skipn_app, Hf, Nat.sub_diag, skipn_0.
    rewrite skipn_all2 by lia. cbn [app].
    apply Forall_forall. intros x Hin. apply in_map_iff in Hin.
    destruct Hin as (y & <- & _). reflexivity.
  - rewrite firstn_app, Hf, Nat.sub_diag, firstn_0, app_nil_r.
    rewrite firstn_all2 by lia. reflexivity.
Qed.

(** X5.  On a simulator that stores what [set_state] is given, and with at
    least four position slots, the point-mass reset leaves the goal in the
    last two position slots and zero in the last two velocity slots; the
    observation it returns is the first two initial positions, each moved
    by a draw in [[-0.1, 0.1)] of the instance generator. *)
Theorem point_mass_reset_state (M : MujocoEnv) (q0 q1 : R)
    (rest init_qvel : list R) (np_random global : Rng.RandomState)
    (env : AmyPointMass.PointMassEnv) :
  SimLaws M ->
  (2 <= length rest)%nat ->
  Rng.well_formed np_random ->
  let init_qpos := q0 :: q1 :: rest in
  exists env' rng' global' ob c0 c1,
    PointMassReset.reset_model init_qpos init_qvel np_random global env
    = Some (env', rng', global', ob)
    /\ ob = [c0 + q0; c1 + q1]
    /\ -0.1 <= c0 < 0.1 /\ -0.1 <= c1 < 0.1
    /\ ob = firstn 2 (sim_qpos (AmyPointMass.sim env'))
    /\ length (sim_qpos (AmyPointMass.sim env')) = length init_qpos
    /\ Np.Vec (skipn (length init_qpos - 2) (sim_qpos (AmyPointMass.sim env')))
       = AmyPointMass.goals (AmyPointMass.controls env')
    /\ length (sim_qvel (AmyPointMass.sim env')) = length init_qvel
    /\ Forall (fun v => v = 0)
         (skipn (length init_qvel - 2) (sim_qvel (AmyPointMass.sim env'))).
Proof.
  intros Hlaws Hrest Hwf init_qpos.
  assert (Hnq : (2 <= length init_qpos)%nat) by (cbn; lia).
  pose proof (point_mass_reset_unfold init_qpos init_qvel np_random global env Hnq)
    as H. cbv zeta in H.
  set (goals := reset_goal (AmyPointMass.fix_goal env) global) in *.
  set (qpos := PointMassReset.add _ init_qpos) in *.
  set (vel := PointMassReset.add init_qvel _) in *.
  assert (Hlen : length qpos = length init_qpos).
  { unfold qpos. apply add_length. rewrite length_map, length_seq. reflexivity. }
  assert (Hvel : length vel = length init_qvel).
  { unfold vel.
    assert (Hsym : forall u v, length u = length v ->
                     length (PointMassReset.add u v) = length u).
    { intros u v E. rewrite add_length by exact E. symmetry. exact E. }
    apply Hsym. rewrite length_map, length_seq. reflexivity. }
  assert (Hq : exists tail,
             qpos = (candidate np_random (-0.1) 0.1 0 + q0)
                    :: (candidate np_random (-0.1) 0.1 1 + q1) :: tail
             /\ length tail = length rest).
  { unfold qpos, init_qpos. cbn [length seq map PointMassReset.add].
    eexists. split; [reflexivity|].
    apply add_length. rewrite length_map, length_seq. reflexivity. }
  destruct Hq as (tail & Hq & Htail).
  assert (Hf : length (firstn (length qpos - 2) qpos) = (length qpos - 2)%nat)
    by (rewrite length_firstn; lia).
  assert (Hob : firstn 2 (firstn (length qpos - 2) qpos ++ goals)
                = [candidate np_random (-0.1) 0.1 0 + q0;
                   candidate np_random (-0.1) 0.1 1 + q1]).
  { rewrite Hq. cbn [length Nat.sub].
    replace (length tail - 0)%nat with (S (S (length tail - 2))) by lia.
    reflexivity. }
  do 4 eexists.
  exists (candidate np_random (-0.1) 0.1 0), (candidate np_random (-0.1) 0.1 1).
  split; [exact H|].
  cbn [AmyPointMass.with_sim AmyPointMass.with_controls AmyPointMass.sim
       AmyPointMass.controls AmyPointMass.sample_goal AmyPointMass.goals].
  unfold AmyPointMass._get_obs.
  rewrite qpos_set_state, qvel_set_state.
  split; [exact Hob|].
  split; [apply candidate_range; [exact Hwf | lra]|].
  split; [apply candidate_range; [exact Hwf | lra]|].
  split; [reflexivity|].
  split.
  { rewrite length_app, Hf. unfold goals. rewrite reset_goal_length. lia. }
  split.
  { rewrite skipn_app, Hf, <- Hlen, Nat.sub_diag, skipn_0.
    rewrite skipn_all2 by lia. reflexivity. }
  destruct (zero_last2_spec vel) as (Hzl & Hzz & _).
  rewrite Hzl, <- Hvel. split; [reflexivity | exact Hzz].
Qed.

Lemma point_mass_reset_state_toy :
  exists env' rng' global' ob c0 c1,
    PointMassReset.reset_model [1; 2; 0; 0] [0; 0; 0; 0] half_stream half_stream
      (toy_point_mass (Np.Mat [[2; 3]]) toy_rest)
    = Some (env', rng', global', ob)
    /\ ob = [c0 + 1; c1 + 2]
    /\ -0.1 <= c0 < 0.1 /\ -0.1 <= c1 < 0.1.
Proof.
  assert (Hrest : (2 <= length [0; 0])%nat) by (cbn; lia).
  destruct (point_mass_reset_state Toy.simulator 1 2 [0; 0] [0; 0; 0; 0]
              half_stream half_stream
              (toy_point_mass (Np.Mat [[2; 3]]) toy_rest)
              toy_sim_laws Hrest half_stream_well_formed)
    as (env' & rng' & global' & ob & c0 & c1 & H & Hob & H0 & H1 & _).
  exists env', rng', global', ob, c0, c1.
  split; [exact H|]. split; [exact Hob|]. split; [exact H0 | exact H1].
Defined.

(** X6.  After a point-mass reset the goals are a vector of two
    coordinates, so [get_true_goal()] is [goals[index]], one coordinate:
    the first one for task index 0.  It is never the two-dimensional goal
    the reward of [step] is computed against. *)
Theorem true_goal_after_reset (M : MujocoEnv) (init_qpos init_qvel : list R)
    (np_random global rng' global' : Rng.RandomState)
    (env env' : AmyPointMass.PointMassEnv) (ob : list R) :
  PointMassReset.reset_model init_qpos init_qvel np_random global env
  = Some (env', rng', global', ob) ->
  exists g0 g1,
    AmyPointMass.goals (AmyPointMass.controls env') = Np.Vec [g0; g1]
    /\ PointMassReset.get_true_goal env'
       = (x <- Py.getitem [g0; g1] (AmyPointMass.get_goal_index env) ;;
          Py.Ok (Controls.Scalar x))
    /\ (AmyPointMass.get_goal_index env = 0%Z ->
        PointMassReset.get_true_goal env' = Py.Ok (Controls.Scalar g0))
    /\ (forall row, PointMassReset.get_true_goal env'
                    <> Py.Ok (Controls.Row row))
    /\ (forall p, AmyPointMass.get_reward p
                    (AmyPointMass.goals (AmyPointMass.controls env')) = 0
                  <-> Np.norm (Np.sub p [g0; g1]) < 0.02).
Proof.
  intro H.
  destruct (Nat.leb_spec 2 (length init_qpos)) as [Hnq|Hnq].
  - pose proof (point_mass_reset_unfold init_qpos init_qvel np_random global
                  env Hnq) as Hu. cbv zeta in Hu.
    rewrite Hu in H. injection H as <- _ _ _.
    assert (Hg : exists g0 g1,
               reset_goal (AmyPointMass.fix_goal env) global = [g0; g1]).
    { unfold reset_goal. destruct (AmyPointMass.fix_goal env);
        eexists; eexists; reflexivity. }
    destruct Hg as (g0 & g1 & Hg).
    exists g0, g1.
    unfold PointMassReset.get_true_goal, Controls.true_goal,
      AmyPointMass.get_goal_index.
    cbn [AmyPointMass.with_sim AmyPointMass.with_controls AmyPointMass.controls
         AmyPointMass.sample_goal AmyPointMass.goals AmyPointMass.index].
    rewrite Hg.
    split; [reflexivity|]. split; [reflexivity|]. split; [|split].
    + intros ->. reflexivity.
    + intros row.
      destruct (Py.getitem [g0; g1] (AmyPointMass.index (AmyPointMass.controls env)));
        cbn; discriminate.
    + intro p. apply get_reward_zero_iff.
  - exfalso. unfold PointMassReset.reset_model in H.
    rewrite (uniform_spec (-0.1) 0.1), (uniform_spec (-0.3) 0.3 2 global) in H.
    unfold PointMassReset.assign_last2 in H.
    rewrite add_length in H by (rewrite length_map, length_seq; reflexivity).
    destruct (Nat.leb_spec 2 (length init_qpos)); [lia | discriminate].
Qed.

Lemma true_goal_after_reset_toy :
  exists env' ob g0 g1,
    PointMassReset.reset_model [0; 0; 0; 0] [0; 0; 0; 0] half_stream half_stream
      (toy_point_mass (Np.Mat [[2; 3]]) toy_rest)
    = Some (env', Rng.advance 8 half_stream, Rng.advance 2 half_stream, ob)
    /\ AmyPointMass.goals (AmyPointMass.controls env') = Np.Vec [g0; g1]
    /\ PointMassReset.get_true_goal env' = Py.Ok (Controls.Scalar g0).
Proof.
  assert (Hnq : (2 <= length [0; 0; 0; 0])%nat) by (cbn; lia).
  pose proof (point_mass_reset_unfold (M := Toy.simulator)
                [0; 0; 0; 0] [0; 0; 0; 0] half_stream half_stream
                (toy_point_mass (Np.Mat [[2; 3]]) toy_rest) Hnq) as Hu.
  cbv zeta in Hu.
  destruct (true_goal_after_reset Toy.simulator _ _ _ _ _ _ _ _ _ Hu)
    as (g0 & g1 & Hg & _ & Hz & _).
  eexists. eexists. exists g0, g1.
  split; [exact Hu|]. split; [exact Hg|]. apply Hz. reflexivity.
Defined.

(** ** Actions that are never the zero action *)

Lemma getitem_In {A : Type} (l : list A) (i : Z) (x : A) :
  Py.getitem l i = Py.Ok x -> In x l.
Proof.
  unfold Py.getitem. intro H.
  destruct ((_ <? 0) || _)%Z; [discriminate|].
  destruct (nth_error l _) as [y|] eqn:E; [|discriminate].
  injection H as <-. apply (nth_error_In _ _ E).
Qed.

(** X7.  In the discrete point-mass environment every control vector a
    step applies is an entry of the table, whichever index selected it
    (negative ones included): two components out of -0.5, 0, 0.5 that are
    not both 0, so its norm is at least 0.5.  The discrete agent cannot
    stand still. *)
Theorem point_mass_discrete_action_nonzero (M : MujocoEnv)
    (env : AmyPointMass.PointMassEnv) (i : Z) (u : list R) :
  AmyPointMass.discrete env = true ->
  AmyPointMass.a_dict env = AmyPointMass.build_a_dict AmyPointMass.actions ->
  AmyPointMass.applied_action env (Index i) = Py.Ok u ->
  exists a b,
    u = [a; b]
    /\ (a = -0.5 \/ a = 0 \/ a = 0.5)
    /\ (b = -0.5 \/ b = 0 \/ b = 0.5)
    /\ (a <> 0 \/ b <> 0)
    /\ 0.5 <= Np.norm u
    /\ AmyPointMass.a_dict (fst (AmyPointMass.step env (Index i)))
       = AmyPointMass.build_a_dict AmyPointMass.actions.
Proof.
  intros Hd Ht Ha. unfold AmyPointMass.applied_action in Ha.
  rewrite Hd in Ha.
  destruct (Py.getitem (AmyPointMass.a_dict env) i) as [[a b]|e] eqn:Hi;
    [|discriminate].
  cbn in Ha. injection Ha as <-.
  apply getitem_In in Hi. rewrite Ht, point_mass_build in Hi.
  exists a, b. split; [reflexivity|].
  assert (Hnorm : forall x y, 0.25 <= x * x + (y * y + 0) ->
                    0.5 <= Np.norm [x; y]).
  { intros x y Hxy. apply Rnot_lt_le. intro Hlt.
    apply norm_lt_iff in Hlt; [|lra].
    cbn [Np.square_sum fold_right] in Hlt. lra. }
  assert (Hkeep : AmyPointMass.a_dict (fst (AmyPointMass.step env (Index i)))
                  = AmyPointMass.build_a_dict AmyPointMass.actions)
    by (rewrite point_mass_step_keeps_table; exact Ht).
  unfold point_mass_table in Hi. cbn [In] in Hi.
  repeat (destruct Hi as [Hi | Hi];
          [injection Hi as <- <-;
           split; [lra|]; split; [lra|]; split; [lra|];
           split; [apply Hnorm; lra | exact Hkeep] | ]).
  contradiction.
Qed.

Lemma point_mass_discrete_action_nonzero_last :
  exists a b,
    AmyPointMass.applied_action (toy_point_mass (Np.Vec [0; 0]) toy_rest)
      (Index (-1)) = Py.Ok [a; b]
    /\ (a <> 0 \/ b <> 0).
Proof.
  assert (Ha : AmyPointMass.applied_action
                 (toy_point_mass (Np.Vec [0; 0]) toy_rest) (Index (-1))
               = Py.Ok [0.5; 0.5]).
  { unfold AmyPointMass.applied_action, toy_point_mass.
    cbn [AmyPointMass.PointMassEnv_init AmyPointMass.discrete AmyPointMass.a_dict].
    rewrite point_mass_build. reflexivity. }
  destruct (point_mass_discrete_action_nonzero Toy.simulator
              (toy_point_mass (Np.Vec [0; 0]) toy_rest) (-1) [0.5; 0.5]
              eq_refl eq_refl Ha)
    as (a & b & Hu & _ & _ & Hnz & _).
  exists a, b. rewrite <- Hu. split; [exact Ha | exact Hnz].
Defined.



(** X8.  In the discrete peg environment, when the table has no all-zero
    entry ([id_less=True] with a nonzero scale) or the goal has a nonzero
    component, every step that returns has a strictly negative reward and
    [done = False], and the reach counter stays at 0: [done_on_goal] can
    never end such an episode. *)
Theorem peg_never_done (M : MujocoEnv) (env env' : Peg2D.Peg2DEnv)
    (acts : list action) (outs : list (Peg2D.Obs * R * bool * Z)) :
  Peg2D.discrete env = true ->
  (~ In (0, 0, 0) (Peg2D.a_dict env)
   \/ exists g x, Peg2D.goal env = Some g /\ In x g /\ x <> 0) ->
  Peg2D.reach_counts env = 0%nat ->
  Peg2D.run env acts = Some (env', outs) ->
  Forall (fun out => snd (fst (fst out)) < 0 /\ snd (fst out) = false) outs
  /\ Peg2D.reach_counts env' = 0%nat.
Proof.
  revert env env' outs.
  induction acts as [|a rest IH]; intros env env' outs Hd Hnz Hrc Hrun;
    cbn [Peg2D.run] in Hrun.
  - injection Hrun as <- <-. split; [constructor | exact Hrc].
  - destruct (peg_step_frame env a) as (rc1 & s1 & Hf).
    destruct (Peg2D.step env a) as [env1 [out|e]] eqn:Hstep; [|discriminate].
    cbn [fst] in Hf.
    destruct (Peg2D.run env1 rest) as [[env2 outs']|] eqn:Hrest; [|discriminate].
    injection Hrun as <- <-.
    destruct out as [[[ob r] d] info].
    destruct (peg_step_returns _ _ _ _ _ _ _ Hstep) as (u & Ha & Hr & Hdone & _).
    assert (Hu : Np.norm u <> 0).
    { intro Hz. apply norm_zero in Hz.
      unfold Peg2D.applied_action in Ha. rewrite Hd in Ha.
      destruct a as [i|v]; [|discriminate].
      destruct (Py.getitem (Peg2D.a_dict env) i) as [[[x y] z]|e] eqn:Hi;
        [|discriminate].
      cbn [Py.bind] in Ha.
      destruct (Peg2D.goal env) as [g|] eqn:Hg; [|discriminate].
      injection Ha as <-. cbn [fst snd app] in Hz.
      inversion Hz as [|? ? Hx H1]; subst.
      inversion H1 as [|? ? Hy H2]; subst.
      inversion H2 as [|? ? Hzz H3]; subst.
      destruct Hnz as [Hno | (g' & w & Hg' & Hin & Hw)].
      - apply Hno. apply (getitem_In _ _ _ Hi).
      - injection Hg' as <-. rewrite Forall_forall in H3.
        apply Hw. apply H3. exact Hin. }
    pose proof (norm_nonneg u) as Hpos.
    assert (Hneg : r < 0) by lra.
    assert (Hne : Np.eqb r 0 = false) by (apply eqb_false_iff; lra).
    rewrite count_reach_eq, Hne in Hdone.
    unfold Peg2D.done_on_reach in Hdone.
    rewrite andb_false_r in Hdone. injection Hdone as -> Hrc1.
    assert (Hd1 : Peg2D.discrete env1 = true) by (rewrite Hf; exact Hd).
    assert (Hnz1 : ~ In (0, 0, 0) (Peg2D.a_dict env1)
                   \/ exists g x, Peg2D.goal env1 = Some g /\ In x g /\ x <> 0)
      by (rewrite Hf; exact Hnz).
    destruct (IH _ _ _ Hd1 Hnz1 Hrc1 Hrest) as (Hall & Hfin).
    split; [|exact Hfin].
    apply Forall_app. split; [exact Hall|].
    constructor; [|constructor]. cbn. split; [exact Hneg | reflexivity].
Qed.

Lemma getitem_ok_or_index_error {A : Type} (l : list A) (i : Z) :
  (exists x, Py.getitem l i = Py.Ok x
             /\ (- Z.of_nat (length l) <= i < Z.of_nat (length l))%Z)
  \/ (Py.getitem l i = Py.Raise Py.IndexError
      /\ ~ (- Z.of_nat (length l) <= i < Z.of_nat (length l))%Z).
Proof.
  destruct (Z_lt_ge_dec i (- Z.of_nat (length l))) as [Hlow|Hlow].
  { right. split; [apply getitem_raises; lia | lia]. }
  destruct (Z_lt_ge_dec i (Z.of_nat (length l))) as [Hhi|Hhi].
  - left. destruct (Z_lt_ge_dec i 0) as [Hneg|Hpos].
    + destruct (getitem_negative l i) as (x & _ & Hx); [lia|].
      exists x. split; [exact Hx | lia].
    + destruct (getitem_in_range l i) as (x & _ & Hx); [lia|].
      exists x. split; [exact Hx | lia].
  - right. split; [apply getitem_raises; lia | lia].
Qed.

Lemma peg_run_total (M : MujocoEnv) (indices : list Z) :
  forall (env : Peg2D.Peg2DEnv) (g : list R),
    Peg2D.discrete env = true ->
    (Peg2D.has_key "goal_img" (Peg2D.obs_keys env) = true ->
     Peg2D.goal_img env <> None) ->
    Peg2D.goal env = Some g ->
    Forall (fun i => (- Z.of_nat (length (Peg2D.a_dict env)) <= i
                      < Z.of_nat (length (Peg2D.a_dict env)))%Z) indices ->
    exists env' outs,
      Peg2D.run env (map Index indices) = Some (env', outs).
Proof.
  induction indices as [|i rest IH]; intros env g Hd Himg Hg Hall.
  - eexists. eexists. reflexivity.
  - inversion Hall as [|? ? Hi Hrest]; subst.
    destruct (getitem_ok_or_index_error (Peg2D.a_dict env) i)
      as [(abc & Hget & _) | (_ & Hout)]; [|contradiction].
    destruct (peg_step_discrete env i abc g Hd Himg Hget Hg)
      as (_ & env1 & ob & done & Hstep & Hd1 & Ht1 & Hg1 & Hk1 & Hgi1).
    assert (Himg1 : Peg2D.has_key "goal_img" (Peg2D.obs_keys env1) = true ->
                    Peg2D.goal_img env1 <> None)
      by (rewrite Hk1, Hgi1; exact Himg).
    assert (Hrest1 : Forall
              (fun j => (- Z.of_nat (length (Peg2D.a_dict env1)) <= j
                         < Z.of_nat (length (Peg2D.a_dict env1)))%Z) rest)
      by (rewrite Ht1; exact Hrest).
    destruct (IH env1 g Hd1 Himg1 Hg1 Hrest1) as (env2 & outs & Hrun).
    cbn [map Peg2D.run]. rewrite Hstep, Hrun. eexists. eexists. reflexivity.
Qed.

Lemma toy_peg_id_less_table (done_on_goal : bool) (g : list R) :
  Peg2D.a_dict (toy_peg true true done_on_goal g)
  = firstn 13 (peg_product 1) ++ skipn 14 (peg_product 1).
Proof. apply peg_build_id_less. lra. Qed.

Lemma peg_never_done_id_less :
  exists env' outs,
    Peg2D.run (toy_peg true true true [0]) [Index 13; Index 0; Index (-1)]
    = Some (env', outs)
    /\ Forall (fun out => snd (fst (fst out)) < 0 /\ snd (fst out) = false) outs
    /\ Peg2D.reach_counts env' = 0%nat.
Proof.
  pose proof (toy_peg_id_less_table true [0]) as Ht.
  assert (Hall : Forall
            (fun i => (- Z.of_nat (length (Peg2D.a_dict
                                             (toy_peg true true true [0%R]))) <= i
                       < Z.of_nat (length (Peg2D.a_dict
                                             (toy_peg true true true [0%R]))))%Z)
            [13; 0; -1]%Z).
  { rewrite Ht. cbn [peg_product seq map firstn skipn app length].
    repeat constructor; lia. }
  destruct (peg_run_total Toy.simulator [13; 0; -1]%Z
              (toy_peg true true true [0]) [0] eq_refl
              (fun H : false = true => False_ind _ (diff_false_true H))
              eq_refl Hall)
    as (env' & outs & Hrun).
  cbn [map] in Hrun.
  assert (Hnz : ~ In (0, 0, 0) (Peg2D.a_dict (toy_peg true true true [0]))
                \/ exists g x, Peg2D.goal (toy_peg true true true [0]) = Some g
                               /\ In x g /\ x <> 0).
  { left. rewrite Ht. apply peg_id_less_no_zero. lra. }
  exists env', outs. split; [exact Hrun|].
  exact (peg_never_done Toy.simulator (toy_peg true true true [0]) env' _ outs
           eq_refl Hnz eq_refl Hrun).
Defined.

(** X11.  How a discrete peg step fails.  With a table of [n] entries: the
    step raises an IndexError exactly when the index is outside [[-n, n)];
    with an index inside, it raises an AttributeError exactly when the
    environment has no goal yet (no [reset_model] has run) or the
    observation asks for the goal image and none was rendered; otherwise it
    returns.  An array of other than one entry in place of the index is a
    TypeError. *)
Theorem peg_discrete_step_failures (M : MujocoEnv) (env : Peg2D.Peg2DEnv) (i : Z) :
  Peg2D.discrete env = true ->
  let n := Z.of_nat (length (Peg2D.a_dict env)) in
  let unready :=
    Peg2D.goal env = None
    \/ (Peg2D.has_key "goal_img" (Peg2D.obs_keys env) = true
        /\ Peg2D.goal_img env = None) in
  let r := snd (Peg2D.step env (Index i)) in
  (r = Py.Raise Py.IndexError <-> ~ (- n <= i < n)%Z)
  /\ (r = Py.Raise Py.AttributeError <-> (- n <= i < n)%Z /\ unready)
  /\ (Py.is_ok r = true <-> (- n <= i < n)%Z /\ ~ unready)
  /\ (forall v, length v <> 1%nat ->
        snd (Peg2D.step env (Ctrl v)) = Py.Raise Py.TypeError).
Proof.
  intros Hd n unready r.
  unfold r, Peg2D.step, Peg2D.applied_action. rewrite Hd.
  destruct (getitem_ok_or_index_error (Peg2D.a_dict env) i)
    as [(abc & Hget & Hin) | (Hget & Hout)]; rewrite Hget; cbn [Py.bind].
  - fold n in Hin.
    destruct (Peg2D.goal env) as [g|] eqn:Hg.
    + unfold Peg2D._get_obs.
      cbn [Peg2D.with_sim Peg2D.update Peg2D.obs_keys Peg2D.goal_img Peg2D.sim
           Peg2D.width Peg2D.height].
      assert (Hcase :
        (Peg2D.has_key "goal_img" (Peg2D.obs_keys env) = true
         /\ Peg2D.goal_img env = None)
        \/ ~ unready).
      { unfold unready.
        destruct (Peg2D.has_key "goal_img" (Peg2D.obs_keys env)) eqn:Hk.
        - destruct (Peg2D.goal_img env) eqn:Hgi.
          + right. intros [H | [_ H]]; discriminate.
          + left. split; reflexivity.
        - right. intros [H | [H _]]; discriminate. }
      destruct (Peg2D.has_key "img" (Peg2D.obs_keys env));
        destruct Hcase as [[Hk Hgi] | Hready].
      * rewrite Hk, Hgi. cbn [snd].
        split; [split; [discriminate | tauto]|].
        split; [split; [intros _; split; [exact Hin | right; auto] | reflexivity]|].
        split; [split; [discriminate | unfold unready; tauto] | intros; reflexivity].
      * destruct (Peg2D.has_key "goal_img" (Peg2D.obs_keys env)) eqn:Hk;
          [destruct (Peg2D.goal_img env) eqn:Hgi;
             [|exfalso; apply Hready; right; auto]|];
          destruct (Peg2D.done_on_reach _ _); cbn [snd Py.is_ok];
          (split; [split; [discriminate | tauto]|]);
          (split; [split; [discriminate | tauto]|]);
          (split; [split; [auto | reflexivity] | intros; reflexivity]).
      * rewrite Hk, Hgi. cbn [snd].
        split; [split; [discriminate | tauto]|].
        split; [split; [intros _; split; [exact Hin | right; auto] | reflexivity]|].
        split; [split; [discriminate | unfold unready; tauto] | intros; reflexivity].
      * destruct (Peg2D.has_key "goal_img" (Peg2D.obs_keys env)) eqn:Hk;
          [destruct (Peg2D.goal_img env) eqn:Hgi;
             [|exfalso; apply Hready; right; auto]|];
          destruct (Peg2D.done_on_reach _ _); cbn [snd Py.is_ok];
          (split; [split; [discriminate | tauto]|]);
          (split; [split; [discriminate | tauto]|]);
          (split; [split; [auto | reflexivity] | intros; reflexivity]).
    + cbn [snd Py.is_ok].
      split; [split; [discriminate | tauto]|].
      split; [split; [intros _; split; [exact Hin | left; reflexivity]
                     | reflexivity]|].
      split; [split; [discriminate | unfold unready; tauto] | intros; reflexivity].
  - fold n in Hout. cbn [snd Py.is_ok].
    split; [split; [auto | reflexivity]|].
    split; [split; [discriminate | tauto]|].
    split; [split; [discriminate | tauto] | intros; reflexivity].
Qed.

Lemma peg_discrete_step_failures_before_reset :
  snd (Peg2D.step (toy_peg_init true false false) (Index 13))
  = Py.Raise Py.AttributeError
  /\ snd (Peg2D.step (toy_peg_init true false false) (Index 27))
     = Py.Raise Py.IndexError.
Proof.
  destruct (peg_discrete_step_failures Toy.simulator
              (toy_peg_init true false false) 13 eq_refl)
    as (_ & Hattr & _).
  destruct (peg_discrete_step_failures Toy.simulator
              (toy_peg_init true false false) 27 eq_refl)
    as (Hidx & _).
  split.
  - apply Hattr. split; [cbn; lia | left; reflexivity].
  - apply Hidx. cbn. lia.
Defined.

(** ** The peg observation *)

(** What [_get_obs] returns and leaves behind, on a simulator that stores
    what [set_state] is given. *)
Lemma peg_get_obs_lawful (M : MujocoEnv) (env : Peg2D.Peg2DEnv) :
  SimLaws M ->
  let env' := fst (Peg2D._get_obs env) in
  let qpos := sim_qpos (Peg2D.sim env) in
  let keys := Peg2D.obs_keys env in
  sim_qpos (Peg2D.sim env') = qpos
  /\ sim_qvel (Peg2D.sim env') = sim_qvel (Peg2D.sim env)
  /\ (snd (Peg2D._get_obs env) = Py.Raise Py.AttributeError
      <-> Peg2D.has_key "goal_img" keys = true /\ Peg2D.goal_img env = None)
  /\ (forall ob, snd (Peg2D._get_obs env) = Py.Ok ob ->
        Peg2D.ob_x ob
        = (if Peg2D.has_key "x" keys then Some (firstn 3 qpos) else None)
        /\ Peg2D.ob_goal ob
           = (if Peg2D.has_key "goal" keys then Some (skipn 3 qpos) else None)
        /\ (Peg2D.ob_img ob = None <-> Peg2D.has_key "img" keys = false)
        /\ Peg2D.ob_goal_img ob
           = (if Peg2D.has_key "goal_img" keys then Peg2D.goal_img env else None)
        /\ Peg2D.ob_a ob = None).
Proof.
  intros Hlaws env' qpos keys. unfold env', Peg2D._get_obs. fold qpos keys.
  destruct (Peg2D.has_key "img" keys) eqn:Himg;
    destruct (Peg2D.has_key "goal_img" keys) eqn:Hk;
    try destruct (Peg2D.goal_img env) as [gi|] eqn:Hgi;
    cbn [fst snd Peg2D.with_sim Peg2D.update Peg2D.sim];
    rewrite ?qpos_set_state, ?qvel_set_state;
    (split; [reflexivity|]); (split; [reflexivity|]);
    (split; [split; [try discriminate; auto
                    | intros [H1 H2]; try discriminate; reflexivity]|]);
    intros ob Hob; try discriminate; injection Hob as <-;
    cbn [Peg2D.ob_x Peg2D.ob_goal Peg2D.ob_img Peg2D.ob_goal_img Peg2D.ob_a];
    repeat (split; try reflexivity; try discriminate; auto).
Qed.

(** X9.  [_get_obs] on a simulator that stores what [set_state] is given:
    rendering the image moves the slot out of the frame and back, so the
    joint positions and velocities are as before; the observation has
    exactly the requested keys among [x], [img], [goal], [goal_img], with
    [x] the first three positions and [goal] the rest; and it fails, with
    an AttributeError, exactly when [goal_img] is requested before any
    goal image was rendered. *)
Theorem peg_get_obs_restores_state (M : MujocoEnv) (env : Peg2D.Peg2DEnv) :
  SimLaws M ->
  let env' := fst (Peg2D._get_obs env) in
  let qpos := sim_qpos (Peg2D.sim env) in
  let keys := Peg2D.obs_keys env in
  sim_qpos (Peg2D.sim env') = qpos
  /\ sim_qvel (Peg2D.sim env') = sim_qvel (Peg2D.sim env)
  /\ (snd (Peg2D._get_obs env) = Py.Raise Py.AttributeError
      <-> Peg2D.has_key "goal_img" keys = true /\ Peg2D.goal_img env = None)
  /\ (forall ob, snd (Peg2D._get_obs env) = Py.Ok ob ->
        Peg2D.ob_x ob
        = (if Peg2D.has_key "x" keys then Some (firstn 3 qpos) else None)
        /\ Peg2D.ob_goal ob
           = (if Peg2D.has_key "goal" keys then Some (skipn 3 qpos) else None)
        /\ (Peg2D.ob_img ob = None <-> Peg2D.has_key "img" keys = false)
        /\ Peg2D.ob_goal_img ob
           = (if Peg2D.has_key "goal_img" keys then Peg2D.goal_img env else None)
        /\ Peg2D.ob_a ob = None).
Proof. intro Hlaws. exact (peg_get_obs_lawful M env Hlaws). Qed.

Lemma peg_get_obs_restores_state_toy :
  sim_qpos (Peg2D.sim (fst (Peg2D._get_obs (toy_peg true false false [0.01]))))
  = [0; 0; 0; 0.01]
  /\ exists ob,
       snd (Peg2D._get_obs (toy_peg true false false [0.01])) = Py.Ok ob
       /\ Peg2D.ob_x ob = Some [0; 0; 0]
       /\ Peg2D.ob_goal ob = Some [0.01].
Proof.
  destruct (peg_get_obs_restores_state Toy.simulator
              (toy_peg true false false [0.01]) toy_sim_laws)
    as (Hq & _ & _ & Hob).
  split; [exact Hq|].
  eexists. split; [reflexivity|].
  destruct (Hob _ eq_refl) as (Hx & Hg & _).
  split; [exact Hx | exact Hg].
Defined.

(** X10.  The observation a peg step returns is read after the simulation
    has advanced: [x] and [goal] are the positions of the state
    [do_simulation] produced from the applied control vector.  The raw
    action is added under [a] exactly when that key is requested, and it is
    the applied control vector (in the discrete configuration the table
    entry followed by the goal), not the index. *)
Theorem peg_step_observes_after_simulation (M : MujocoEnv)
    (env env' : Peg2D.Peg2DEnv) (a : action)
    (ob : Peg2D.Obs) (reward : R) (done : bool) (info : Z) :
  Peg2D.step env a = (env', Py.Ok (ob, reward, done, info)) ->
  exists u,
    Peg2D.applied_action env a = Py.Ok u
    /\ let after :=
         do_simulation u (Peg2D.frame_skip env) (Peg2D.step_prepare env) in
       Peg2D.ob_x ob
       = (if Peg2D.has_key "x" (Peg2D.obs_keys env)
          then Some (firstn 3 (sim_qpos after)) else None)
       /\ Peg2D.ob_goal ob
          = (if Peg2D.has_key "goal" (Peg2D.obs_keys env)
             then Some (skipn 3 (sim_qpos after)) else None)
       /\ Peg2D.ob_a ob
          = (if Peg2D.has_key "a" (Peg2D.obs_keys env) then Some u else None).
Proof.
  unfold Peg2D.step. intro H.
  destruct (Peg2D.applied_action env a) as [u|e]; [|discriminate].
  exists u. split; [reflexivity|]. cbv zeta.
  unfold Peg2D._get_obs in H.
  cbn [Peg2D.with_sim Peg2D.update Peg2D.obs_keys Peg2D.goal_img Peg2D.sim
       Peg2D.width Peg2D.height] in H.
  destruct (Peg2D.has_key "img" (Peg2D.obs_keys env));
    destruct (Peg2D.has_key "goal_img" (Peg2D.obs_keys env));
    try (destruct (Peg2D.goal_img env); [|discriminate]);
    cbn [Peg2D.update Peg2D.reach_counts Peg2D.done_on_goal Peg2D.obs_keys
         Peg2D.goal Peg2D.goal_img Peg2D.np_random Peg2D.sim] in H;
    destruct (Peg2D.done_on_reach _ _);
    injection H as _ <- _ _ _;
    destruct (Peg2D.has_key "a" (Peg2D.obs_keys env));
    cbn; auto.
Qed.

Lemma peg_step_observes_after_simulation_toy :
  exists env' ob reward done,
    Peg2D.step (toy_peg true false false [0.01]) (Index 13)
    = (env', Py.Ok (ob, reward, done, 0%Z))
    /\ Peg2D.ob_a ob = None.
Proof.
  destruct (peg_step_discrete (toy_peg true false false [0.01]) 13
              (0, 0, 0) [0.01] eq_refl
              (fun H : false = true => False_ind _ (diff_false_true H))
              (toy_peg_entry_13 false [0.01]) eq_refl)
    as (_ & env' & ob & done & Hstep & _).
  destruct (peg_step_observes_after_simulation Toy.simulator _ _ _ _ _ _ _ Hstep)
    as (u & _ & _ & _ & Ha).
  exists env', ob. eexists. exists done. split; [exact Hstep | exact Ha].
Defined.

(** ** The peg reset *)



(** X12.  On a well-formed generator and with the goal range inside the
    accepted interval (as the default [-0.02, 0.02] is), [reset_model()]
    returns within one iteration of each sampling loop: it takes the first
    state candidate and the first goal candidate, consumes 25 draws (20 for
    the state batch, 4 for the goal batch, 1 for the sign of the pose),
    stores a goal that satisfies [good_goal], clears the reach counter and
    renders the goal image.  And whenever [reset_model] returns, for a
    state that is sampled or has three joints and a goal that is sampled or
    has one entry, it returns an observation: the goal image is rendered
    before the observation is assembled, so [_get_obs] raises nothing. *)
Theorem peg_reset_returns (M : MujocoEnv) (fuel : nat) (env : Peg2D.Peg2DEnv) :
  Rng.well_formed (Peg2D.np_random env) ->
  -0.26 < Peg2D.goal_low env ->
  Peg2D.goal_low env < Peg2D.goal_high env ->
  Peg2D.goal_high env <= 0.26 ->
  let rng := Peg2D.np_random env in
  (exists env' ob g,
     Peg2D.reset_model (S fuel) env None None = Some (env', Py.Ok ob)
     /\ Peg2D.goal env' = Some g
     /\ g = [candidate rng (Peg2D.goal_low env) (Peg2D.goal_high env) 20]
     /\ Peg2D.good_goal g = true
     /\ Peg2D.good_state (state_candidate rng 0 0) = true
     /\ Peg2D.np_random env' = Rng.advance 25 rng
     /\ Peg2D.reach_counts env' = 0%nat
     /\ Peg2D.goal_img env' <> None
     /\ Peg2D.a_dict env' = Peg2D.a_dict env)
  /\ (forall fuel' x g env' r,
        (forall x', x = Some x' -> length x' = 3%nat) ->
        (forall g', g = Some g' -> length g' = 1%nat) ->
        Peg2D.reset_model fuel' env x g = Some (env', r) ->
        exists ob, r = Py.Ok ob).
Proof.
  intros Hwf Hl Hlh Hh rng. split.
  - pose proof (peg_reset_sampled fuel env Hwf Hl Hlh Hh) as H.
    cbv zeta in H. fold rng in H.
    set (env0 := reset_env env _ _ _) in H.
    destruct (peg_get_obs_ok env0) as (s & ob & Hob); [discriminate|].
    rewrite Hob in H.
    eexists. exists ob. eexists. split; [exact H|].
    cbn [Peg2D.with_sim Peg2D.update Peg2D.goal Peg2D.np_random
         Peg2D.reach_counts Peg2D.goal_img Peg2D.a_dict reset_env env0].
    split; [reflexivity|]. split; [reflexivity|].
    split.
    { apply good_goal_iff. cbn [nth].
      pose proof (candidate_range rng (Peg2D.goal_low env)
                    (Peg2D.goal_high env) 20 Hwf Hlh). lra. }
    split; [apply state_candidate_good; exact Hwf|].
    split; [rewrite advance_advance; reflexivity|].
    split; [reflexivity|]. split; [discriminate | reflexivity].
  - intros fuel' x g env' r _ _ H.
    apply (peg_reset_never_raises _ _ _ _ _ _ H).
Qed.

Lemma peg_reset_returns_toy :
  exists env' ob g,
    Peg2D.reset_model 1 (toy_peg_init true false false) None None
    = Some (env', Py.Ok ob)
    /\ Peg2D.goal env' = Some g
    /\ Peg2D.good_goal g = true
    /\ Peg2D.np_random env' = Rng.advance 25 half_stream.
Proof.
  assert (Hl : -0.26 < Peg2D.goal_low (toy_peg_init true false false))
    by (cbn; lra).
  assert (Hlh : Peg2D.goal_low (toy_peg_init true false false)
                < Peg2D.goal_high (toy_peg_init true false false))
    by (cbn; lra).
  assert (Hh : Peg2D.goal_high (toy_peg_init true false false) <= 0.26)
    by (cbn; lra).
  destruct (peg_reset_returns Toy.simulator 0 (toy_peg_init true false false)
              half_stream_well_formed Hl Hlh Hh)
    as ((env' & ob & g & H & Hg & _ & Hgood & _ & Hrng & _) & _).
  exists env', ob, g.
  split; [exact H|]. split; [exact Hg|]. split; [exact Hgood | exact Hrng].
Defined.

(** X13.  [reset_model(x, goal)] with a three-joint [x] and a one-entry
    [goal], on a simulator that stores what it is given: the stored goal is
    [goal]; the positions
    are [x] followed by the goal, or by 1 in the [free] variant, where the
    observed [goal] is therefore the constant 1 whatever the goal is; all
    velocities are 0; the observation returns [x] under key [x]; and one
    draw of the generator is consumed although nothing was sampled. *)
Theorem peg_reset_round_trip (M : MujocoEnv) (fuel : nat)
    (env : Peg2D.Peg2DEnv) (x g : list R) :
  SimLaws M ->
  length x = 3%nat ->
  length g = 1%nat ->
  exists env' ob,
    Peg2D.reset_model fuel env (Some x) (Some g) = Some (env', Py.Ok ob)
    /\ Peg2D.goal env' = Some g
    /\ sim_qpos (Peg2D.sim env') = x ++ (if Peg2D.free env then [1] else g)
    /\ Forall (fun v => v = 0) (sim_qvel (Peg2D.sim env'))
    /\ Peg2D.ob_x ob
       = (if Peg2D.has_key "x" (Peg2D.obs_keys env) then Some x else None)
    /\ Peg2D.ob_goal ob
       = (if Peg2D.has_key "goal" (Peg2D.obs_keys env)
          then Some (if Peg2D.free env then [1] else g) else None)
    /\ Peg2D.np_random env' = Rng.advance 1 (Peg2D.np_random env)
    /\ Peg2D.reach_counts env' = 0%nat.
Proof.
  intros Hlaws Hx Hg1.
  rewrite peg_reset_given.
  set (env0 := reset_env env x g (Peg2D.np_random env)).
  destruct (peg_get_obs_ok env0) as (s & ob & Hob); [discriminate|].
  destruct (peg_get_obs_lawful M env0 Hlaws) as (Hq & Hv & _ & Hfields).
  rewrite Hob in Hq, Hv, Hfields. cbn [fst snd] in Hq, Hv, Hfields.
  destruct (Hfields ob eq_refl) as (Hobx & Hobg & _).
  exists (Peg2D.with_sim env0 s), ob.
  split; [rewrite Hob; reflexivity|].
  assert (Hq0 : sim_qpos (Peg2D.sim env0)
                = x ++ (if Peg2D.free env then [1] else g)).
  { unfold env0, reset_env. cbn [Peg2D.update Peg2D.sim].
    apply qpos_write_data. }
  assert (Hv0 : Forall (fun v => v = 0) (sim_qvel (Peg2D.sim env0))).
  { unfold env0, reset_env. cbn [Peg2D.update Peg2D.sim].
    rewrite qvel_write_data. apply Forall_forall. intros v Hin.
    apply in_map_iff in Hin. destruct Hin as (w & <- & _). reflexivity. }
  split; [reflexivity|].
  split; [rewrite Hq; exact Hq0|].
  split; [rewrite Hv; exact Hv0|].
  rewrite Hq0 in Hobx, Hobg.
  assert (Hf : firstn 3 (x ++ (if Peg2D.free env then [1] else g)) = x).
  { rewrite firstn_app, Hx, Nat.sub_diag, firstn_0, app_nil_r.
    apply firstn_all2. lia. }
  assert (Hs : skipn 3 (x ++ (if Peg2D.free env then [1] else g))
               = (if Peg2D.free env then [1] else g)).
  { rewrite skipn_app, Hx, Nat.sub_diag, skipn_0.
    rewrite skipn_all2 by lia. reflexivity. }
  rewrite Hf in Hobx. rewrite Hs in Hobg.
  split; [exact Hobx|]. split; [exact Hobg|].
  split; reflexivity.
Qed.

Lemma peg_reset_round_trip_toy :
  exists env' ob,
    Peg2D.reset_model 0 (toy_peg_init true false false)
      (Some [0.1; 0.2; 0.3]) (Some [0.01])
    = Some (env', Py.Ok ob)
    /\ Peg2D.ob_x ob = Some [0.1; 0.2; 0.3]
    /\ Peg2D.ob_goal ob = Some [0.01].
Proof.
  destruct (peg_reset_round_trip Toy.simulator 0 (toy_peg_init true false false)
              [0.1; 0.2; 0.3] [0.01] toy_sim_laws eq_refl eq_refl)
    as (env' & ob & H & _ & _ & _ & Hx & Hg & _).
  exists env', ob. split; [exact H|]. split; [exact Hx | exact Hg].
Defined.

(** ** The goal pose *)

Lemma sign_nonzero (x : R) : x <> 0 -> Np.sign x = 1 \/ Np.sign x = -1.
Proof.
  intro Hx. unfold Np.sign.
  destruct (Rlt_dec x 0); [right; reflexivity|].
  destruct (Rlt_dec 0 x); [left; reflexivity|]. lra.
Qed.

Lemma goal_pose_hypo (y : R) :
  -0.026 < y < 0.026 ->
  let base := 0.03 + -0.005 in
  let hypo := Np.norm [base; y] in
  0 < hypo
  /\ hypo * hypo = base * base + y * y
  /\ 0.625 <= hypo / 0.04 < 1
  /\ sqrt (1 + (y / base)²) = hypo / base.
Proof.
  intros Hy base hypo.
  assert (Hsq : hypo * hypo = base * base + y * y).
  { unfold hypo, Np.norm. cbn [Np.square_sum fold_right].
    rewrite sqrt_sqrt; [ring|]. unfold base. nra. }
  assert (Hpos : 0 <= hypo) by apply norm_nonneg.
  assert (Hgt : 0 < hypo) by (unfold base in Hsq; nra).
  split; [exact Hgt|]. split; [exact Hsq|]. split.
  - unfold base in Hsq. split.
    + apply Rmult_le_reg_r with 0.04; [lra|].
      replace (hypo / 0.04 * 0.04) with hypo by (field; lra). nra.
    + apply Rmult_lt_reg_r with 0.04; [lra|].
      replace (hypo / 0.04 * 0.04) with hypo by (field; lra). nra.
  - apply sqrt_lem_1.
    + unfold Rsqr. nra.
    + unfold base. apply Rlt_le. apply Rdiv_lt_0_compat; lra.
    + unfold Rsqr.
      replace (hypo / base * (hypo / base))
        with ((hypo * hypo) / (base * base)) by (unfold base; field; lra).
      rewrite Hsq. unfold base. field. lra.
Qed.

(** X14.  The pose [reset_model] sets for the goal image solves the
    two-link inverse kinematics: for a goal accepted by [good_goal] and a
    sign draw other than one half, the argument of the arc cosine lies in
    [[0.625, 1)], and the joint angles [q0, q1, q2] satisfy
    [0.04 * (cos q0 + cos (q0 + q1)) / 2 = 0.03 - 0.005] and
    [0.04 * (sin q0 + sin (q0 + q1)) / 2 = goal / 10], that is a chain of
    two equal links of total length 0.04 ends at the peg position, while
    [q0 + q1 + q2 = 0] keeps the last link level; the slot entry is 1. *)
Theorem goal_pose_reaches_peg (g : list R) (u : R) :
  Peg2D.good_goal g = true ->
  u <> 0.5 ->
  exists q0 q1 q2,
    PegPose.goal_pose g u = [q0; q1; q2; 1]
    /\ 0.04 * ((cos q0 + cos (q0 + q1)) / 2) = 0.03 + -0.005
    /\ 0.04 * ((sin q0 + sin (q0 + q1)) / 2) = nth 0 g 0 / 10
    /\ q0 + q1 + q2 = 0
    /\ 0.625 <= Np.norm [0.03 + -0.005; nth 0 g 0 / 10] / 0.04 < 1
    /\ (forall (M : MujocoEnv) (fuel : nat) (env : Peg2D.Peg2DEnv) (x : list R),
          u = Rng.draws (Peg2D.np_random env) (Rng.cursor (Peg2D.np_random env)) ->
          exists s,
            Peg2D.reset_model fuel env (Some x) (Some g)
            = Some (Peg2D._get_obs
                      (Peg2D.update env 0 (Some g)
                         (Some (render_grey (Peg2D.width env) (Peg2D.height env)
                                  (set_state (PegPose.goal_pose g u)
                                     (sim_qvel (Peg2D.sim env)) (Peg2D.sim env))))
                         (Rng.advance 1 (Peg2D.np_random env)) s))).
Proof.
  intros Hgood Hu. apply good_goal_iff in Hgood.
  set (y := nth 0 g 0 / 10).
  assert (Hy : -0.026 < y < 0.026) by (unfold y; lra).
  destruct (goal_pose_hypo y Hy) as (Hpos & Hsq & Hrange & Hsqrt).
  set (base := 0.03 + -0.005) in *.
  set (hypo := Np.norm [base; y]) in *.
  set (a0 := atan (y / base)).
  set (a1 := Np.sign (u - 0.5) * acos (hypo / 0.04)).
  assert (Hcos1 : cos a1 = hypo / 0.04).
  { unfold a1. destruct (sign_nonzero (u - 0.5)) as [-> | ->]; [lra | |].
    - rewrite Rmult_1_l. apply cos_acos. lra.
    - replace (-1 * acos (hypo / 0.04)) with (- acos (hypo / 0.04)) by ring.
      rewrite cos_neg. apply cos_acos. lra. }
  assert (Hcos0 : cos a0 = base / hypo).
  { unfold a0. rewrite cos_atan, Hsqrt. unfold base. field. lra. }
  assert (Hsin0 : sin a0 = y / hypo).
  { unfold a0. rewrite sin_atan, Hsqrt. unfold base. field. lra. }
  exists (a0 + a1), (- 2 * a1), (0 - (a0 + a1) - - 2 * a1).
  split; [reflexivity|].
  replace (a0 + a1 + - 2 * a1) with (a0 - a1) by ring.
  split.
  { rewrite cos_plus, cos_minus, Hcos0, Hcos1. field. lra. }
  split.
  { rewrite sin_plus, sin_minus, Hsin0, Hcos1. fold y. field. lra. }
  split; [ring|]. split; [exact Hrange|].
  intros M fuel env x ->. eexists. reflexivity.
Qed.

Lemma goal_pose_reaches_peg_at_0 :
  exists q0 q1 q2,
    PegPose.goal_pose [0.01] 0 = [q0; q1; q2; 1]
    /\ 0.04 * ((cos q0 + cos (q0 + q1)) / 2) = 0.03 + -0.005
    /\ 0.04 * ((sin q0 + sin (q0 + q1)) / 2) = 0.01 / 10.
Proof.
  assert (Hg : Peg2D.good_goal [0.01] = true).
  { apply good_goal_iff. cbn [nth]. lra. }
  assert (Hu : 0 <> 0.5) by lra.
  destruct (goal_pose_reaches_peg [0.01] 0 Hg Hu)
    as (q0 & q1 & q2 & Hp & Hc & Hs & _).
  exists q0, q1, q2. split; [exact Hp|]. split; [exact Hc | exact Hs].
Defined.

(** ** A goal range that is never accepted *)

Lemma get_goal_rejects_all (gl gh : R) (fuel : nat) :
  forall st : Rng.RandomState,
    (forall i, Peg2D.good_goal [candidate st gl gh i] = false) ->
    Peg2D._get_goal fuel gl gh st = (None, Rng.advance (4 * fuel) st).
Proof.
  induction fuel as [|fuel IH]; intros st Hrej.
  - cbn [Peg2D._get_goal Nat.mul]. rewrite advance_0. reflexivity.
  - cbn [Peg2D._get_goal]. rewrite uniform_spec. cbn [seq map find].
    rewrite !Hrej. rewrite IH.
    + rewrite advance_advance. f_equal. f_equal. lia.
    + intro i. rewrite candidate_advance. apply Hrej.
Qed.

(** X15.  When the whole goal range lies outside the accepted interval
    (at or above 0.26, or at or below -0.26), [_get_goal] rejects every
    candidate of every batch on a well-formed generator: no number of
    iterations returns a goal, each consumes four more draws, and
    [reset_model] without an explicit goal does not return either. *)
Theorem get_goal_never_returns (M : MujocoEnv) (env : Peg2D.Peg2DEnv) :
  Rng.well_formed (Peg2D.np_random env) ->
  Peg2D.goal_low env <= Peg2D.goal_high env ->
  0.26 <= Peg2D.goal_low env \/ Peg2D.goal_high env <= -0.26 ->
  (forall fuel st,
     Rng.well_formed st ->
     Peg2D._get_goal fuel (Peg2D.goal_low env) (Peg2D.goal_high env) st
     = (None, Rng.advance (4 * fuel) st))
  /\ (forall fuel x, Peg2D.reset_model fuel env x None = None).
Proof.
  intros Hwf Hlh Hout.
  assert (Hloop : forall fuel st,
            Rng.well_formed st ->
            Peg2D._get_goal fuel (Peg2D.goal_low env) (Peg2D.goal_high env) st
            = (None, Rng.advance (4 * fuel) st)).
  { intros fuel st Hst. apply get_goal_rejects_all. intro i.
    destruct (Peg2D.good_goal _) eqn:E; [|reflexivity].
    apply good_goal_iff in E. cbn [nth] in E. unfold candidate in E.
    specialize (Hst (Rng.cursor st + i)%nat). nra. }
  split; [exact Hloop|].
  intros fuel x. unfold Peg2D.reset_model.
  destruct x as [x|].
  - rewrite (Hloop fuel _ Hwf). reflexivity.
  - destruct fuel as [|fuel]; [reflexivity|].
    rewrite (get_state_accepts_first _ fuel Hwf).
    rewrite (Hloop (S fuel) _ (well_formed_advance 20 _ Hwf)). reflexivity.
Qed.

Lemma get_goal_never_returns_toy :
  Peg2D.reset_model 3
    (Peg2D.Peg2DEnv_init (M := Toy.simulator) 10 ["x"; "goal"]%string
       0.3 0.4 1 true false false false half_stream toy_rest)
    None None = None.
Proof.
  set (env := Peg2D.Peg2DEnv_init (M := Toy.simulator) 10 _ 0.3 0.4 1
                true false false false half_stream toy_rest).
  assert (Hlh : Peg2D.goal_low env <= Peg2D.goal_high env) by (cbn; lra).
  assert (Hout : 0.26 <= Peg2D.goal_low env \/ Peg2D.goal_high env <= -0.26)
    by (left; cbn; lra).
  exact (proj2 (get_goal_never_returns Toy.simulator env
                  half_stream_well_formed Hlh Hout) 3%nat None).
Defined.

(** ** The shape of a sampled initial state *)

(** X16.  Every state [_get_state] returns on a well-formed generator has
    three joints [x, e, z] with [x] in [[-1.5, 1.5)], the second joint bent
    against the first ([e <= -x] for positive [x], [e >= -x] for negative
    [x], so [x * e <= 0]), and the three angles summing to the third draw:
    [0 <= x + e + z < π/4]. *)
Theorem sampled_state_shape (fuel : nat) (st st' : Rng.RandomState) (s : list R) :
  Rng.well_formed st ->
  Peg2D._get_state fuel st = (Some s, st') ->
  exists x e z,
    s = [x; e; z]
    /\ -1.5 <= x < 1.5
    /\ (0 < x -> e <= - x)
    /\ (x < 0 -> - x <= e)
    /\ x * e <= 0
    /\ 0 <= x + e + z < PI / 4.
Proof.
  intros Hwf H.
  destruct (get_state_first_good _ _ _ _ H) as (n & i & _ & _ & Hs & _).
  unfold state_candidate in Hs.
  set (x := candidate st (-1.5) 1.5 (20 * n + 3 * i)) in Hs.
  set (sp := candidate st 0 (PI / 2) (20 * n + 12 + i)) in Hs.
  set (ex := candidate st 0 (PI / 4) (20 * n + 16 + i)) in Hs.
  pose proof PI_RGT_0 as Hpi.
  assert (Hx : -1.5 <= x < 1.5) by (apply candidate_range; [exact Hwf | lra]).
  assert (Hsp : 0 <= sp < PI / 2) by (apply candidate_range; [exact Hwf | lra]).
  assert (Hex : 0 <= ex < PI / 4) by (apply candidate_range; [exact Hwf | lra]).
  exists x, (- x - Np.sign x * sp), (Np.sign x * sp + ex).
  split; [exact Hs|]. split; [exact Hx|].
  unfold Np.sign.
  destruct (Rlt_dec x 0) as [Hneg|Hnn]; [|destruct (Rlt_dec 0 x) as [Hp|Hnp]].
  - split; [intro; lra|]. split; [intro; lra|]. split; [nra | lra].
  - split; [intro; lra|]. split; [intro; lra|]. split; [nra | lra].
  - split; [intro; lra|]. split; [intro; lra|]. split; [nra | lra].
Qed.

Lemma sampled_state_shape_half :
  exists x e z,
    Peg2D._get_state 1 half_stream
    = (Some [x; e; z], Rng.advance 20 half_stream)
    /\ 0 <= x + e + z < PI / 4.
Proof.
  pose proof (get_state_accepts_first half_stream 0 half_stream_well_formed) as H.
  destruct (sampled_state_shape 1 half_stream _ _ half_stream_well_formed H)
    as (x & e & z & Hs & _ & _ & _ & _ & Hsum).
  exists x, e, z. rewrite <- Hs. split; [exact H | exact Hsum].
Defined.
